(** * ClosureAI history migration: Plastic SCM changesets replayed as Git commits

    A shallow embedding of [migrate_plastic_to_git.py] and [migrate_simple.py].

    - Python [str] values are sequences of Unicode code points ([pystr]).
    - The parsed XML document is an [Element] tree, as [xml.etree] hands it
      to the scripts.
    - Python exceptions are the [Raise] case of [result].
    - Everything outside the scripts (the shell that runs [git] and [cm], the
      file system, [int], text decoding, [os.path]) is a [Platform]; the
      scripts are functions of it, and every effect they have is recorded in
      a trace of [Event]s. *)

From Stdlib Require Import ZArith List String Ascii DecimalString Lia.
From Stdlib Require DecimalPos DecimalZ.
From Stdlib Require Import Sorting.Sorted Sorting.Permutation.
From stdpp Require Import base gmap sets list sorting.

Open Scope Z_scope.

(** ** Python strings *)

Definition pystr : Type := list N.
Definition bytes : Type := list N.

(** A literal of the source, character by character. *)
Definition lit (s : string) : pystr := map N_of_ascii (list_ascii_of_string s).

Definition chr (a : ascii) : N := N_of_ascii a.

(** [str.isspace] on one character: the code points CPython's
    [_PyUnicode_IsWhitespace] accepts. *)
Definition isspace (c : N) : bool :=
  ((9 <=? c) && (c <=? 13) || (28 <=? c) && (c <=? 32)
   || (c =? 133) || (c =? 160) || (c =? 5760)
   || (8192 <=? c) && (c <=? 8202)
   || (c =? 8232) || (c =? 8233) || (c =? 8239) || (c =? 8287)
   || (c =? 12288))%N.

Fixpoint lstrip_with (p : N -> bool) (s : pystr) : pystr :=
  match s with
  | c :: s' => if p c then lstrip_with p s' else s
  | [] => []
  end.

Definition rstrip_with (p : N -> bool) (s : pystr) : pystr :=
  rev (lstrip_with p (rev s)).

(** [s.strip()] *)
Definition strip (s : pystr) : pystr := rstrip_with isspace (lstrip_with isspace s).

(** [s.lstrip(c)] for a one-character argument. *)
Definition lstrip_char (c : N) (s : pystr) : pystr := lstrip_with (N.eqb c) s.

(** [s.replace(old, new)] for a one-character [old]. *)
Definition replace_char (old : N) (new : pystr) (s : pystr) : pystr :=
  flat_map (fun c => if N.eqb c old then new else [c]) s.

(** [sep.join(parts)] *)
Fixpoint join (sep : pystr) (parts : list pystr) : pystr :=
  match parts with
  | [] => []
  | [p] => p
  | p :: rest => p ++ sep ++ join sep rest
  end.

(** [str(n)] for an [int]. *)
Definition str_of_Z (z : Z) : pystr := lit (NilZero.string_of_int (Z.to_int z)).
Definition str_of_nat (n : nat) : pystr := str_of_Z (Z.of_nat n).

(** [str(x)] where [x] is a string or [None], as an f-string formats it. *)
Definition str_of_opt (o : option pystr) : pystr :=
  match o with Some s => s | None => lit "None" end.

(** [f"{s:>w}"] and [f"{s:<w}"]: pad with spaces up to width [w]. *)
Definition rjust (w : nat) (s : pystr) : pystr :=
  repeat (chr " ") (w - length s) ++ s.
Definition ljust (w : nat) (s : pystr) : pystr :=
  s ++ repeat (chr " ") (w - length s).

(** Truth value of a string. *)
Definition nonempty (s : pystr) : bool :=
  match s with [] => false | _ => true end.

(** [x or ''], with [''] the empty string *)
Definition or_empty (o : option pystr) : pystr :=
  match o with
  | Some s => if nonempty s then s else []
  | None => []
  end.

(** ** Exceptions *)

(** [SubprocessRunError] stands for whatever [subprocess.run] raised: a
    shell that cannot be started, a timeout, an output that cannot be
    decoded. *)
Inductive PyExc :=
  AttributeError | TypeError | ValueError | IndexError | OSError
| RuntimeError | SubprocessRunError.

Inductive result (A : Type) : Type :=
| Ok (a : A)
| Raise (e : PyExc).
Arguments Ok {A} a.
Arguments Raise {A} e.

Definition rbind {A B} (r : result A) (f : A -> result B) : result B :=
  match r with
  | Ok a => f a
  | Raise e => Raise e
  end.

Fixpoint rmap {A B} (f : A -> result B) (l : list A) : result (list B) :=
  match l with
  | [] => Ok []
  | x :: l' => rbind (f x) (fun y => rbind (rmap f l') (fun ys => Ok (y :: ys)))
  end.

Declare Scope res_scope.
Delimit Scope res_scope with res.
Notation "'let?' x := r 'in' k" := (rbind r (fun x => k))
  (at level 10, x name, r at level 100, k at level 200, only parsing) : res_scope.

(** ** The history document *)

#[local] Unset Elimination Schemes.
Inductive Element : Type :=
| Elem (tag : pystr) (text : option pystr) (children : list Element).
#[local] Set Elimination Schemes.

Definition tag_of (e : Element) : pystr := let 'Elem t _ _ := e in t.
Definition text_of (e : Element) : option pystr := let 'Elem _ x _ := e in x.
Definition children_of (e : Element) : list Element := let 'Elem _ _ c := e in c.

Definition has_tag (t : pystr) (e : Element) : bool := bool_decide (tag_of e = t).

(** [e.findall(t)]: the direct children with tag [t], in document order. *)
Definition findall (t : pystr) (e : Element) : list Element :=
  List.filter (has_tag t) (children_of e).

(** [e.find(t)]: the first such child, or [None]. *)
Definition find (t : pystr) (e : Element) : option Element :=
  head (findall t e).

(** [x.text] where [x] is the result of a [find]: an attribute access on
    [None] raises. *)
Definition dot_text (o : option Element) : result (option pystr) :=
  match o with
  | Some e => Ok (text_of e)
  | None => Raise AttributeError
  end.

(** ** Stable sort by an integer key

    [list.sort(key=...)] and [sorted(..., key=...)] are stable; the list
    they produce is the one this insertion sort produces. *)

Section SortBy.
Context {A : Type} (key : A -> Z).

Fixpoint insert_by (x : A) (l : list A) : list A :=
  match l with
  | [] => [x]
  | y :: l' => if key x <=? key y then x :: l else y :: insert_by x l'
  end.

Definition sort_by (l : list A) : list A := foldr insert_by [] l.

Definition key_le (x y : A) : Prop := key x <= key y.
End SortBy.

(** The mapping of a Plastic branch path to a Git branch name, written
    [branch.lstrip('/').replace('/', '-')] at each of its uses. *)
Definition git_branch_name (branch : pystr) : pystr :=
  replace_char (chr "/") (lit "-") (lstrip_char (chr "/") branch).

(** ** Configuration *)

Definition GIT_AUTHOR_EMAIL : pystr := lit "danilodevs@gmail.com".
Definition GIT_AUTHOR_NAME : pystr := lit "Danilo Devs".
Definition WORK_DIR : pystr := lit "E:\Projects\Unity\ClosureBT".

(** ** Shell commands

    Each constructor is one of the command lines the scripts build;
    [cmd_text] is the string handed to [subprocess.run]. *)

Inductive Cmd : Type :=
| GitRevParse (git_branch : pystr)
| GitCheckoutNew (git_branch : pystr)
| GitCheckout (git_branch : pystr)
| CmCat (path : option pystr) (cs_id : Z)
| GitRm (path : pystr)
| GitAddAll
| GitCommit (author_email author_name : pystr) (timestamp : option pystr)
            (message_safe : pystr)
| CmSwitch (cs_id : Z)
| GitBranchAll.

(** The double-quote character of the command lines. *)
Definition dq : pystr := [34%N].

Definition cmd_text (c : Cmd) : pystr :=
  match c with
  | GitRevParse b => lit "git rev-parse --verify " ++ b ++ lit " 2>nul"
  | GitCheckoutNew b => lit "git checkout -b " ++ b
  | GitCheckout b => lit "git checkout " ++ b
  | CmCat path cs_id =>
      lit "cm cat " ++ dq ++ str_of_opt path ++ dq ++ lit " --rev=" ++ dq
        ++ lit "cs:" ++ str_of_Z cs_id ++ dq ++ lit " 2>nul"
  | GitRm path => lit "git rm " ++ dq ++ path ++ dq ++ lit " 2>nul"
  | GitAddAll => lit "git add -A"
  | GitCommit email name timestamp message_safe =>
      lit "git -c user.email=" ++ dq ++ email ++ dq
        ++ lit " -c user.name=" ++ dq ++ name ++ dq
        ++ lit " commit --allow-empty --date=" ++ dq ++ str_of_opt timestamp ++ dq
        ++ lit " -m " ++ dq ++ message_safe ++ dq
  | CmSwitch cs_id => lit "cm switch cs:" ++ str_of_Z cs_id
  | GitBranchAll => lit "git branch -a"
  end.

(** What [subprocess.run] does with a command: the process exits with an
    output and a return code, or the call itself raises (a timeout, a
    failure to start the shell). *)
Inductive ShellOutcome : Type :=
| Exited (stdout : bytes) (returncode : Z)
| Crashed.

Definition returncode_of (o : ShellOutcome) : Z :=
  match o with
  | Exited _ code => code
  | Crashed => 1
  end.

(** [s.encode('utf-8', errors='ignore')]: lone surrogates are dropped. *)
Definition utf8_char (c : N) : bytes :=
  (if c <? 128 then [c]
   else if c <? 2048 then [192 + c / 64; 128 + c mod 64]
   else if (55296 <=? c) && (c <=? 57343) then []
   else if c <? 65536 then
     [224 + c / 4096; 128 + (c / 64) mod 64; 128 + c mod 64]
   else
     [240 + c / 262144; 128 + (c / 4096) mod 64; 128 + (c / 64) mod 64;
      128 + c mod 64])%N.

Definition encode_utf8_ignore (s : pystr) : bytes := flat_map utf8_char s.

(** ** Console output

    One constructor for each [print] of the two scripts; [output_text] is
    the text written.  The five [print]s that end each run form one
    summary. *)

Inductive Output : Type :=
| PParsing
| PFound (total : nat) (first_id last_id : Z)
| PStarting
| PProgress (cs_num total : nat) (cs_id : Z) (branch_display : pystr)
| PCreatedBranch (git_branch : pystr)
| PWarning (path : option pystr)
| PCommitted
| PCommitFailed
| PSummary (commits_created branches_created : nat)
| PBranchesHeader
| PCommandError (cmd : pystr)
| SParsing
| SFound (total : nat)
| SMigrating
| SProgress (cs_num total : nat) (cs_id : Z)
| SSwitchFailed
| SCommitted
| SCommitFailed
| SSummary (success_count total : nat) (branches : list pystr)
| SCommandError.

Definition nl : pystr := [10%N].
Definition rule70 : pystr := repeat (chr "=") 70.

Definition output_text (o : Output) : pystr :=
  match o with
  | PParsing => lit "Parsing Plastic SCM history..." ++ nl
  | PFound total first_id last_id =>
      lit "Found " ++ str_of_nat total ++ lit " changesets (IDs: "
        ++ str_of_Z first_id ++ lit " to " ++ str_of_Z last_id ++ lit ")"
        ++ nl ++ nl
  | PStarting => lit "Starting migration..." ++ nl ++ nl
  | PProgress cs_num total cs_id branch_display =>
      lit "[" ++ rjust 3 (str_of_nat cs_num) ++ lit "/" ++ str_of_nat total
        ++ lit "] cs:" ++ rjust 3 (str_of_Z cs_id) ++ lit " | "
        ++ ljust 40 branch_display ++ lit " | "
  | PCreatedBranch git_branch =>
      lit "    Created branch: " ++ git_branch ++ nl
  | PWarning path =>
      lit "      Warning: Could not extract " ++ str_of_opt path ++ nl
  | PCommitted => [10003%N] ++ nl
  | PCommitFailed => [10007%N] ++ lit " commit failed" ++ nl
  | PSummary commits_created branches_created =>
      nl ++ rule70 ++ nl
        ++ [10003%N] ++ lit " Migration complete!" ++ nl
        ++ lit "  - " ++ str_of_nat commits_created ++ lit " commits created" ++ nl
        ++ lit "  - " ++ str_of_nat branches_created ++ lit " branches created" ++ nl
        ++ rule70 ++ nl ++ nl
  | PBranchesHeader => lit "Branches created:" ++ nl
  | PCommandError cmd =>
      (* followed by a line with the text of the exception *)
      lit "Error running command: " ++ cmd ++ nl
  | SParsing => lit "Parsing history..." ++ nl
  | SFound total => lit "Found " ++ str_of_nat total ++ lit " changesets" ++ nl ++ nl
  | SMigrating => lit "Migrating..." ++ nl ++ nl
  | SProgress cs_num total cs_id =>
      lit "[" ++ rjust 3 (str_of_nat cs_num) ++ lit "/" ++ str_of_nat total
        ++ lit "] cs:" ++ rjust 3 (str_of_Z cs_id) ++ lit " | "
  | SSwitchFailed => lit "X switch failed" ++ nl
  | SCommitted => lit "OK" ++ nl
  | SCommitFailed => lit "FAIL" ++ nl
  | SSummary success_count total branches =>
      nl ++ rule70 ++ nl
        ++ lit "Complete: " ++ str_of_nat success_count ++ lit "/"
        ++ str_of_nat total ++ lit " commits created" ++ nl
        ++ lit "  Branches: " ++ join (lit ", ") branches ++ nl
        ++ rule70 ++ nl ++ nl
  | SCommandError =>
      (* followed by the text of the exception *)
      lit "Error: "
  end.

(** ** The platform and the trace *)

Class Platform : Type := {
  (** the state of everything outside the script *)
  World : Type;
  (** [int(s)] on a string; [None] where it raises [ValueError] *)
  py_int : pystr -> option Z;
  (** the decoding [subprocess.run(..., text=True)] applies to a captured
      output; [None] where it raises *)
  text_decode : bytes -> option pystr;
  (** [subprocess.run(cmd, shell=True, cwd=WORK_DIR)] *)
  shell : pystr -> World -> ShellOutcome * World;
  path_join : pystr -> pystr -> pystr;
  path_dirname : pystr -> pystr;
  (** [os.path.exists] *)
  path_exists : pystr -> World -> bool;
  (** [os.makedirs(p, exist_ok=True)], [open(p, 'wb')] with the [write],
      and [os.remove]; [None] where they raise [OSError] *)
  makedirs : pystr -> World -> option World;
  write_file : pystr -> bytes -> World -> option World;
  remove_file : pystr -> World -> option World
}.

Inductive Event : Type :=
| Ran (c : Cmd) (o : ShellOutcome)
| Printed (o : Output)
| MadeDirs (path : pystr)
| Wrote (path : pystr) (content : bytes)
| Removed (path : pystr).

Section Effects.
Context `{Platform}.

(** A computation of the script: from a world, a result or an exception,
    the world it leaves, and the events it caused, oldest first. *)
Definition M (A : Type) : Type := World -> result A * World * list Event.

Definition ret {A} (a : A) : M A := fun w => (Ok a, w, []).

Definition raise {A} (e : PyExc) : M A := fun w => (Raise e, w, []).

Definition bind {A B} (m : M A) (f : A -> M B) : M B :=
  fun w =>
    match m w with
    | (Ok a, w1, t1) => let '(r, w2, t2) := f a w1 in (r, w2, t1 ++ t2)
    | (Raise e, w1, t1) => (Raise e, w1, t1)
    end.

Definition lift {A} (r : result A) : M A := fun w => (r, w, []).

Definition print (o : Output) : M unit := fun w => (Ok tt, w, [Printed o]).

Definition subprocess_run (c : Cmd) : M ShellOutcome :=
  fun w => let '(o, w') := shell (cmd_text c) w in (Ok o, w', [Ran c o]).

Definition os_path_exists (p : pystr) : M bool :=
  fun w => (Ok (path_exists p w), w, []).

Definition os_makedirs (p : pystr) : M unit :=
  fun w =>
    match makedirs p w with
    | Some w' => (Ok tt, w', [MadeDirs p])
    | None => (Raise OSError, w, [])
    end.

Definition write_binary (p : pystr) (content : bytes) : M unit :=
  fun w =>
    match write_file p content w with
    | Some w' => (Ok tt, w', [Wrote p content])
    | None => (Raise OSError, w, [])
    end.

Definition os_remove (p : pystr) : M unit :=
  fun w =>
    match remove_file p w with
    | Some w' => (Ok tt, w', [Removed p])
    | None => (Raise OSError, w, [])
    end.

(** A [for] loop over a list that threads the loop's variables. *)
Fixpoint for_each {A S} (body : A -> S -> M S) (l : list A) (s : S) : M S :=
  match l with
  | [] => ret s
  | x :: l' => bind (body x s) (for_each body l')
  end.
End Effects.

Declare Scope eff_scope.
Delimit Scope eff_scope with eff.
Notation "'let!' x := m 'in' k" := (bind m (fun x => k))
  (at level 10, x pattern, m at level 100, k at level 200, only parsing) : eff_scope.
Notation "m ;; k" := (bind m (fun _ => k))
  (at level 100, k at level 200, right associativity, only parsing) : eff_scope.

Section Builtins.
Context `{Platform}.

(** [int(x)] where [x] is the [text] of an element. *)
Definition int_of_text (x : option pystr) : result Z :=
  match x with
  | None => Raise TypeError
  | Some s =>
      match py_int s with
      | Some z => Ok z
      | None => Raise ValueError
      end
  end.
End Builtins.

(** [enumerate(l)] *)
Fixpoint enumerate_from {A} (i : nat) (l : list A) : list (nat * A) :=
  match l with
  | [] => []
  | x :: l' => (i, x) :: enumerate_from (S i) l'
  end.
Definition enumerate {A} (l : list A) : list (nat * A) := enumerate_from 0 l.

(** A [defaultdict(int)] read at a key. *)
Definition count_at {K} `{Countable K} (m : gmap K nat) (k : K) : nat :=
  default 0%nat (m !! k).

(** [d[k] += 1] on a [defaultdict(int)]. *)
Definition incr_at {K} `{Countable K} (k : K) (m : gmap K nat) : gmap K nat :=
  <[k := S (count_at m k)]> m.

(** The branch-tracking variables of both drivers. *)
Record Tracking : Type := {
  git_branches : gset pystr;
  current_branch : option pystr
}.

Definition tracking_init : Tracking :=
  {| git_branches := ∅; current_branch := None |}.

(** [current_branch = git_branch; git_branches.add(git_branch)] *)
Definition track (git_branch : pystr) (t : Tracking) : Tracking :=
  {| git_branches := {[git_branch]} ∪ git_branches t;
     current_branch := Some git_branch |}.

(** The parts of a synthesized message, built by the four [if]s that both
    scripts share. *)
Definition message_parts (change_types : gmap (option pystr) nat) : list pystr :=
  let count t := count_at change_types (Some (lit t)) in
  let parts := [] in
  let parts :=
    if negb (Nat.eqb (count "Added"%string) 0)
    then parts ++ [lit "Add " ++ str_of_nat (count "Added"%string) ++ lit " file(s)"]
    else parts in
  let parts :=
    if negb (Nat.eqb (count "Changed"%string) 0)
    then parts ++ [lit "Update " ++ str_of_nat (count "Changed"%string) ++ lit " file(s)"]
    else parts in
  let parts :=
    if negb (Nat.eqb (count "Deleted"%string) 0)
    then parts ++ [lit "Delete " ++ str_of_nat (count "Deleted"%string) ++ lit " file(s)"]
    else parts in
  let parts :=
    if negb (Nat.eqb (count "Moved"%string) 0)
    then parts ++ [lit "Move " ++ str_of_nat (count "Moved"%string) ++ lit " file(s)"]
    else parts in
  parts.

Definition fallback_message (cs_id : Z) : pystr :=
  lit "Update (changeset " ++ str_of_Z cs_id ++ lit ")".

(** ** migrate_plastic_to_git.py *)

Module Plastic.

Record Change : Type := {
  type : option pystr;
  src_path : option pystr;
  dst_path : option pystr
}.

Record Changeset : Type := {
  id : Z;
  branch : option pystr;
  comment : pystr;
  owner : option pystr;
  date_str : option pystr;
  changes : list Change
}.

Inductive Action := add_or_update | delete.

Section Script.
Context `{Platform}.
Open Scope res_scope.
Open Scope eff_scope.

(** [run_command(cmd, capture, check=check)]; no call passes [cwd],
    which is then [WORK_DIR].  With [check] a return code other than 0
    raises [RuntimeError] and what [subprocess.run] raised is raised
    again; without it the handler prints and hands back code 1. *)
Definition run_command (c : Cmd) (capture check : bool) : M (option pystr * Z) :=
  let! o := subprocess_run c in
  match o with
  | Exited stdout returncode =>
      if capture then
        match text_decode stdout with
        | Some text =>
            if check && negb (returncode =? 0) then raise RuntimeError
            else ret (Some (strip text), returncode)
        | None =>
            if check then raise SubprocessRunError
            else print (PCommandError (cmd_text c)) ;; ret (None, 1)
        end
      else
        if check && negb (returncode =? 0) then raise RuntimeError
        else ret (None, returncode)
  | Crashed =>
      if check then raise SubprocessRunError
      else print (PCommandError (cmd_text c)) ;; ret (None, 1)
  end.

Definition parse_item (item : Element) : result Change :=
  let? change_type := dot_text (find (lit "Type") item) in
  let? src := dot_text (find (lit "SrcCmPath") item) in
  let? dst := dot_text (find (lit "DstCmPath") item) in
  Ok {| type := change_type; src_path := src; dst_path := dst |}.

Definition parse_changeset (cs_elem : Element) : result Changeset :=
  let? id_text := dot_text (find (lit "ChangesetId") cs_elem) in
  let? cs_id := int_of_text id_text in
  let? branch := dot_text (find (lit "Branch") cs_elem) in
  let? comment_text := dot_text (find (lit "Comment") cs_elem) in
  let? owner := dot_text (find (lit "Owner") cs_elem) in
  let? date_str := dot_text (find (lit "Date") cs_elem) in
  let? changes :=
    match find (lit "Changes") cs_elem with
    | Some changes_elem => rmap parse_item (findall (lit "Item") changes_elem)
    | None => Raise AttributeError
    end in
  Ok {| id := cs_id; branch := branch; comment := or_empty comment_text;
        owner := owner; date_str := date_str; changes := changes |}.

Definition parse_xml_history (root : Element) : result (list Changeset) :=
  let? changesets := rmap parse_changeset (findall (lit "Changeset") root) in
  Ok (sort_by id changesets).

Definition tally (l : list Change) : gmap (option pystr) nat :=
  foldl (fun change_types change => incr_at (type change) change_types) ∅ l.

Definition generate_commit_message (cs : Changeset) : pystr :=
  if nonempty (strip (comment cs)) then comment cs
  else
    let change_types := tally (changes cs) in
    if bool_decide (change_types = ∅) then fallback_message (id cs)
    else join (lit ", ") (message_parts change_types).

Definition get_or_create_branch (branch_name : pystr) : M pystr :=
  let git_branch := git_branch_name branch_name in
  let! (_, code) := run_command (GitRevParse git_branch) false false in
  (if negb (code =? 0)
   then run_command (GitCheckoutNew git_branch) false false ;;
        print (PCreatedBranch git_branch)
   else run_command (GitCheckout git_branch) false false ;; ret tt) ;;
  ret git_branch.

Definition files_of_change (changeset_id : Z) (change : Change)
  : list (Action * option pystr * Z) :=
  let change_type := type change in
  let path := dst_path change in
  if bool_decide (change_type = Some (lit "Added"))
     || bool_decide (change_type = Some (lit "Changed"))
  then [(add_or_update, path, changeset_id)]
  else if bool_decide (change_type = Some (lit "Deleted"))
  then [(delete, path, changeset_id)]
  else if bool_decide (change_type = Some (lit "Moved"))
  then [(delete, src_path change, changeset_id);
        (add_or_update, dst_path change, changeset_id)]
  else [].

(** [os.path.join(WORK_DIR, path.lstrip('/'))] *)
Definition full_path_of (path : option pystr) : result pystr :=
  match path with
  | Some p => Ok (path_join WORK_DIR (lstrip_char (chr "/") p))
  | None => Raise AttributeError
  end.

Definition process_file (f : Action * option pystr * Z) : M unit :=
  let '(action, path, cs_id) := f in
  match action with
  | add_or_update =>
      let! (content, code) := run_command (CmCat path cs_id) true false in
      if code =? 0 then
        let! full_path := lift (full_path_of path) in
        os_makedirs (path_dirname full_path) ;;
        match content with
        | Some text => write_binary full_path (encode_utf8_ignore text)
        | None => raise TypeError
        end
      else print (PWarning path)
  | delete =>
      let! full_path := lift (full_path_of path) in
      let! present := os_path_exists full_path in
      if present then
        os_remove full_path ;;
        run_command (GitRm (str_of_opt path)) false false ;; ret tt
      else ret tt
  end.

Definition apply_changeset_files (cs : Changeset) (changeset_id : Z) : M unit :=
  let files_to_process := flat_map (files_of_change changeset_id) (changes cs) in
  for_each (fun f _ => process_file f) files_to_process tt.

Definition escape_message (message : pystr) : pystr :=
  replace_char (chr "$") (lit "\$") (replace_char 34%N (lit "\" ++ dq) message).

Definition create_git_commit (message : pystr) (date_str : option pystr)
           (author_email author_name : pystr) : M bool :=
  run_command GitAddAll false false ;;
  let timestamp := date_str in
  let message_safe := escape_message message in
  let! (_, code) :=
    run_command (GitCommit author_email author_name timestamp message_safe)
                false false in
  ret (code =? 0).

(** The body of the loop of [migrate_history]. *)
Definition process_changeset (total : nat) (ics : nat * Changeset)
           (t : Tracking) : M Tracking :=
  let '(i, cs) := ics in
  let cs_num := (i + 1)%nat in
  let! branch_text :=
    lift (match branch cs with Some b => Ok b | None => Raise TypeError end) in
  let branch_display := take 40 branch_text in
  print (PProgress cs_num total (id cs) branch_display) ;;
  let git_branch := git_branch_name branch_text in
  let! t :=
    if bool_decide (Some git_branch = current_branch t) then ret t
    else get_or_create_branch git_branch ;; ret (track git_branch t) in
  let message := generate_commit_message cs in
  apply_changeset_files cs (id cs) ;;
  let! committed :=
    create_git_commit message (date_str cs) GIT_AUTHOR_EMAIL GIT_AUTHOR_NAME in
  print (if committed : bool then PCommitted else PCommitFailed) ;;
  ret t.

Definition migrate_history (root : Element) : M Tracking :=
  print PParsing ;;
  let! changesets := lift (parse_xml_history root) in
  let! first_id :=
    lift (match head changesets with Some cs => Ok (id cs) | None => Raise IndexError end) in
  let! last_id :=
    lift (match last changesets with Some cs => Ok (id cs) | None => Raise IndexError end) in
  print (PFound (length changesets) first_id last_id) ;;
  print PStarting ;;
  let! t :=
    for_each (process_changeset (length changesets)) (enumerate changesets)
             tracking_init in
  print (PSummary (length changesets) (size (git_branches t))) ;;
  print PBranchesHeader ;;
  run_command GitBranchAll false false ;;
  ret t.
End Script.
End Plastic.

(** Order of [str] values: by code point, the shorter of two that agree
    first. *)
Fixpoint str_le (a b : pystr) : bool :=
  match a, b with
  | [], _ => true
  | _ :: _, [] => false
  | x :: a', y :: b' => (x <? y)%N || (x =? y)%N && str_le a' b'
  end.

(** [sorted(s)] on a set of strings. *)
Definition sorted_strs (s : gset pystr) : list pystr :=
  merge_sort (fun a b => Is_true (str_le a b)) (elements s).

(** ** migrate_simple.py *)

Module Simple.

Record Changeset : Type := {
  id : Z;
  branch : option pystr;
  comment : pystr;
  date : option pystr
}.

Record Loop : Type := {
  tracking : Tracking;
  success_count : nat
}.

Section Script.
Context `{Platform}.
Open Scope res_scope.
Open Scope eff_scope.

Definition run_cmd (c : Cmd) (capture : bool) : M (option pystr * Z) :=
  let! o := subprocess_run c in
  match o with
  | Exited stdout returncode =>
      if capture then
        match text_decode stdout with
        | Some text => ret (Some (strip text), returncode)
        | None => print SCommandError ;; ret (None, 1)
        end
      else ret (None, returncode)
  | Crashed => print SCommandError ;; ret (None, 1)
  end.

(** [cs.find('Changes') or []], iterated: an element with no children
    is false, and iterating an element yields its children. *)
Definition changes_items (cs : Element) : list Element :=
  match find (lit "Changes") cs with
  | Some changes_elem =>
      match children_of changes_elem with
      | [] => []
      | _ :: _ => children_of changes_elem
      end
  | None => []
  end.

Definition tally_item (change_types : gmap (option pystr) nat) (item : Element)
  : result (gmap (option pystr) nat) :=
  let? change_type := dot_text (find (lit "Type") item) in
  Ok (incr_at change_type change_types).

Fixpoint tally (change_types : gmap (option pystr) nat) (items : list Element)
  : result (gmap (option pystr) nat) :=
  match items with
  | [] => Ok change_types
  | item :: items' =>
      let? change_types := tally_item change_types item in
      tally change_types items'
  end.

Definition parse_changeset (cs : Element) : result Changeset :=
  let? id_text := dot_text (find (lit "ChangesetId") cs) in
  let? cs_id := int_of_text id_text in
  let? branch := dot_text (find (lit "Branch") cs) in
  let? comment_text := dot_text (find (lit "Comment") cs) in
  let comment := strip (or_empty comment_text) in
  let? date_str := dot_text (find (lit "Date") cs) in
  let? change_types := tally ∅ (changes_items cs) in
  let comment :=
    if negb (nonempty comment) then
      let parts := message_parts change_types in
      match parts with
      | _ :: _ => join (lit ", ") parts
      | [] => fallback_message cs_id
      end
    else comment in
  Ok {| id := cs_id; branch := branch; comment := comment; date := date_str |}.

Definition parse_history (root : Element) : result (list Changeset) :=
  let? changesets := rmap parse_changeset (findall (lit "Changeset") root) in
  Ok (sort_by id changesets).

Definition escape_message (comment : pystr) : pystr :=
  replace_char (chr "'") (lit "'\''") (replace_char 34%N (lit "\" ++ dq) comment).

(** The body of the loop of [migrate]. *)
Definition process_changeset (total : nat) (ics : nat * Changeset)
           (s : Loop) : M Loop :=
  let '(i, cs) := ics in
  print (SProgress (i + 1) total (id cs)) ;;
  let! (_, code) := run_cmd (CmSwitch (id cs)) false in
  if negb (code =? 0) then print SSwitchFailed ;; ret s
  else
    let! branch_text :=
      lift (match branch cs with Some b => Ok b | None => Raise AttributeError end) in
    let git_branch := git_branch_name branch_text in
    let! t :=
      if bool_decide (Some git_branch = current_branch (tracking s))
      then ret (tracking s)
      else
        let! (_, check_code) := run_cmd (GitRevParse git_branch) false in
        (if negb (check_code =? 0)
         then run_cmd (GitCheckoutNew git_branch) false
         else run_cmd (GitCheckout git_branch) false) ;;
        ret (track git_branch (tracking s)) in
    run_cmd GitAddAll false ;;
    let message := escape_message (comment cs) in
    let! (_, code) :=
      run_cmd (GitCommit GIT_AUTHOR_EMAIL GIT_AUTHOR_NAME (date cs) message) false in
    if code =? 0
    then print SCommitted ;;
         ret {| tracking := t; success_count := success_count s + 1 |}
    else print SCommitFailed ;;
         ret {| tracking := t; success_count := success_count s |}.

Definition migrate (root : Element) : M Loop :=
  print SParsing ;;
  let! changesets := lift (parse_history root) in
  print (SFound (length changesets)) ;;
  print SMigrating ;;
  let! s :=
    for_each (process_changeset (length changesets)) (enumerate changesets)
             {| tracking := tracking_init; success_count := 0 |} in
  print (SSummary (success_count s) (length changesets)
                  (sorted_strs (git_branches (tracking s)))) ;;
  ret s.
End Script.
End Simple.

(** ** A platform to run the scripts on

    The world has no state: a command's outcome depends on its text alone
    ([sh]), the listed paths exist, and the file operations succeed.
    [int_ascii] is [int] on ASCII numerals of digits and a sign,
    [decode_ascii] the decoding of ASCII output with universal newlines,
    and the path functions are those of [os.path] on Windows for a
    directory without trailing separator and relative paths below it, as
    in the examples. *)

Fixpoint digits_value (acc : Z) (s : pystr) : option Z :=
  match s with
  | [] => Some acc
  | c :: s' =>
      if ((48 <=? c) && (c <=? 57))%N
      then digits_value (10 * acc + (Z.of_N c - 48)) s'
      else None
  end.

Definition int_ascii (s : pystr) : option Z :=
  match strip s with
  | [] => None
  | c :: d =>
      if (c =? 45)%N then
        match d with [] => None | _ => Z.opp <$> digits_value 0 d end
      else if (c =? 43)%N then
        match d with [] => None | _ => digits_value 0 d end
      else digits_value 0 (c :: d)
  end.

Fixpoint universal_newlines (s : pystr) : pystr :=
  match s with
  | [] => []
  | c :: s' =>
      if (c =? 13)%N then
        match s' with
        | c' :: s'' => if (c' =? 10)%N then 10%N :: universal_newlines s''
                       else 10%N :: universal_newlines s'
        | [] => [10%N]
        end
      else c :: universal_newlines s'
  end.

Definition decode_ascii (b : bytes) : option pystr :=
  if forallb (fun c => (c <? 128)%N) b then Some (universal_newlines b) else None.

Fixpoint starts_with (prefix s : pystr) : bool :=
  match prefix, s with
  | [], _ => true
  | _ :: _, [] => false
  | x :: p', y :: s' => (x =? y)%N && starts_with p' s'
  end.

(** The separators of a Windows path: the backslash and the slash. *)
Definition is_sep (c : N) : bool := ((c =? 92) || (c =? 47))%N.

Definition scripted (sh : pystr -> ShellOutcome) (present : list pystr) : Platform :=
  {| World := unit;
     py_int := int_ascii;
     text_decode := decode_ascii;
     shell := fun cmd w => (sh cmd, w);
     path_join := fun a b => a ++ lit "\" ++ b;
     path_dirname := fun p =>
       rstrip_with is_sep (rstrip_with (fun c => negb (is_sep c)) p);
     path_exists := fun p _ => bool_decide (p ∈ present);
     makedirs := fun _ w => Some w;
     write_file := fun _ _ w => Some w;
     remove_file := fun _ w => Some w |}.

(** The trace of a computation on a scripted platform. *)
Definition trace_of {A} {P : Platform} (m : @M P A) (w : @World P) : list Event :=
  snd (m w).
Definition outcome_of {A} {P : Platform} (m : @M P A) (w : @World P) : result A :=
  fst (fst (m w)).

(** ** Reading a trace *)

(** The commands run, each with the return code [run_command] reports. *)
Definition run_of (e : Event) : list (Cmd * Z) :=
  match e with Ran c o => [(c, returncode_of o)] | _ => [] end.
Definition runs (tr : list Event) : list (Cmd * Z) := flat_map run_of tr.

Definition printed_of (e : Event) : list Output :=
  match e with Printed o => [o] | _ => [] end.
Definition printed (tr : list Event) : list Output := flat_map printed_of tr.

Definition written_of (e : Event) : list (pystr * bytes) :=
  match e with Wrote p content => [(p, content)] | _ => [] end.
Definition written (tr : list Event) : list (pystr * bytes) := flat_map written_of tr.

Definition is_commit (c : Cmd) : bool :=
  match c with GitCommit _ _ _ _ => true | _ => false end.

Definition is_branch_cmd (c : Cmd) : bool :=
  match c with
  | GitRevParse _ | GitCheckoutNew _ | GitCheckout _ => true
  | _ => false
  end.

Definition is_cm_cat (c : Cmd) : bool :=
  match c with CmCat _ _ => true | _ => false end.

(** The commit commands run, with their return codes. *)
Definition commit_attempts (tr : list Event) : list (Cmd * Z) :=
  List.filter (fun r => is_commit (fst r)) (runs tr).

Definition branch_attempts (tr : list Event) : list (Cmd * Z) :=
  List.filter (fun r => is_branch_cmd (fst r)) (runs tr).

(** How many commit commands returned 0. *)
Definition commits_succeeded (tr : list Event) : nat :=
  length (List.filter (fun r => snd r =? 0) (commit_attempts tr)).

(** The changeset ids of the progress lines, in the order printed. *)
Definition progress_id (o : Output) : list Z :=
  match o with
  | PProgress _ _ cs_id _ => [cs_id]
  | SProgress _ _ cs_id => [cs_id]
  | _ => []
  end.
Definition progress_ids (tr : list Event) : list Z := flat_map progress_id (printed tr).

(** ** The branch mapping in the words of the specification

    Strip one leading separator, then replace every remaining separator
    with [-]. *)
Definition strip_one_leading (c : N) (s : pystr) : pystr :=
  match s with
  | x :: s' => if (x =? c)%N then s' else s
  | [] => []
  end.

Definition branch_name_as_specified (branch : pystr) : pystr :=
  replace_char (chr "/") (lit "-") (strip_one_leading (chr "/") branch).

(** One character of a flattened name. *)
Definition flatten_char (c : N) : N := if (c =? chr "/")%N then chr "-" else c.

(** ** The synthesized message in the words of the specification

    Each of the four change types that is present, with its count, in the
    order Added, Changed, Deleted, Moved, joined by a comma and a space. *)
Definition count_type (t : string) (types : list (option pystr)) : nat :=
  length (List.filter (fun x => bool_decide (x = Some (lit t))) types).

Definition listing_entry (verb : string) (n : nat) : list pystr :=
  match n with
  | O => []
  | S _ => [lit verb ++ lit " " ++ str_of_nat n ++ lit " file(s)"]
  end.

Definition listing (types : list (option pystr)) : list pystr :=
  listing_entry "Add" (count_type "Added" types)
  ++ listing_entry "Update" (count_type "Changed" types)
  ++ listing_entry "Delete" (count_type "Deleted" types)
  ++ listing_entry "Move" (count_type "Moved" types).

Definition listed_message (types : list (option pystr)) : pystr :=
  join (lit ", ") (listing types).

Definition valid_type (t : option pystr) : Prop :=
  t = Some (lit "Added") \/ t = Some (lit "Changed")
  \/ t = Some (lit "Deleted") \/ t = Some (lit "Moved").

(** The [Type] texts of the items of a [Changes] element. *)
Definition item_types (items : list Element) : result (list (option pystr)) :=
  rmap (fun item => dot_text (find (lit "Type") item)) items.

(** ** Kinds of events *)

(** What [run_command] prints when the call raised. *)
Definition crash_note (c : Cmd) (o : ShellOutcome) : list Event :=
  match o with
  | Crashed => [Printed (PCommandError (cmd_text c))]
  | Exited _ _ => []
  end.

(** The same for [run_cmd]. *)
Definition crash_note_simple (o : ShellOutcome) : list Event :=
  match o with
  | Crashed => [Printed SCommandError]
  | Exited _ _ => []
  end.

(** Events of resolving a branch. *)
Definition branch_event (e : Event) : bool :=
  match e with
  | Ran c _ => is_branch_cmd c
  | Printed (PCreatedBranch _) | Printed (PCommandError _) | Printed SCommandError => true
  | _ => false
  end.

(** Events of reconciling the working directory. *)
Definition file_event (e : Event) : bool :=
  match e with
  | Ran (CmCat _ _) _ | Ran (GitRm _) _ => true
  | Printed (PWarning _) | Printed (PCommandError _) => true
  | MadeDirs _ | Wrote _ _ | Removed _ => true
  | _ => false
  end.

(** The checkout that follows a [rev-parse] with return code [c1]. *)
Definition checkout_after (c1 : Z) (git_branch : pystr) : Cmd :=
  if negb (c1 =? 0) then GitCheckoutNew git_branch else GitCheckout git_branch.
Arguments checkout_after : simpl never.

(** The tracking state after a changeset on branch [g]. *)
Definition tracked (g : pystr) (t : Tracking) : Tracking :=
  if bool_decide (Some g = current_branch t) then t else track g t.

(** A character of a decimal numeral: the sign or a digit. *)
Definition numeral_char (c : N) : Prop := (c = 45 \/ 48 <= c <= 57)%N.

(** The commit command of [migrate_plastic_to_git.py] for a message. *)
Definition plastic_commit (date_str : option pystr) (message : pystr) : Cmd :=
  GitCommit GIT_AUTHOR_EMAIL GIT_AUTHOR_NAME date_str (Plastic.escape_message message).

(** The commit command of [migrate_simple.py] for a message. *)
Definition simple_commit (date : option pystr) (message : pystr) : Cmd :=
  GitCommit GIT_AUTHOR_EMAIL GIT_AUTHOR_NAME date (Simple.escape_message message).

(** The current branch, when there is one, is among the branches recorded. *)
Definition tracking_inv (t : Tracking) : Prop :=
  forall g, current_branch t = Some g -> g ∈ git_branches t.

(** ** Example histories and platforms *)

Definition leaf (t x : string) : Element := Elem (lit t) (Some (lit x)) [].

Definition item_elem (change_type src dst : string) : Element :=
  Elem (lit "Item") None
       [leaf "Type" change_type; leaf "SrcCmPath" src; leaf "DstCmPath" dst].

(** A changeset record; [comment] and [changes] may be left out. *)
Definition changeset_elem (cs_id branch : string) (comment : option string)
           (changes : option (list Element)) : Element :=
  Elem (lit "Changeset") None
       ([leaf "ChangesetId" cs_id; leaf "Branch" branch;
         Elem (lit "Comment") (lit <$> comment) [];
         leaf "Owner" "dan"; leaf "Date" "2024-05-01T10:00:00"]
        ++ match changes with
           | Some items => [Elem (lit "Changes") None items]
           | None => []
           end).

(** Changeset 2 before changeset 1. *)
Definition history_2_1 : Element :=
  Elem (lit "History") None
       [changeset_elem "2" "/main/feature-x" None
          (Some [item_elem "Added" "/a.txt" "/a.txt"]);
        changeset_elem "1" "/main" (Some " hi "%string) (Some [])].

(** The same records, changeset 1 first. *)
Definition history_1_2 : Element :=
  Elem (lit "History") None
       [changeset_elem "1" "/main" (Some " hi "%string) (Some []);
        changeset_elem "2" "/main/feature-x" None
          (Some [item_elem "Added" "/a.txt" "/a.txt"])].

(** One changeset with neither comment nor changes, on [/main]. *)
Definition history_empty_changeset : Element :=
  Elem (lit "History") None [changeset_elem "42" "/main" None (Some [])].

(** One changeset whose record has no [Changes] section. *)
Definition history_no_changes_section : Element :=
  Elem (lit "History") None [changeset_elem "7" "/main" (Some "first"%string) None].

(** Two changesets on the same branch. *)
Definition history_same_branch : Element :=
  Elem (lit "History") None
       [changeset_elem "1" "/main" (Some "one"%string) (Some []);
        changeset_elem "2" "/main" (Some "two"%string) (Some [])].

(** The bytes of a two-letter file that ends with a newline. *)
Definition hi_newline : bytes := [104; 105; 10]%N.

(** Every command succeeds; [cm cat] prints [hi_newline]. *)
Definition sh_all_succeed (cmd : pystr) : ShellOutcome :=
  if starts_with (lit "cm cat") cmd then Exited hi_newline 0 else Exited [] 0.

(** [git rev-parse] and [git checkout] fail; the rest is as above. *)
Definition sh_checkout_fails (cmd : pystr) : ShellOutcome :=
  if starts_with (lit "git rev-parse") cmd || starts_with (lit "git checkout") cmd
  then Exited [] 1
  else sh_all_succeed cmd.

(** The commit of the changeset commented [two] fails. *)
Definition sh_commit_two_fails (cmd : pystr) : ShellOutcome :=
  if bool_decide (cmd = cmd_text (plastic_commit (Some (lit "2024-05-01T10:00:00"))
                                    (lit "two")))
  then Exited [] 1
  else sh_all_succeed cmd.

Definition all_succeed : Platform := scripted sh_all_succeed [].
Definition checkout_fails : Platform := scripted sh_checkout_fails [].
Definition commit_two_fails : Platform := scripted sh_commit_two_fails [].

(** The comment [parse_history] stores for a changeset. *)
Definition simple_comment (cs_id : Z) (comment_text : option pystr)
           (change_types : gmap (option pystr) nat) : pystr :=
  let comment := strip (or_empty comment_text) in
  if negb (nonempty comment) then
    match message_parts change_types with
    | _ :: _ => join (lit ", ") (message_parts change_types)
    | [] => fallback_message cs_id
    end
  else comment.

(** The content retrievals run, with their return codes. *)
Definition cm_cat_attempts (tr : list Event) : list (Cmd * Z) :=
  List.filter (fun r => is_cm_cat (fst r)) (runs tr).

(** The retrieval a change calls for: the destination path of an added,
    changed or moved file, as of the changeset. *)
Definition retrieval_of (cs_id : Z) (change : Plastic.Change) : list Cmd :=
  if bool_decide (Plastic.type change = Some (lit "Added"))
     || bool_decide (Plastic.type change = Some (lit "Changed"))
     || bool_decide (Plastic.type change = Some (lit "Moved"))
  then [CmCat (Plastic.dst_path change) cs_id]
  else [].

Definition retrievals (cs : Plastic.Changeset) : list Cmd :=
  flat_map (retrieval_of (Plastic.id cs)) (Plastic.changes cs).

(** The retrieval of one entry of [files_to_process]. *)
Definition retrieval_of_file (f : Plastic.Action * option pystr * Z) : list Cmd :=
  match f with
  | (Plastic.add_or_update, path, cs_id) => [CmCat path cs_id]
  | (Plastic.delete, _, _) => []
  end.

Definition example_date : option pystr := Some (lit "2024-05-01T10:00:00").

Definition change_of (change_type path : string) : Plastic.Change :=
  {| Plastic.type := Some (lit change_type);
     Plastic.src_path := Some (lit path);
     Plastic.dst_path := Some (lit path) |}.

(** Changeset 2 of [history_2_1] as [parse_xml_history] reads it. *)
Definition cs_added_file : Plastic.Changeset :=
  {| Plastic.id := 2; Plastic.branch := Some (lit "/main/feature-x");
     Plastic.comment := []; Plastic.owner := Some (lit "dan");
     Plastic.date_str := example_date;
     Plastic.changes := [change_of "Added" "/a.txt"] |}.

(** Changeset 1 of [history_2_1]. *)
Definition cs_padded_comment : Plastic.Changeset :=
  {| Plastic.id := 1; Plastic.branch := Some (lit "/main");
     Plastic.comment := lit " hi "; Plastic.owner := Some (lit "dan");
     Plastic.date_str := example_date; Plastic.changes := [] |}.

(** The changeset of [history_empty_changeset]. *)
Definition cs_empty : Plastic.Changeset :=
  {| Plastic.id := 42; Plastic.branch := Some (lit "/main");
     Plastic.comment := []; Plastic.owner := Some (lit "dan");
     Plastic.date_str := example_date; Plastic.changes := [] |}.

(** Three files added and one deleted, under a blank comment. *)
Definition cs_3_added_1_deleted : Plastic.Changeset :=
  {| Plastic.id := 5; Plastic.branch := Some (lit "/main");
     Plastic.comment := lit "  "; Plastic.owner := Some (lit "dan");
     Plastic.date_str := example_date;
     Plastic.changes := [change_of "Added" "/a"; change_of "Deleted" "/d";
                         change_of "Added" "/b"; change_of "Added" "/c"] |}.

Definition elem_3_added_1_deleted : Element :=
  changeset_elem "5" "/main" (Some "  "%string)
    (Some [item_elem "Added" "/a" "/a"; item_elem "Deleted" "/d" "/d";
           item_elem "Added" "/b" "/b"; item_elem "Added" "/c" "/c"]).

Definition simple_cs_main : Simple.Changeset :=
  {| Simple.id := 1; Simple.branch := Some (lit "/main");
     Simple.comment := lit "hi"; Simple.date := example_date |}.

Definition simple_cs_empty : Simple.Changeset :=
  {| Simple.id := 42; Simple.branch := Some (lit "/main");
     Simple.comment := fallback_message 42; Simple.date := example_date |}.

Definition simple_loop_init : Simple.Loop :=
  {| Simple.tracking := tracking_init; Simple.success_count := 0 |}.

(** One changeset whose comment has a space on each side. *)
Definition history_padded_comment : Element :=
  Elem (lit "History") None [changeset_elem "1" "/main" (Some " hi "%string) (Some [])].


(** ** Records the readers accept *)

Definition has_child (t : string) (e : Element) : Prop :=
  exists c, find (lit t) e = Some c.

(** An [Item] that [parse_xml_history] can read. *)
Definition plastic_item_ok (item : Element) : Prop :=
  has_child "Type" item /\ has_child "SrcCmPath" item /\ has_child "DstCmPath" item.

Section Records.
Context `{Platform}.

(** The first [ChangesetId] child has a text that [int] accepts. *)
Definition id_ok (e : Element) : Prop :=
  exists c s z, find (lit "ChangesetId") e = Some c
                /\ text_of c = Some s /\ py_int s = Some z.

(** A record [parse_xml_history] can read. *)
Definition plastic_record_ok (e : Element) : Prop :=
  id_ok e /\ has_child "Branch" e /\ has_child "Comment" e
  /\ has_child "Owner" e /\ has_child "Date" e
  /\ exists changes_elem,
      find (lit "Changes") e = Some changes_elem
      /\ Forall plastic_item_ok (findall (lit "Item") changes_elem).

End Records.

(** Every character of [s] that is [special] comes right after a backslash;
    [prev] is the character before [s]. *)
Fixpoint guarded (special : N -> bool) (prev : option N) (s : pystr) : Prop :=
  match s with
  | [] => True
  | c :: s' => (special c = true -> prev = Some 92%N) /\ guarded special (Some c) s'
  end.

Definition is_quote (c : N) : bool := (c =? 34)%N.
Definition is_quote_or_dollar (c : N) : bool := (c =? 34)%N || (c =? 36)%N.
Arguments is_quote : simpl never.
Arguments is_quote_or_dollar : simpl never.

(** ** More readers of a trace *)

Definition is_switch (c : Cmd) : bool :=
  match c with CmSwitch _ => true | _ => false end.

Definition is_git_rm (c : Cmd) : bool :=
  match c with GitRm _ => true | _ => false end.

(** The workspace switches run, with their return codes. *)
Definition switch_attempts (tr : list Event) : list (Cmd * Z) :=
  List.filter (fun r => is_switch (fst r)) (runs tr).

(** How many of them did not return 0. *)
Definition switches_failed (tr : list Event) : nat :=
  length (List.filter (fun r => negb (snd r =? 0)) (switch_attempts tr)).

(** The [git rm] commands run. *)
Definition git_rm_attempts (tr : list Event) : list (Cmd * Z) :=
  List.filter (fun r => is_git_rm (fst r)) (runs tr).

(** The paths of the warnings printed for files that could not be
    retrieved. *)
Definition warning_of (e : Event) : list (option pystr) :=
  match e with Printed (PWarning path) => [path] | _ => [] end.
Definition warnings (tr : list Event) : list (option pystr) := flat_map warning_of tr.

(** The commit command of a changeset, in each script. *)
Definition plastic_commit_of (cs : Plastic.Changeset) : Cmd :=
  plastic_commit (Plastic.date_str cs) (Plastic.generate_commit_message cs).

Definition simple_commit_of (cs : Simple.Changeset) : Cmd :=
  simple_commit (Simple.date cs) (Simple.comment cs).

(** The third command of the history [history_2_1] fails: the workspace
    cannot be switched to changeset 2. *)
Definition sh_switch_two_fails (cmd : pystr) : ShellOutcome :=
  if bool_decide (cmd = cmd_text (CmSwitch 2)) then Exited [] 1
  else sh_all_succeed cmd.

Definition switch_two_fails : Platform := scripted sh_switch_two_fails [].

(** ** What a run of [migrate_history] needs *)

Section Needs.
Context `{Platform}.

(** The file operations do not raise: directories can be made, files
    written, and a file that exists can be removed. *)
Definition files_never_fail : Prop :=
  (forall p w, is_Some (makedirs p w))
  /\ (forall p content w, is_Some (write_file p content w))
  /\ (forall p w, path_exists p w = true -> is_Some (remove_file p w)).
End Needs.

(** The paths of a change are present. *)
Definition paths_present (change : Plastic.Change) : Prop :=
  is_Some (Plastic.src_path change) /\ is_Some (Plastic.dst_path change).

(** The mapped branch names of a list of changesets. *)
Definition plastic_branch_names (css : list Plastic.Changeset) : list pystr :=
  omap (fun cs => git_branch_name <$> Plastic.branch cs) css.

Definition simple_branch_names (css : list Simple.Changeset) : list pystr :=
  omap (fun cs => git_branch_name <$> Simple.branch cs) css.

(** Every write comes right after the creation of the directory of the file
    written, and every [git rm] right after the removal of the file from the
    working directory; [prev] is the event before [tr]. *)
Section Pairs.
Context `{Platform}.

Definition follows (prev : option Event) (e : Event) : Prop :=
  match e with
  | Wrote p _ => prev = Some (MadeDirs (path_dirname p))
  | Ran (GitRm p) _ =>
      prev = Some (Removed (path_join WORK_DIR (lstrip_char (chr "/") p)))
  | _ => True
  end.

Fixpoint in_pairs (prev : option Event) (tr : list Event) : Prop :=
  match tr with
  | [] => True
  | e :: tr' => follows prev e /\ in_pairs (Some e) tr'
  end.
End Pairs.

(** A string without whitespace at either end. *)
Definition trimmed (s : pystr) : Prop :=
  (forall c, head s = Some c -> isspace c = false)
  /\ (forall c, last s = Some c -> isspace c = false).

(** The progress lines among what was printed. *)
Definition is_progress (o : Output) : bool :=
  match o with
  | PProgress _ _ _ _ | SProgress _ _ _ => true
  | _ => false
  end.
Definition progress_lines (tr : list Event) : list Output :=
  List.filter is_progress (printed tr).

(** The progress line of the changeset at position [fst ics] of [total]. *)
Definition plastic_progress_line (total : nat) (ics : nat * Plastic.Changeset) : Output :=
  PProgress (fst ics + 1) total (Plastic.id (snd ics))
            (take 40 (default [] (Plastic.branch (snd ics)))).

Definition simple_progress_line (total : nat) (ics : nat * Simple.Changeset) : Output :=
  SProgress (fst ics + 1) total (Simple.id (snd ics)).

(** The announcements of a created branch among what was printed. *)
Definition is_created (o : Output) : bool :=
  match o with PCreatedBranch _ => true | _ => false end.
Definition announced (tr : list Event) : list Output :=
  List.filter is_created (printed tr).

(** ** The fallback message in the words of the specification

    [Update (changeset <id>)], with the decimal numeral of the id in the
    place of [<id>]. *)
Definition decimal_numeral (z : Z) : string := NilZero.string_of_int (Z.to_int z).

Definition update_message_as_specified (cs_id : Z) : pystr :=
  lit "Update (changeset " ++ lit (decimal_numeral cs_id) ++ lit ")".

(** No workspace switch succeeds; the rest is as in [sh_all_succeed]. *)
Definition sh_switch_fails (cmd : pystr) : ShellOutcome :=
  if starts_with (lit "cm switch") cmd then Exited [] 1 else sh_all_succeed cmd.

Definition switch_fails : Platform := scripted sh_switch_fails [].


(** The changesets whose workspace switch returned 0, [switches] being the
    switches run for [css], one for each in order. *)
Definition switched_changesets (css : list Simple.Changeset) (switches : list (Cmd * Z))
  : list Simple.Changeset :=
  map fst (List.filter (fun p => snd (snd p) =? 0) (zip css switches)).

(** * Properties *)

(** ** The stable sort *)

Section SortByFacts.
Context {A : Type} (key : A -> Z).

Lemma insert_by_perm x l : insert_by key x l ≡ₚ x :: l.
Proof.
  induction l as [|y l IH]; simpl; [done|].
  destruct (key x <=? key y); [done|].
  rewrite IH. apply Permutation_swap.
Qed.

Lemma sort_by_perm l : sort_by key l ≡ₚ l.
Proof.
  induction l as [|x l IH]; simpl; [done|].
  rewrite insert_by_perm. by constructor.
Qed.

Lemma sort_by_length l : length (sort_by key l) = length l.
Proof. apply Permutation_length, sort_by_perm. Qed.

Lemma insert_by_sorted x l :
  StronglySorted (key_le key) l -> StronglySorted (key_le key) (insert_by key x l).
Proof.
  induction 1 as [|y l Hl IH Hy]; simpl.
  - repeat constructor.
  - destruct (Z.leb_spec (key x) (key y)) as [Hxy|Hxy].
    + constructor; [by constructor|].
      constructor; [done|].
      eapply Forall_impl; [exact Hy|]. unfold key_le. intros; simpl in *; lia.
    + constructor; [done|].
      rewrite insert_by_perm. constructor; [unfold key_le; lia | done].
Qed.

Lemma sort_by_sorted l : StronglySorted (key_le key) (sort_by key l).
Proof.
  induction l as [|x l IH]; simpl; [constructor|]. by apply insert_by_sorted.
Qed.

Lemma sorted_keys l :
  StronglySorted (key_le key) l -> StronglySorted Z.le (map key l).
Proof.
  induction 1 as [|y l Hl IH Hy]; simpl; constructor; [done|].
  rewrite Forall_map. exact Hy.
Qed.

Lemma sort_by_keys_sorted l : StronglySorted Z.le (map key (sort_by key l)).
Proof. apply sorted_keys, sort_by_sorted. Qed.

Lemma sort_by_keys_perm l : map key (sort_by key l) ≡ₚ map key l.
Proof. apply Permutation_map, sort_by_perm. Qed.

(** Records with the same keys, in whatever order, sort to the same
    sequence of keys. *)
Lemma sort_by_keys_order_independent l l' :
  map key l ≡ₚ map key l' ->
  map key (sort_by key l) = map key (sort_by key l').
Proof.
  intros Hp.
  apply (StronglySorted_unique Z.le); try apply sort_by_keys_sorted.
  by rewrite !sort_by_keys_perm.
Qed.

(** Equal keys keep the order they had: the sort is stable. *)
Lemma insert_by_filter (k : Z) x l :
  StronglySorted (key_le key) l ->
  List.filter (fun y => key y =? k) (insert_by key x l)
  = List.filter (fun y => key y =? k) (x :: l).
Proof.
  induction 1 as [|y l Hl IH Hy]; [done|].
  cbn [insert_by].
  destruct (Z.leb_spec (key x) (key y)) as [Hxy|Hxy]; [done|].
  cbn [List.filter] in *. rewrite IH.
  destruct (Z.eqb_spec (key x) k), (Z.eqb_spec (key y) k); try done; lia.
Qed.

Lemma sort_by_stable (k : Z) l :
  List.filter (fun y => key y =? k) (sort_by key l)
  = List.filter (fun y => key y =? k) l.
Proof.
  induction l as [|x l IH]; [done|].
  cbn [sort_by foldr]. rewrite insert_by_filter by apply sort_by_sorted.
  cbn [List.filter]. fold (sort_by key l). by rewrite IH.
Qed.
End SortByFacts.

Lemma sorted_le_nodup_lt (l : list Z) :
  StronglySorted Z.le l -> NoDup l -> StronglySorted Z.lt l.
Proof.
  induction 1 as [|x l Hl IH Hx]; intros Hnd; [constructor|].
  apply NoDup_cons in Hnd as [Hx' Hnd].
  constructor; [by apply IH|].
  apply Forall_forall. intros y Hy.
  rewrite Forall_forall in Hx. specialize (Hx y Hy).
  assert (x <> y) by (intros ->; done). lia.
Qed.

(** ** Strings *)

Lemma lstrip_with_split p s :
  exists pre, s = pre ++ lstrip_with p s /\ Forall (fun c => p c = true) pre.
Proof.
  induction s as [|c s [pre [Hs Hpre]]]; simpl.
  - by exists [].
  - destruct (p c) eqn:Hc.
    + exists (c :: pre). split; [by rewrite Hs at 1 | by constructor].
    + by exists [].
Qed.

Lemma lstrip_with_head p s c : head (lstrip_with p s) = Some c -> p c = false.
Proof.
  induction s as [|x s IH]; simpl; [done|].
  destruct (p x) eqn:Hx; [done|]. simpl. by intros [= <-].
Qed.

Lemma lstrip_with_nil p s : Forall (fun c => p c = true) s -> lstrip_with p s = [].
Proof. induction 1 as [|c s Hc _ IH]; simpl; [done|]. by rewrite Hc. Qed.

Lemma lstrip_with_id p s c : head s = Some c -> p c = false -> lstrip_with p s = s.
Proof. destruct s; simpl; [done|]. by intros [= ->] ->. Qed.

Lemma replace_char_one old new s :
  replace_char old [new] s = map (fun c => if (c =? old)%N then new else c) s.
Proof.
  unfold replace_char.
  induction s as [|c s IH]; simpl; [done|].
  rewrite IH. by destruct (c =? old)%N.
Qed.

Lemma replace_char_absent old new s :
  Forall (fun c => c <> old) s -> replace_char old new s = s.
Proof.
  unfold replace_char.
  induction 1 as [|c s Hc _ IH]; simpl; [done|].
  rewrite IH. destruct (N.eqb_spec c old); [done|done].
Qed.

Lemma all_slashes (pre : pystr) :
  Forall (fun c => (chr "/" =? c)%N = true) pre -> pre = repeat (chr "/") (length pre).
Proof.
  induction 1 as [|c pre Hc _ IH]; [done|].
  apply N.eqb_eq in Hc. subst c. cbn [length repeat]. by f_equal.
Qed.

(** The flattened name has no separator left, so mapping it again changes
    nothing: [get_or_create_branch] receives a name already mapped. *)
Lemma git_branch_name_no_slash b : Forall (fun c => c <> chr "/") (git_branch_name b).
Proof.
  unfold git_branch_name. generalize (lstrip_char (chr "/") b). intros s.
  change (lit "-") with [chr "-"]. rewrite replace_char_one.
  induction s as [|c s IH]; [constructor|].
  cbn [map]. constructor; [|done].
  destruct (N.eqb_spec c (chr "/")) as [->|Hc]; [discriminate|done].
Qed.

Lemma git_branch_name_idem b : git_branch_name (git_branch_name b) = git_branch_name b.
Proof.
  pose proof (git_branch_name_no_slash b) as Hb.
  unfold git_branch_name at 1.
  assert (lstrip_char (chr "/") (git_branch_name b) = git_branch_name b) as ->.
  { destruct (git_branch_name b) as [|c s] eqn:E; [done|].
    unfold lstrip_char. eapply lstrip_with_id; [done|].
    apply Forall_cons in Hb as [Hc _]. apply N.eqb_neq. congruence. }
  by apply replace_char_absent.
Qed.

(** C5, as amended: the destination branch name is obtained by stripping
    every leading path separator (not exactly one) and then replacing each
    remaining separator with [-]; [/main/feature-x] maps to
    [main-feature-x]. *)
Theorem branch_name_strips_all_leading :
  (forall branch : pystr,
     exists (n : nat) (rest : pystr),
       branch = repeat (chr "/") n ++ rest
       /\ head rest <> Some (chr "/")
       /\ git_branch_name branch = map flatten_char rest)
  /\ git_branch_name (lit "/main/feature-x") = lit "main-feature-x".
Proof.
  split; [|reflexivity].
  intros branch.
  destruct (lstrip_with_split (N.eqb (chr "/")) branch) as [pre [Hs Hpre]].
  exists (length pre), (lstrip_char (chr "/") branch). split; [|split].
  - rewrite <- (all_slashes pre Hpre). exact Hs.
  - intros Hh. apply lstrip_with_head in Hh. by rewrite N.eqb_refl in Hh.
  - unfold git_branch_name. change (lit "-") with [chr "-"].
    by rewrite replace_char_one.
Qed.

(** C5, as stated, fails on a path with two leading separators: one
    stripped separator would leave [-a], the script produces [a]. *)
Lemma branch_name_two_leading_separators :
  git_branch_name (lit "//a") = lit "a"
  /\ branch_name_as_specified (lit "//a") = lit "-a"
  /\ git_branch_name (lit "//a") <> branch_name_as_specified (lit "//a").
Proof. split; [reflexivity|]. split; [reflexivity|]. discriminate. Qed.

(** ** The tally of change types *)

Lemma count_at_incr_at (k k' : option pystr) (m : gmap (option pystr) nat) :
  count_at (incr_at k m) k'
  = (count_at m k' + if bool_decide (k' = k) then 1 else 0)%nat.
Proof.
  unfold incr_at, count_at. case_bool_decide as Hk.
  - subst. rewrite lookup_insert_eq. simpl. lia.
  - rewrite lookup_insert_ne by done. lia.
Qed.

Lemma count_at_foldl (types : list (option pystr)) m (k : option pystr) :
  count_at (foldl (fun m t => incr_at t m) m types) k
  = (count_at m k + length (List.filter (fun x => bool_decide (x = k)) types))%nat.
Proof.
  revert m. induction types as [|t types IH]; intros m; simpl; [lia|].
  rewrite IH, count_at_incr_at.
  destruct (bool_decide_reflect (t = k)) as [->|Hne].
  - rewrite bool_decide_true by done. simpl. lia.
  - rewrite bool_decide_false by congruence. lia.
Qed.

Lemma count_at_empty (k : option pystr) : count_at (∅ : gmap (option pystr) nat) k = 0%nat.
Proof. unfold count_at. by rewrite lookup_empty. Qed.

Lemma incr_at_nonempty (k : option pystr) m : incr_at k m <> ∅.
Proof. unfold incr_at. apply insert_non_empty. Qed.

Lemma foldl_incr_nonempty (types : list (option pystr)) m :
  m <> ∅ -> foldl (fun m t => incr_at t m) m types <> ∅.
Proof.
  revert m. induction types as [|t types IH]; intros m Hm; simpl; [done|].
  apply IH, incr_at_nonempty.
Qed.

Lemma plastic_tally_foldl l :
  Plastic.tally l = foldl (fun m t => incr_at t m) ∅ (map Plastic.type l).
Proof.
  unfold Plastic.tally. generalize (∅ : gmap (option pystr) nat).
  induction l as [|c l IH]; intros m; simpl; [done|]. apply IH.
Qed.

Lemma plastic_tally_count l (t : string) :
  count_at (Plastic.tally l) (Some (lit t)) = count_type t (map Plastic.type l).
Proof. rewrite plastic_tally_foldl, count_at_foldl, count_at_empty. done. Qed.

Lemma plastic_tally_empty l : Plastic.tally l = ∅ <-> l = [].
Proof.
  split; [|by intros ->].
  destruct l as [|c l]; [done|]. rewrite plastic_tally_foldl. simpl. intros Hm.
  by apply foldl_incr_nonempty in Hm; [|apply incr_at_nonempty].
Qed.

(** The four [if]s build the listing of the present types. *)
Lemma message_parts_listing m types :
  (forall t : string, count_at m (Some (lit t)) = count_type t types) ->
  message_parts m = listing types.
Proof.
  intros Hm. unfold message_parts, listing.
  rewrite !Hm.
  destruct (count_type "Added" types), (count_type "Changed" types),
    (count_type "Deleted" types), (count_type "Moved" types); reflexivity.
Qed.

Lemma simple_tally_types items m m' :
  Simple.tally m items = Ok m' ->
  exists types, item_types items = Ok types
                /\ m' = foldl (fun m t => incr_at t m) m types.
Proof.
  revert m. induction items as [|item items IH]; intros m; simpl.
  - intros [= <-]. by exists [].
  - unfold Simple.tally_item, item_types. simpl.
    destruct (dot_text (find (lit "Type") item)) as [t|e]; simpl; [|done].
    intros Ht. apply IH in Ht as (types & Hty & ->).
    unfold item_types in Hty. rewrite Hty. simpl. by exists (t :: types).
Qed.

Lemma listing_nonempty types :
  types <> [] -> Forall valid_type types -> listing types <> [].
Proof.
  destruct types as [|t types]; [done|]. intros _ Hv.
  apply Forall_cons in Hv as [Ht _]. unfold listing.
  assert (forall (s : string) l, t = Some (lit s) ->
            exists n, count_type s (t :: l) = S n) as Hc.
  { intros s l ->. unfold count_type. simpl. rewrite bool_decide_true by done.
    simpl. eauto. }
  destruct Ht as [Ht|[Ht|[Ht|Ht]]];
    destruct (Hc _ types Ht) as [n Hn]; rewrite Hn; simpl;
    intros Heq;
    repeat match type of Heq with
           | context [listing_entry ?v ?c] => destruct (listing_entry v c)
           end; simpl in Heq; discriminate.
Qed.

(** ** Traces *)

Lemma runs_app t1 t2 : runs (t1 ++ t2) = runs t1 ++ runs t2.
Proof. apply flat_map_app. Qed.

Lemma printed_app t1 t2 : printed (t1 ++ t2) = printed t1 ++ printed t2.
Proof. apply flat_map_app. Qed.

Lemma written_app t1 t2 : written (t1 ++ t2) = written t1 ++ written t2.
Proof. apply flat_map_app. Qed.

Lemma commit_attempts_app t1 t2 :
  commit_attempts (t1 ++ t2) = commit_attempts t1 ++ commit_attempts t2.
Proof. unfold commit_attempts. by rewrite runs_app, List.filter_app. Qed.

Lemma branch_attempts_app t1 t2 :
  branch_attempts (t1 ++ t2) = branch_attempts t1 ++ branch_attempts t2.
Proof. unfold branch_attempts. by rewrite runs_app, List.filter_app. Qed.

Lemma progress_ids_app t1 t2 : progress_ids (t1 ++ t2) = progress_ids t1 ++ progress_ids t2.
Proof. unfold progress_ids. by rewrite printed_app, flat_map_app. Qed.


Lemma printed_In o tr : In (Printed o) tr -> In o (printed tr).
Proof.
  intros Hin. unfold printed. apply in_flat_map. exists (Printed o).
  split; [done|]. by left.
Qed.

Lemma progress_ids_cons e tr :
  progress_ids (e :: tr) = flat_map progress_id (printed_of e) ++ progress_ids tr.
Proof.
  change (e :: tr) with ([e] ++ tr). rewrite progress_ids_app.
  f_equal. unfold progress_ids, printed. simpl. by rewrite app_nil_r.
Qed.

Lemma commits_succeeded_app t1 t2 :
  commits_succeeded (t1 ++ t2) = (commits_succeeded t1 + commits_succeeded t2)%nat.
Proof.
  unfold commits_succeeded.
  by rewrite commit_attempts_app, List.filter_app, length_app.
Qed.

Lemma flat_map_nil_forallb {A B} (p : A -> bool) (f : A -> list B) l :
  (forall x, p x = true -> f x = []) -> forallb p l = true -> flat_map f l = [].
Proof.
  intros Hp. induction l as [|x l IH]; simpl; [done|].
  intros [Hx Hl]%andb_prop. by rewrite Hp, IH.
Qed.

Lemma filter_runs_nil (p : Event -> bool) (q : Cmd -> bool) tr :
  (forall c o, p (Ran c o) = true -> q c = false) ->
  forallb p tr = true ->
  List.filter (fun r => q (fst r)) (runs tr) = [].
Proof.
  intros Hpq. induction tr as [|e tr IH]; simpl; [done|].
  intros [He Hl]%andb_prop. unfold runs in *. simpl.
  rewrite List.filter_app, IH by done.
  destruct e; simpl; try done. by rewrite (Hpq _ _ He).
Qed.

Lemma branch_events_no_commit tr :
  forallb branch_event tr = true -> commit_attempts tr = [].
Proof. apply filter_runs_nil. by intros [] o. Qed.

Lemma branch_events_no_progress tr :
  forallb branch_event tr = true -> progress_ids tr = [].
Proof.
  intros Hb. unfold progress_ids.
  induction tr as [|e tr IH]; simpl; [done|].
  apply andb_prop in Hb as [He Hl].
  change (printed (e :: tr)) with (printed_of e ++ printed tr).
  rewrite flat_map_app, (IH Hl), app_nil_r.
  destruct e as [| [] | | |]; simpl in *; try done.
Qed.

Lemma branch_events_no_write tr :
  forallb branch_event tr = true -> written tr = [].
Proof. apply flat_map_nil_forallb. by intros [| [] | | |]. Qed.

Lemma file_events_no_commit tr :
  forallb file_event tr = true -> commit_attempts tr = [].
Proof. apply filter_runs_nil. by intros [] o. Qed.

Lemma file_events_no_branch tr :
  forallb file_event tr = true -> branch_attempts tr = [].
Proof. apply filter_runs_nil. by intros [] o. Qed.

Lemma file_events_no_progress tr :
  forallb file_event tr = true -> progress_ids tr = [].
Proof.
  intros Hb. unfold progress_ids.
  induction tr as [|e tr IH]; simpl; [done|].
  apply andb_prop in Hb as [He Hl].
  change (printed (e :: tr)) with (printed_of e ++ printed tr).
  rewrite flat_map_app, (IH Hl), app_nil_r.
  destruct e as [| [] | | |]; simpl in *; try done.
Qed.

(** ** The steps of [migrate_plastic_to_git.py] *)

Section PlasticSteps.
Context `{Platform}.

Lemma plastic_run_command_nocapture c w :
  Plastic.run_command c false false w
  = let '(o, w') := shell (cmd_text c) w in
    (Ok (None, returncode_of o), w', Ran c o :: crash_note c o).
Proof.
  unfold Plastic.run_command, bind, subprocess_run.
  destruct (shell (cmd_text c) w) as [[out code|] w']; reflexivity.
Qed.

(** A captured command: the text handed back is the decoded output,
    stripped. *)
Lemma plastic_run_command_capture c w :
  exists o w' content code notes,
    shell (cmd_text c) w = (o, w')
    /\ Plastic.run_command c true false w
       = (Ok (content, code), w', Ran c o :: notes)
    /\ (notes = [] \/ notes = [Printed (PCommandError (cmd_text c))])
    /\ (code = 0 ->
        exists stdout text,
          o = Exited stdout 0 /\ text_decode stdout = Some text
          /\ content = Some (strip text) /\ notes = []).
Proof.
  unfold Plastic.run_command, bind, subprocess_run.
  destruct (shell (cmd_text c) w) as [[out code|] w'] eqn:Hs; cbn beta iota.
  - destruct (text_decode out) as [text|] eqn:Hd; cbn beta iota.
    + exists (Exited out code), w', (Some (strip text)), code, [].
      split; [done|]. split; [done|]. split; [by left|].
      intros ->. by exists out, text.
    + exists (Exited out code), w', None, 1, [Printed (PCommandError (cmd_text c))].
      split; [done|]. split; [done|]. split; [by right|]. done.
  - exists Crashed, w', None, 1, [Printed (PCommandError (cmd_text c))].
    split; [done|]. split; [done|]. split; [by right|]. done.
Qed.

(** Resolving a branch never raises, whatever the commands return, and
    hands back the mapped name. *)
Lemma get_or_create_branch_run branch_name w :
  exists w' tr,
    Plastic.get_or_create_branch branch_name w
    = (Ok (git_branch_name branch_name), w', tr)
    /\ forallb branch_event tr = true
    /\ exists c1 c2,
        runs tr = [(GitRevParse (git_branch_name branch_name), c1);
                   (checkout_after c1 (git_branch_name branch_name), c2)].
Proof.
  unfold Plastic.get_or_create_branch.
  set (g := git_branch_name branch_name).
  unfold bind at 1. rewrite plastic_run_command_nocapture.
  destruct (shell (cmd_text (GitRevParse g)) w) as [o1 w1].
  destruct (negb (returncode_of o1 =? 0)) eqn:Hc.
  - unfold bind. rewrite plastic_run_command_nocapture.
    destruct (shell (cmd_text (GitCheckoutNew g)) w1) as [o2 w2]. simpl.
    eexists _, _. split; [reflexivity|]. split.
    + destruct o1, o2; reflexivity.
    + exists (returncode_of o1), (returncode_of o2).
      unfold checkout_after. rewrite Hc.
      destruct o1, o2; reflexivity.
  - unfold bind. rewrite plastic_run_command_nocapture.
    destruct (shell (cmd_text (GitCheckout g)) w1) as [o2 w2]. simpl.
    eexists _, _. split; [reflexivity|]. split.
    + destruct o1, o2; reflexivity.
    + exists (returncode_of o1), (returncode_of o2).
      unfold checkout_after. rewrite Hc.
      destruct o1, o2; reflexivity.
Qed.

(** Committing never raises; it stages everything and runs one commit
    command, whose return code decides the result. *)
Lemma create_git_commit_run message date_str email name w :
  exists w' tr code,
    Plastic.create_git_commit message date_str email name w
    = (Ok (code =? 0), w', tr)
    /\ runs tr = [(GitAddAll, returncode_of (fst (shell (cmd_text GitAddAll) w)));
                  (GitCommit email name date_str (Plastic.escape_message message), code)]
    /\ progress_ids tr = []
    /\ written tr = [].
Proof.
  unfold Plastic.create_git_commit.
  unfold bind. rewrite plastic_run_command_nocapture.
  destruct (shell (cmd_text GitAddAll) w) as [o1 w1]. simpl.
  rewrite plastic_run_command_nocapture.
  destruct (shell _ w1) as [o2 w2]. simpl.
  eexists _, _, (returncode_of o2). split; [reflexivity|].
  destruct o1, o2; repeat split; reflexivity.
Qed.

Lemma process_file_run f w :
  exists r w' tr,
    Plastic.process_file f w = (r, w', tr) /\ forallb file_event tr = true.
Proof.
  destruct f as [[[] path] cs_id]; unfold Plastic.process_file.
  - unfold bind at 1.
    destruct (plastic_run_command_capture (CmCat path cs_id) w)
      as (o & w1 & content & code & notes & Hs & -> & Hn & Hok).
    assert (forallb file_event notes = true) as Hnotes
      by (by destruct Hn as [->| ->]).
    destruct (code =? 0).
    + unfold bind, lift, os_makedirs, write_binary, raise.
      destruct (Plastic.full_path_of path) as [full|e]; simpl.
      * destruct (makedirs _ w1) as [w2|]; simpl.
        -- destruct content as [text|]; simpl.
           ++ destruct (write_file _ _ w2) as [w3|]; simpl;
                eexists _, _, _; (split; [reflexivity|]);
                simpl; rewrite ?forallb_app, ?Hnotes; done.
           ++ eexists _, _, _; (split; [reflexivity|]).
              simpl. rewrite ?forallb_app, ?Hnotes. done.
        -- eexists _, _, _; (split; [reflexivity|]).
           simpl. rewrite ?forallb_app, ?Hnotes. done.
      * eexists _, _, _; (split; [reflexivity|]).
        simpl. rewrite ?forallb_app, ?Hnotes. done.
    + unfold print. eexists _, _, _; (split; [reflexivity|]).
      simpl. rewrite ?forallb_app, ?Hnotes. done.
  - unfold bind, lift, os_path_exists, os_remove, ret.
    destruct (Plastic.full_path_of path) as [full|e]; simpl.
    + destruct (path_exists full w); simpl.
      * destruct (remove_file full w) as [w1|]; simpl.
        -- rewrite plastic_run_command_nocapture.
           destruct (shell _ w1) as [[]]; simpl;
             eexists _, _, _; (split; [reflexivity|]); done.
        -- eexists _, _, _; (split; [reflexivity|]); done.
      * eexists _, _, _; (split; [reflexivity|]); done.
    + eexists _, _, _; (split; [reflexivity|]); done.
Qed.

Lemma for_each_files_run files w :
  exists r w' tr,
    for_each (fun f _ => Plastic.process_file f) files tt w = (r, w', tr)
    /\ forallb file_event tr = true.
Proof.
  revert w. induction files as [|f files IH]; intros w; simpl.
  - by exists (Ok tt), w, [].
  - unfold bind.
    destruct (process_file_run f w) as (r & w1 & tr1 & -> & Htr1).
    destruct r as [[]|e].
    + destruct (IH w1) as (r2 & w2 & tr2 & -> & Htr2).
      eexists _, _, _. split; [reflexivity|]. by rewrite forallb_app, Htr1, Htr2.
    + by eexists _, _, _.
Qed.

(** Reconciling causes file events only. *)
Lemma apply_changeset_files_run cs changeset_id w :
  exists r w' tr,
    Plastic.apply_changeset_files cs changeset_id w = (r, w', tr)
    /\ forallb file_event tr = true.
Proof. apply for_each_files_run. Qed.

(** The shape of one iteration of the loop of [migrate_history]. *)
Lemma plastic_process_changeset_run total i cs t w b :
  Plastic.branch cs = Some b ->
  let g := git_branch_name b in
  let progress := Printed (PProgress (i + 1) total (Plastic.id cs) (take 40 b)) in
  exists w1 tr_b r_f w2 tr_f,
    forallb branch_event tr_b = true
    /\ (Some g = current_branch t -> tr_b = [])
    /\ (Some g <> current_branch t ->
        exists c1 c2, runs tr_b = [(GitRevParse g, c1); (checkout_after c1 g, c2)])
    /\ Plastic.apply_changeset_files cs (Plastic.id cs) w1 = (r_f, w2, tr_f)
    /\ forallb file_event tr_f = true
    /\ match r_f with
       | Raise e =>
           Plastic.process_changeset total (i, cs) t w
           = (Raise e, w2, progress :: tr_b ++ tr_f)
       | Ok _ =>
           exists w3 tr_c code,
             runs tr_c
             = [(GitAddAll, returncode_of (fst (shell (cmd_text GitAddAll) w2)));
                (GitCommit GIT_AUTHOR_EMAIL GIT_AUTHOR_NAME (Plastic.date_str cs)
                   (Plastic.escape_message (Plastic.generate_commit_message cs)),
                 code)]
             /\ progress_ids tr_c = []
             /\ written tr_c = []
             /\ Plastic.process_changeset total (i, cs) t w
                = (Ok (tracked g t), w3,
                   progress :: tr_b ++ tr_f ++ tr_c
                     ++ [Printed (if code =? 0 then PCommitted else PCommitFailed)])
       end.
Proof.
  intros Hb g progress.
  assert (exists w1 tr_b,
    (if bool_decide (Some g = current_branch t) then ret t
     else bind (Plastic.get_or_create_branch g) (fun _ => ret (track g t))) w
    = (Ok (tracked g t), w1, tr_b)
    /\ forallb branch_event tr_b = true
    /\ (Some g = current_branch t -> tr_b = [])
    /\ (Some g <> current_branch t ->
        exists c1 c2, runs tr_b = [(GitRevParse g, c1); (checkout_after c1 g, c2)]))
    as (w1 & tr_b & Hstep & Hbe & Hsame & Hdiff).
  { unfold tracked. case_bool_decide as Hg.
    - exists w, []. by repeat split.
    - destruct (get_or_create_branch_run g w) as (w1 & tr & Hrun & Hev & c1 & c2 & Hruns).
      unfold g in Hruns at 1 2. rewrite git_branch_name_idem in Hruns. fold g in Hruns.
      exists w1, tr. unfold bind. rewrite Hrun. simpl. rewrite app_nil_r.
      repeat split; [done|done|]. intros _. by exists c1, c2. }
  destruct (apply_changeset_files_run cs (Plastic.id cs) w1)
    as (r_f & w2 & tr_f & Hf & Hfe).
  exists w1, tr_b, r_f, w2, tr_f.
  do 5 (split; [done|]).
  assert (
    Plastic.process_changeset total (i, cs) t w
    = let '(r, w', tr) :=
        bind (Plastic.apply_changeset_files cs (Plastic.id cs))
             (fun _ =>
                bind (Plastic.create_git_commit (Plastic.generate_commit_message cs)
                        (Plastic.date_str cs) GIT_AUTHOR_EMAIL GIT_AUTHOR_NAME)
                     (fun committed =>
                        bind (print (if committed : bool
                                     then PCommitted else PCommitFailed))
                             (fun _ => ret (tracked g t)))) w1 in
      (r, w', progress :: tr_b ++ tr)) as Hshape.
  { unfold Plastic.process_changeset. rewrite Hb.
    unfold bind at 1. unfold lift at 1. cbn beta iota.
    unfold bind at 1. unfold print at 1. cbn beta iota.
    unfold bind at 1. fold g. rewrite Hstep.
    match goal with
    | |- context [bind ?m ?f w1] => destruct (bind m f w1) as [[r w'] tr]
    end.
    reflexivity. }
  destruct r_f as [[]|e]; rewrite Hshape; unfold bind at 1; rewrite Hf;
    [|reflexivity].
  destruct (create_git_commit_run (Plastic.generate_commit_message cs)
              (Plastic.date_str cs) GIT_AUTHOR_EMAIL GIT_AUTHOR_NAME w2)
    as (w3 & tr_c & code & Hc & Hruns & Hprog & Hwr).
  exists w3, tr_c, code. do 3 (split; [done|]).
  unfold bind at 1. rewrite Hc.
  unfold bind, print, ret. cbn.
  repeat f_equal.
Qed.
End PlasticSteps.

(** ** Decimal numerals *)

Lemma uint_chars (d : Decimal.uint) :
  Forall numeral_char (lit (NilEmpty.string_of_uint d)).
Proof.
  induction d; cbn; constructor; try done; unfold numeral_char; lia.
Qed.

Lemma str_of_Z_chars z : Forall numeral_char (str_of_Z z).
Proof.
  unfold str_of_Z, NilZero.string_of_int, NilZero.string_of_uint.
  destruct (Z.to_int z) as [d|d].
  - destruct d; try apply uint_chars.
    cbn. constructor; [unfold numeral_char; lia | constructor].
  - change (Forall numeral_char
              (45%N :: lit (match d with
                            | Decimal.Nil => "0"%string
                            | _ => NilEmpty.string_of_uint d
                            end))).
    constructor; [unfold numeral_char; lia|].
    destruct d; try apply uint_chars.
    cbn. constructor; [unfold numeral_char; lia | constructor].
Qed.

Lemma fallback_message_chars cs_id (c : N) :
  (c = 34 \/ c = 36 \/ c = 39)%N ->
  Forall (fun x => x <> c) (fallback_message cs_id).
Proof.
  intros Hc. unfold fallback_message.
  rewrite !Forall_app. split; [|split].
  - cbn. repeat constructor; lia.
  - eapply Forall_impl; [apply str_of_Z_chars|].
    unfold numeral_char. intros x Hx; simpl in *. lia.
  - cbn. repeat constructor; lia.
Qed.

(** The fallback message has nothing to escape. *)
Lemma plastic_escape_fallback cs_id :
  Plastic.escape_message (fallback_message cs_id) = fallback_message cs_id.
Proof.
  unfold Plastic.escape_message.
  rewrite (replace_char_absent 34) by (apply fallback_message_chars; lia).
  apply replace_char_absent, fallback_message_chars. cbn. lia.
Qed.

Lemma simple_escape_fallback cs_id :
  Simple.escape_message (fallback_message cs_id) = fallback_message cs_id.
Proof.
  unfold Simple.escape_message.
  rewrite (replace_char_absent 34) by (apply fallback_message_chars; lia).
  apply replace_char_absent, fallback_message_chars. cbn. lia.
Qed.

(** ** One changeset of [migrate_history] *)

Section PlasticChangeset.
Context `{Platform}.

Lemma checkout_after_branch c1 g : is_branch_cmd (checkout_after c1 g) = true.
Proof. unfold checkout_after. by destruct (negb (c1 =? 0)). Qed.

Lemma checkout_after_not_commit c1 g : is_commit (checkout_after c1 g) = false.
Proof. unfold checkout_after. by destruct (negb (c1 =? 0)). Qed.

Lemma plastic_step_facts total i cs t w b r w' tr :
  Plastic.branch cs = Some b ->
  Plastic.process_changeset total (i, cs) t w = (r, w', tr) ->
  let g := git_branch_name b in
  progress_ids tr = [Plastic.id cs]
  /\ (Some g = current_branch t -> branch_attempts tr = [])
  /\ (Some g <> current_branch t ->
      exists c1 c2,
        branch_attempts tr = [(GitRevParse g, c1); (checkout_after c1 g, c2)])
  /\ match r with
     | Ok t' =>
         t' = tracked g t
         /\ exists code,
             commit_attempts tr
             = [(plastic_commit (Plastic.date_str cs)
                   (Plastic.generate_commit_message cs), code)]
             /\ last (printed tr)
                = Some (if code =? 0 then PCommitted else PCommitFailed)
     | Raise _ => commit_attempts tr = []
     end.
Proof.
  intros Hb Hrun g.
  destruct (plastic_process_changeset_run total i cs t w b Hb)
    as (w1 & tr_b & r_f & w2 & tr_f & Hbe & Hsame & Hdiff & Hf & Hfe & Hshape).
  fold g in Hsame, Hdiff, Hshape.
  assert (branch_attempts tr_b = [] \/ Some g <> current_branch t) as Hbr.
  { destruct (decide (Some g = current_branch t)) as [Hg|Hg]; [left|by right].
    by rewrite (Hsame Hg). }
  set (progress := Printed (PProgress (i + 1) total (Plastic.id cs) (take 40 b)))
    in Hshape.
  destruct r_f as [[]|e].
  - destruct Hshape as (w3 & tr_c & code & Hruns & Hprog & Hwr & Heq).
    rewrite Heq in Hrun. injection Hrun as <- <- Htr.
    set (final := Printed (if code =? 0 then PCommitted else PCommitFailed)) in Htr.
    assert (tr = [progress] ++ tr_b ++ tr_f ++ tr_c ++ [final]) as ->
      by (symmetry; exact Htr).
    clear Htr Heq.
    assert (commit_attempts tr_c
            = [(plastic_commit (Plastic.date_str cs)
                  (Plastic.generate_commit_message cs), code)]) as Hcc.
    { unfold commit_attempts. by rewrite Hruns. }
    assert (branch_attempts tr_c = []) as Hbc.
    { unfold branch_attempts. by rewrite Hruns. }
    assert (progress_ids [final] = []) as Hpf.
    { unfold final. by destruct (code =? 0). }
    rewrite !progress_ids_app, !branch_attempts_app, !commit_attempts_app,
      (branch_events_no_progress tr_b Hbe), (file_events_no_progress tr_f Hfe),
      (branch_events_no_commit tr_b Hbe), (file_events_no_commit tr_f Hfe),
      (file_events_no_branch tr_f Hfe), Hprog, Hpf, Hbc, Hcc.
    split; [done|]. split; [|split].
    + intros Hg. by rewrite (Hsame Hg).
    + intros Hg. destruct (Hdiff Hg) as (c1 & c2 & Hrb). exists c1, c2.
      unfold branch_attempts at 2. rewrite Hrb. cbn.
      by rewrite checkout_after_branch.
    + split; [done|]. exists code. split; [done|].
      rewrite !app_assoc, printed_app. apply last_snoc.
  - rewrite Hshape in Hrun. injection Hrun as <- <- Htr.
    assert (tr = [progress] ++ tr_b ++ tr_f) as -> by (symmetry; exact Htr).
    clear Htr.
    rewrite !progress_ids_app, !branch_attempts_app, !commit_attempts_app,
      (branch_events_no_progress tr_b Hbe), (file_events_no_progress tr_f Hfe),
      (branch_events_no_commit tr_b Hbe), (file_events_no_commit tr_f Hfe),
      (file_events_no_branch tr_f Hfe).
    split; [done|]. split; [|split].
    + intros Hg. by rewrite (Hsame Hg).
    + intros Hg. destruct (Hdiff Hg) as (c1 & c2 & Hrb). exists c1, c2.
      unfold branch_attempts at 2. rewrite Hrb. cbn.
      by rewrite checkout_after_branch.
    + done.
Qed.
End PlasticChangeset.

(** ** One changeset of [migrate] *)

Section SimpleChangeset.
Context `{Platform}.

Lemma simple_run_cmd_nocapture c w :
  Simple.run_cmd c false w
  = let '(o, w') := shell (cmd_text c) w in
    (Ok (None, returncode_of o), w', Ran c o :: crash_note_simple o).
Proof.
  unfold Simple.run_cmd, bind, subprocess_run.
  destruct (shell (cmd_text c) w) as [[out code|] w']; reflexivity.
Qed.

Lemma simple_step_facts total i cs s w r w' tr :
  Simple.process_changeset total (i, cs) s w = (r, w', tr) ->
  progress_ids tr = [Simple.id cs]
  /\ let sw_code :=
       returncode_of (fst (shell (cmd_text (CmSwitch (Simple.id cs))) w)) in
     head (runs tr) = Some (CmSwitch (Simple.id cs), sw_code)
      /\ if sw_code =? 0 then
           match Simple.branch cs with
           | None => r = Raise AttributeError /\ commit_attempts tr = []
           | Some b =>
               let g := git_branch_name b in
               (Some g = current_branch (Simple.tracking s) ->
                branch_attempts tr = [])
               /\ (Some g <> current_branch (Simple.tracking s) ->
                   exists c1 c2,
                     branch_attempts tr
                     = [(GitRevParse g, c1); (checkout_after c1 g, c2)])
               /\ exists code : Z,
                   r = Ok {| Simple.tracking := tracked g (Simple.tracking s);
                             Simple.success_count :=
                               (Simple.success_count s
                                + if (code =? 0)%Z then 1 else 0)%nat |}
                   /\ commit_attempts tr
                      = [(simple_commit (Simple.date cs) (Simple.comment cs), code)]
                   /\ last (printed tr)
                      = Some (if code =? 0 then SCommitted else SCommitFailed)
           end
         else r = Ok s /\ commit_attempts tr = [] /\ branch_attempts tr = []
              /\ last (printed tr) = Some SSwitchFailed.
Proof.
  unfold Simple.process_changeset.
  unfold bind at 1. unfold print at 1. cbn beta iota.
  unfold bind at 1. rewrite simple_run_cmd_nocapture.
  destruct (shell (cmd_text (CmSwitch (Simple.id cs))) w) as [o_sw w1].
  destruct (negb (returncode_of o_sw =? 0)) eqn:Hsw.
  { unfold bind, print, ret. cbn. intros [= <- <- <-].
    split; [by destruct o_sw|]. cbn [fst].
    split; [done|]. apply negb_true_iff in Hsw. rewrite Hsw.
    destruct o_sw; by repeat split. }
  apply negb_false_iff in Hsw.
  destruct (Simple.branch cs) as [b|].
  2:{ unfold bind, lift. cbn. intros [= <- <- <-].
      split; [by destruct o_sw|]. cbn [fst].
      split; [done|]. rewrite Hsw. destruct o_sw; by repeat split. }
  unfold bind at 1. unfold lift at 1. cbn beta iota.
  set (g := git_branch_name b).
  unfold tracked. unfold bind at 1.
  case_bool_decide as Hg.
  - unfold ret at 1. cbn beta iota.
    unfold bind at 1. rewrite simple_run_cmd_nocapture.
    destruct (shell (cmd_text GitAddAll) w1) as [o_add w2].
    unfold bind at 1. rewrite simple_run_cmd_nocapture.
    destruct (shell _ w2) as [o_c w3].
    destruct (returncode_of o_c =? 0) eqn:Hc;
      unfold bind, print, ret; cbn; intros [= <- <- <-];
      (split; [by destruct o_sw, o_add, o_c|]);
      cbn [fst]; (split; [done|]); rewrite Hsw;
      (split; [intros _; by destruct o_sw, o_add, o_c|]);
      (split; [done|]);
      exists (returncode_of o_c); rewrite Hc;
      (split; [do 2 f_equal; lia|]);
      destruct o_sw, o_add, o_c; split; reflexivity.
  - unfold bind at 1. rewrite simple_run_cmd_nocapture.
    destruct (shell (cmd_text (GitRevParse g)) w1) as [o_rp w2].
    unfold bind at 1.
    assert (exists o_co w3,
      (if negb (returncode_of o_rp =? 0)
       then Simple.run_cmd (GitCheckoutNew g) false
       else Simple.run_cmd (GitCheckout g) false) w2
      = (Ok (None, returncode_of o_co), w3,
         Ran (checkout_after (returncode_of o_rp) g) o_co :: crash_note_simple o_co))
      as (o_co & w3 & ->).
    { unfold checkout_after.
      destruct (negb (returncode_of o_rp =? 0)); rewrite simple_run_cmd_nocapture;
        destruct (shell _ w2) as [o_co w3]; by exists o_co, w3. }
    unfold ret at 1. cbn beta iota.
    unfold bind at 1. rewrite simple_run_cmd_nocapture.
    destruct (shell (cmd_text GitAddAll) w3) as [o_add w4].
    unfold bind at 1. rewrite simple_run_cmd_nocapture.
    destruct (shell _ w4) as [o_c w5].
    pose proof (checkout_after_branch (returncode_of o_rp) g) as Hcb.
    pose proof (checkout_after_not_commit (returncode_of o_rp) g) as Hcn.
    destruct (returncode_of o_c =? 0) eqn:Hc;
      unfold bind, print, ret; cbn; intros [= <- <- <-];
      (split; [by destruct o_sw, o_rp, o_co, o_add, o_c|]);
      cbn [fst]; (split; [done|]); rewrite Hsw;
      (split; [done|]);
      (split; [intros _; exists (returncode_of o_rp), (returncode_of o_co);
               unfold branch_attempts;
               destruct o_sw, o_rp, o_co, o_add, o_c; cbn in Hcb |- *;
               rewrite Hcb; reflexivity|]);
      exists (returncode_of o_c); rewrite Hc;
      (split; [do 2 f_equal; lia|]);
      unfold commit_attempts;
      destruct o_sw, o_rp, o_co, o_add, o_c; cbn in Hcn |- *;
      rewrite Hcn; split; reflexivity.
Qed.
End SimpleChangeset.

(** ** Loops *)

Section Loops.
Context `{Platform}.

Lemma bind_inv {A B} (m : M A) (f : A -> M B) w r w' tr :
  bind m f w = (r, w', tr) ->
  (exists a w1 t1 t2,
      m w = (Ok a, w1, t1) /\ f a w1 = (r, w', t2) /\ tr = t1 ++ t2)
  \/ (exists e, m w = (Raise e, w', tr) /\ r = Raise e).
Proof.
  unfold bind. destruct (m w) as [[[a|e] w1] t1].
  - destruct (f a w1) as [[r2 w2] t2] eqn:Hf. intros [= <- <- <-].
    left. by exists a, w1, t1, t2.
  - intros [= <- <- <-]. right. by exists e.
Qed.

Lemma bind_ok_inv {A B} (m : M A) (f : A -> M B) w b w' tr :
  bind m f w = (Ok b, w', tr) ->
  exists a w1 t1 t2,
    m w = (Ok a, w1, t1) /\ f a w1 = (Ok b, w', t2) /\ tr = t1 ++ t2.
Proof.
  intros [Hok|(e & _ & [=])]%bind_inv. exact Hok.
Qed.

(** Each iteration prints one progress line, unless it raises before. *)
Lemma for_each_progress {A S} (body : A -> S -> M S) (key : A -> Z) l s w r w' tr :
  (forall x s w r w' tr,
      body x s w = (r, w', tr) ->
      progress_ids tr = [key x]
      \/ (progress_ids tr = [] /\ exists e, r = Raise e)) ->
  for_each body l s w = (r, w', tr) ->
  progress_ids tr `prefix_of` map key l
  /\ (forall s', r = Ok s' -> progress_ids tr = map key l).
Proof.
  intros Hbody. revert s w r w' tr.
  induction l as [|x l IH]; intros s w r w' tr; simpl.
  - intros [= <- <- <-]. split; [by exists []|done].
  - intros [(s1 & w1 & t1 & t2 & Hx & Hl & ->)|(e & Hx & ->)]%bind_inv.
    + apply IH in Hl as [Hpre Heq].
      rewrite progress_ids_app.
      destruct (Hbody _ _ _ _ _ _ Hx) as [->|[_ [e [=]]]].
      split.
      * destruct Hpre as [k ->]. by exists k.
      * intros s' Hs'. by rewrite (Heq s' Hs').
    + split; [|done].
      destruct (Hbody _ _ _ _ _ _ Hx) as [->|[-> _]].
      * by exists (map key l).
      * apply prefix_nil.
Qed.

Lemma enumerate_from_snd {A} (l : list A) i : map snd (enumerate_from i l) = l.
Proof. revert i. induction l as [|x l IH]; intros i; simpl; [done|]. by rewrite IH. Qed.

Lemma enumerate_keys {A} (key : A -> Z) (l : list A) :
  map (fun ix => key (snd ix)) (enumerate l) = map key l.
Proof.
  unfold enumerate. rewrite <- (enumerate_from_snd l 0) at 2.
  by rewrite map_map.
Qed.

Lemma plastic_step_no_branch total i cs t w :
  Plastic.branch cs = None ->
  Plastic.process_changeset total (i, cs) t w = (Raise TypeError, w, []).
Proof. intros Hb. unfold Plastic.process_changeset. by rewrite Hb. Qed.

Lemma plastic_step_progress total ics t w r w' tr :
  Plastic.process_changeset total ics t w = (r, w', tr) ->
  progress_ids tr = [Plastic.id (snd ics)]
  \/ (progress_ids tr = [] /\ exists e, r = Raise e).
Proof.
  destruct ics as [i cs]. destruct (Plastic.branch cs) as [b|] eqn:Hb.
  - intros Hrun. left. by apply (plastic_step_facts _ _ _ _ _ _ _ _ _ Hb Hrun).
  - rewrite plastic_step_no_branch by done. intros [= <- <- <-]. right. eauto.
Qed.

Lemma simple_step_progress total ics s w r w' tr :
  Simple.process_changeset total ics s w = (r, w', tr) ->
  progress_ids tr = [Simple.id (snd ics)]
  \/ (progress_ids tr = [] /\ exists e, r = Raise e).
Proof.
  destruct ics as [i cs]. intros Hrun. left.
  by apply (simple_step_facts _ _ _ _ _ _ _ _ Hrun).
Qed.

(** The drivers print the progress lines of their loops and no other. *)
Lemma plastic_driver_progress root css w r w' tr :
  Plastic.parse_xml_history root = Ok css ->
  Plastic.migrate_history root w = (r, w', tr) ->
  progress_ids tr `prefix_of` map Plastic.id css
  /\ (forall t, r = Ok t -> progress_ids tr = map Plastic.id css).
Proof.
  intros Hparse. unfold Plastic.migrate_history. rewrite Hparse.
  unfold bind at 1. unfold print at 1. cbn beta iota.
  unfold bind at 1. unfold lift at 1. cbn beta iota.
  destruct css as [|cs0 css'] eqn:Hcss.
  { cbn. intros [= <- <- <-]. split; [by exists []|done]. }
  rewrite <- Hcss. clear Hparse.
  assert (head css = Some cs0) as -> by by subst.
  assert (exists csl, last css = Some csl) as [csl ->].
  { subst css. destruct (last (cs0 :: css')) eqn:Hl; [eauto|].
    by apply last_None in Hl. }
  unfold bind at 1. unfold lift at 1. cbn beta iota.
  unfold bind at 1. unfold lift at 1. cbn beta iota.
  unfold bind at 1. unfold print at 1. cbn beta iota.
  unfold bind at 1. unfold print at 1. cbn beta iota.
  unfold bind at 1.
  destruct (for_each (Plastic.process_changeset (length css)) (enumerate css)
              tracking_init w) as [[rl wl] trl] eqn:Hloop.
  apply (for_each_progress _ (fun ix => Plastic.id (snd ix))) in Hloop
    as [Hpre Heq]; [|apply plastic_step_progress].
  rewrite enumerate_keys in Hpre, Heq.
  destruct rl as [tf|e].
  - unfold bind at 1. unfold print at 1. cbn beta iota.
    unfold bind at 1. unfold print at 1. cbn beta iota.
    unfold bind. rewrite plastic_run_command_nocapture.
    destruct (shell (cmd_text GitBranchAll) wl) as [o wb]. cbn.
    intros [= <- <- <-].
    assert (progress_ids
              (Printed PParsing
               :: Printed (PFound (length css) (Plastic.id cs0) (Plastic.id csl))
               :: Printed PStarting
               :: trl ++ Printed (PSummary (length css) (size (git_branches tf)))
               :: Printed PBranchesHeader
               :: Ran GitBranchAll o :: crash_note GitBranchAll o ++ [])
            = map Plastic.id css) as ->.
    { rewrite !progress_ids_cons, progress_ids_app, !progress_ids_cons.
      rewrite (Heq tf eq_refl). destruct o; cbn; by rewrite app_nil_r. }
    done.
  - cbn. intros [= <- <- <-]. split; [|done]. exact Hpre.
Qed.
End Loops.

Section SimpleDriver.
Context `{Platform}.

Lemma simple_driver_shape root css w :
  Simple.parse_history root = Ok css ->
  exists sf wf trl,
    for_each (Simple.process_changeset (length css)) (enumerate css)
      {| Simple.tracking := tracking_init; Simple.success_count := 0 |} w
    = (sf, wf, trl)
    /\ Simple.migrate root w
       = match sf with
         | Ok s =>
             (Ok s, wf,
              [Printed SParsing; Printed (SFound (length css)); Printed SMigrating]
                ++ trl
                ++ [Printed (SSummary (Simple.success_count s) (length css)
                               (sorted_strs (git_branches (Simple.tracking s))))])
         | Raise e =>
             (Raise e, wf,
              [Printed SParsing; Printed (SFound (length css)); Printed SMigrating]
                ++ trl)
         end.
Proof.
  intros Hparse. unfold Simple.migrate. rewrite Hparse.
  destruct (for_each _ _ _ w) as [[sf wf] trl] eqn:Hloop.
  exists sf, wf, trl. split; [done|].
  unfold bind at 1. unfold print at 1. cbn beta iota.
  unfold bind at 1. unfold lift at 1. cbn beta iota.
  unfold bind at 1. unfold print at 1. cbn beta iota.
  unfold bind at 1. unfold print at 1. cbn beta iota.
  unfold bind at 1. rewrite Hloop.
  destruct sf as [s|e]; [|reflexivity].
  unfold bind, print, ret. cbn. reflexivity.
Qed.

Lemma simple_driver_progress root css w r w' tr :
  Simple.parse_history root = Ok css ->
  Simple.migrate root w = (r, w', tr) ->
  progress_ids tr `prefix_of` map Simple.id css
  /\ (forall s, r = Ok s -> progress_ids tr = map Simple.id css).
Proof.
  intros Hparse Hrun.
  destruct (simple_driver_shape root css w Hparse) as (sf & wf & trl & Hloop & Hm).
  rewrite Hm in Hrun. clear Hm.
  apply (for_each_progress _ (fun ix => Simple.id (snd ix))) in Hloop
    as [Hpre Heq]; [|apply simple_step_progress].
  rewrite enumerate_keys in Hpre, Heq.
  destruct sf as [s|e]; injection Hrun as <- <- <-.
  - rewrite !progress_ids_cons, progress_ids_app, (Heq s eq_refl). cbn.
    rewrite app_nil_r. split; done.
  - rewrite !progress_ids_cons. cbn. split; [done|]. done.
Qed.
End SimpleDriver.

(** ** Reading the history *)

Lemma rmap_ok_length {A B} (f : A -> result B) l ys :
  rmap f l = Ok ys -> length ys = length l.
Proof.
  revert ys. induction l as [|x l IH]; intros ys; simpl.
  - by intros [= <-].
  - destruct (f x) as [y|e]; simpl; [|done].
    destruct (rmap f l) as [ys'|e]; simpl; [|done].
    intros [= <-]. simpl. by rewrite (IH ys').
Qed.

(** Reordering the records reorders what is read from them, and does not
    change whether all of them can be read. *)
Lemma rmap_perm {A B} (f : A -> result B) l l' ys :
  l ≡ₚ l' -> rmap f l = Ok ys -> exists ys', rmap f l' = Ok ys' /\ ys ≡ₚ ys'.
Proof.
  intros Hp. revert ys. induction Hp as [|x l l' Hp IH|x y l|l l' l'' Hp1 IH1 Hp2 IH2];
    intros ys; simpl.
  - intros [= <-]. by exists [].
  - destruct (f x) as [fx|e]; simpl; [|done].
    destruct (rmap f l) as [ys0|e]; simpl; [|done].
    intros [= <-]. destruct (IH ys0 eq_refl) as (ys' & -> & Hys).
    simpl. exists (fx :: ys'). split; [done|]. by constructor.
  - destruct (f y) as [fy|e]; simpl; [|done].
    destruct (f x) as [fx|e]; simpl; [|done].
    destruct (rmap f l) as [ys0|e]; simpl; [|done].
    intros [= <-]. exists (fx :: fy :: ys0). split; [done|]. apply Permutation_swap.
  - intros Hys. destruct (IH1 ys Hys) as (ys1 & H1 & Hp1').
    destruct (IH2 ys1 H1) as (ys2 & H2 & Hp2'). exists ys2. split; [done|].
    by etrans.
Qed.

Section Parsing.
Context `{Platform}.

Lemma plastic_parse_inv root css :
  Plastic.parse_xml_history root = Ok css ->
  exists read,
    rmap Plastic.parse_changeset (findall (lit "Changeset") root) = Ok read
    /\ css = sort_by Plastic.id read.
Proof.
  unfold Plastic.parse_xml_history.
  destruct (rmap _ _) as [read|e]; simpl; [|done].
  intros [= <-]. by exists read.
Qed.

Lemma simple_parse_inv root css :
  Simple.parse_history root = Ok css ->
  exists read,
    rmap Simple.parse_changeset (findall (lit "Changeset") root) = Ok read
    /\ css = sort_by Simple.id read.
Proof.
  unfold Simple.parse_history.
  destruct (rmap _ _) as [read|e]; simpl; [|done].
  intros [= <-]. by exists read.
Qed.
End Parsing.

(** ** The order of replay *)

(** C1: the driver goes through the changesets in ascending order of [id],
    whatever the order of the records in the history document.  The ids of
    the progress lines printed, in order, are those of the changesets read,
    sorted ascending (up to the point where a run raises); the order is
    strict when the ids are unique, as the data model requires; and a
    document with the same records in another order yields the same
    sequence of ids.  This holds in both scripts. *)
Theorem changesets_replayed_in_ascending_id_order (P : Platform) :
  (forall root css,
      Plastic.parse_xml_history root = Ok css ->
      StronglySorted Z.le (map Plastic.id css)
      /\ (NoDup (map Plastic.id css) -> StronglySorted Z.lt (map Plastic.id css))
      /\ (forall root',
             findall (lit "Changeset") root' ≡ₚ findall (lit "Changeset") root ->
             exists css', Plastic.parse_xml_history root' = Ok css'
                          /\ map Plastic.id css' = map Plastic.id css)
      /\ (forall w r w' tr,
             Plastic.migrate_history root w = (r, w', tr) ->
             progress_ids tr `prefix_of` map Plastic.id css
             /\ (forall t, r = Ok t -> progress_ids tr = map Plastic.id css)))
  /\ (forall root css,
      Simple.parse_history root = Ok css ->
      StronglySorted Z.le (map Simple.id css)
      /\ (NoDup (map Simple.id css) -> StronglySorted Z.lt (map Simple.id css))
      /\ (forall root',
             findall (lit "Changeset") root' ≡ₚ findall (lit "Changeset") root ->
             exists css', Simple.parse_history root' = Ok css'
                          /\ map Simple.id css' = map Simple.id css)
      /\ (forall w r w' tr,
             Simple.migrate root w = (r, w', tr) ->
             progress_ids tr `prefix_of` map Simple.id css
             /\ (forall s, r = Ok s -> progress_ids tr = map Simple.id css))).
Proof.
  split; intros root css Hparse.
  - pose proof Hparse as (read & Hread & ->)%plastic_parse_inv.
    split; [apply sort_by_keys_sorted|].
    split; [apply sorted_le_nodup_lt, sort_by_keys_sorted|].
    split.
    + intros root' Hperm. symmetry in Hperm.
      destruct (rmap_perm _ _ _ _ Hperm Hread) as (read' & Hread' & Hp).
      exists (sort_by Plastic.id read'). split.
      * unfold Plastic.parse_xml_history. by rewrite Hread'.
      * apply sort_by_keys_order_independent. by rewrite Hp.
    + intros w r w' tr. by apply plastic_driver_progress.
  - pose proof Hparse as (read & Hread & ->)%simple_parse_inv.
    split; [apply sort_by_keys_sorted|].
    split; [apply sorted_le_nodup_lt, sort_by_keys_sorted|].
    split.
    + intros root' Hperm. symmetry in Hperm.
      destruct (rmap_perm _ _ _ _ Hperm Hread) as (read' & Hread' & Hp).
      exists (sort_by Simple.id read'). split.
      * unfold Simple.parse_history. by rewrite Hread'.
      * apply sort_by_keys_order_independent. by rewrite Hp.
    + intros w r w' tr. by apply simple_driver_progress.
Qed.

Lemma run_eta {P : Platform} {A} (m : @M P A) (w : @World P) :
  m w = (outcome_of m w, snd (fst (m w)), trace_of m w).
Proof. unfold outcome_of, trace_of. by destruct (m w) as [[r w'] tr]. Qed.

(** On the history that lists changeset 2 before changeset 1, both scripts
    go through changeset 1 first. *)
Lemma changesets_replayed_in_ascending_id_order_witness :
  StronglySorted Z.lt [1; 2]
  /\ progress_ids (trace_of (@Plastic.migrate_history all_succeed history_2_1) tt)
     = [1; 2]
  /\ progress_ids (trace_of (@Simple.migrate all_succeed history_2_1) tt) = [1; 2]
  /\ (exists css',
         @Plastic.parse_xml_history all_succeed history_1_2 = Ok css'
         /\ map Plastic.id css' = [1; 2]).
Proof.
  destruct (changesets_replayed_in_ascending_id_order all_succeed) as [HP HS].
  assert (exists css, @Plastic.parse_xml_history all_succeed history_2_1 = Ok css
                      /\ map Plastic.id css = [1; 2]) as (css & Hp & Hids)
    by (eexists; split; vm_compute; reflexivity).
  assert (exists css, @Simple.parse_history all_succeed history_2_1 = Ok css
                      /\ map Simple.id css = [1; 2]) as (css2 & Hp2 & Hids2)
    by (eexists; split; vm_compute; reflexivity).
  destruct (HP _ _ Hp) as (_ & Hstrict & Hperm & Hrun).
  destruct (HS _ _ Hp2) as (_ & _ & _ & Hrun2).
  rewrite Hids in Hstrict, Hperm, Hrun. rewrite Hids2 in Hrun2.
  split; [|split; [|split]].
  - apply Hstrict. apply NoDup_cons. split; [|apply NoDup_singleton].
    by intros ?%list_elem_of_singleton.
  - destruct (Hrun _ _ _ _
                (run_eta (@Plastic.migrate_history all_succeed history_2_1) tt))
      as [_ Hok].
    assert (exists t, outcome_of (@Plastic.migrate_history all_succeed history_2_1) tt
                      = Ok t) as [t Ht] by (eexists; vm_compute; reflexivity).
    exact (Hok t Ht).
  - destruct (Hrun2 _ _ _ _
                (run_eta (@Simple.migrate all_succeed history_2_1) tt))
      as [_ Hok].
    assert (exists s, outcome_of (@Simple.migrate all_succeed history_2_1) tt
                      = Ok s) as [s Hs] by (eexists; vm_compute; reflexivity).
    exact (Hok s Hs).
  - apply Hperm. vm_compute. apply Permutation_swap.
Defined.

(** ** Messages *)

Section Messages.
Context `{Platform}.

Lemma simple_parse_changeset_spec e :
  Simple.parse_changeset e
  = rbind (dot_text (find (lit "ChangesetId") e)) (fun id_text =>
    rbind (int_of_text id_text) (fun cs_id =>
    rbind (dot_text (find (lit "Branch") e)) (fun branch =>
    rbind (dot_text (find (lit "Comment") e)) (fun comment_text =>
    rbind (dot_text (find (lit "Date") e)) (fun date_str =>
    rbind (Simple.tally ∅ (Simple.changes_items e)) (fun change_types =>
    Ok {| Simple.id := cs_id; Simple.branch := branch;
          Simple.comment := simple_comment cs_id comment_text change_types;
          Simple.date := date_str |})))))).
Proof. reflexivity. Qed.

Lemma simple_parse_changeset_inv e cs :
  Simple.parse_changeset e = Ok cs ->
  exists id_text comment_text change_types,
    dot_text (find (lit "ChangesetId") e) = Ok id_text
    /\ int_of_text id_text = Ok (Simple.id cs)
    /\ dot_text (find (lit "Branch") e) = Ok (Simple.branch cs)
    /\ dot_text (find (lit "Comment") e) = Ok comment_text
    /\ dot_text (find (lit "Date") e) = Ok (Simple.date cs)
    /\ Simple.tally ∅ (Simple.changes_items e) = Ok change_types
    /\ Simple.comment cs = simple_comment (Simple.id cs) comment_text change_types.
Proof.
  rewrite simple_parse_changeset_spec.
  destruct (dot_text (find (lit "ChangesetId") e)) as [id_text|]; cbn [rbind]; [|done].
  destruct (int_of_text id_text) as [cs_id|] eqn:Hid; cbn [rbind]; [|done].
  destruct (dot_text (find (lit "Branch") e)) as [branch|]; cbn [rbind]; [|done].
  destruct (dot_text (find (lit "Comment") e)) as [comment_text|]; cbn [rbind]; [|done].
  destruct (dot_text (find (lit "Date") e)) as [date_str|]; cbn [rbind]; [|done].
  destruct (Simple.tally ∅ (Simple.changes_items e)) as [m|]; cbn [rbind]; [|done].
  intros [= <-]. by exists id_text, comment_text, m.
Qed.

Lemma simple_tally_count items m types (t : string) :
  Simple.tally ∅ items = Ok m -> item_types items = Ok types ->
  count_at m (Some (lit t)) = count_type t types.
Proof.
  intros (types' & Hty & ->)%simple_tally_types Htypes.
  rewrite Hty in Htypes. injection Htypes as ->.
  by rewrite count_at_foldl, count_at_empty.
Qed.

Lemma plastic_message_of_blank cs :
  strip (Plastic.comment cs) = [] -> Plastic.changes cs <> [] ->
  Plastic.generate_commit_message cs
  = listed_message (map Plastic.type (Plastic.changes cs)).
Proof.
  intros Hc Hch. unfold Plastic.generate_commit_message. rewrite Hc. simpl.
  rewrite bool_decide_false by by rewrite plastic_tally_empty.
  unfold listed_message. f_equal. apply message_parts_listing.
  intros t. apply plastic_tally_count.
Qed.

Lemma simple_message_of_blank e cs comment_text types :
  Simple.parse_changeset e = Ok cs ->
  dot_text (find (lit "Comment") e) = Ok comment_text ->
  strip (or_empty comment_text) = [] ->
  item_types (Simple.changes_items e) = Ok types ->
  listing types <> [] ->
  Simple.comment cs = listed_message types.
Proof.
  intros (id_text & ct & m & _ & _ & _ & Hct & _ & Hm & ->)%simple_parse_changeset_inv
    Hct' Hblank Htypes Hne.
  rewrite Hct in Hct'. injection Hct' as ->.
  unfold simple_comment. rewrite Hblank. simpl.
  rewrite (message_parts_listing m types)
    by (intros t; by apply (simple_tally_count _ _ _ _ Hm)).
  unfold listed_message. by destruct (listing types).
Qed.

Lemma listing_3_added_1_deleted types :
  count_type "Added" types = 3%nat -> count_type "Changed" types = 0%nat ->
  count_type "Deleted" types = 1%nat -> count_type "Moved" types = 0%nat ->
  listing types = [lit "Add 3 file(s)"; lit "Delete 1 file(s)"].
Proof. unfold listing. by intros -> -> -> ->. Qed.
End Messages.

(** C8: with a comment that is empty after trimming and a change list that
    is not, the message lists each of the change types present with its
    count, in the order Added, Changed, Deleted, Moved, joined by a comma
    and a space; three Added and one Deleted give exactly
    [Add 3 file(s), Delete 1 file(s)].  In [migrate_simple.py] the change
    types are those the data model allows. *)
Theorem synthesized_message_lists_present_types (P : Platform) :
  (forall cs : Plastic.Changeset,
      strip (Plastic.comment cs) = [] -> Plastic.changes cs <> [] ->
      Plastic.generate_commit_message cs
      = listed_message (map Plastic.type (Plastic.changes cs)))
  /\ (forall e cs comment_text types,
      Simple.parse_changeset e = Ok cs ->
      dot_text (find (lit "Comment") e) = Ok comment_text ->
      strip (or_empty comment_text) = [] ->
      item_types (Simple.changes_items e) = Ok types ->
      types <> [] -> Forall valid_type types ->
      Simple.comment cs = listed_message types)
  /\ (forall cs : Plastic.Changeset,
      strip (Plastic.comment cs) = [] ->
      count_type "Added" (map Plastic.type (Plastic.changes cs)) = 3%nat ->
      count_type "Changed" (map Plastic.type (Plastic.changes cs)) = 0%nat ->
      count_type "Deleted" (map Plastic.type (Plastic.changes cs)) = 1%nat ->
      count_type "Moved" (map Plastic.type (Plastic.changes cs)) = 0%nat ->
      Plastic.generate_commit_message cs = lit "Add 3 file(s), Delete 1 file(s)")
  /\ (forall e cs comment_text types,
      Simple.parse_changeset e = Ok cs ->
      dot_text (find (lit "Comment") e) = Ok comment_text ->
      strip (or_empty comment_text) = [] ->
      item_types (Simple.changes_items e) = Ok types ->
      count_type "Added" types = 3%nat -> count_type "Changed" types = 0%nat ->
      count_type "Deleted" types = 1%nat -> count_type "Moved" types = 0%nat ->
      Simple.comment cs = lit "Add 3 file(s), Delete 1 file(s)").
Proof.
  split; [|split; [|split]].
  - apply plastic_message_of_blank.
  - intros e cs comment_text types Hp Hc Hb Ht Hne Hv.
    eapply simple_message_of_blank; eauto. by apply listing_nonempty.
  - intros cs Hc Ha Hch Hd Hm.
    rewrite plastic_message_of_blank; [| done |].
    + unfold listed_message. by rewrite (listing_3_added_1_deleted _ Ha Hch Hd Hm).
    + intros Hnil. rewrite Hnil in Ha. discriminate.
  - intros e cs comment_text types Hp Hc Hb Ht Ha Hch Hd Hm.
    rewrite (simple_message_of_blank e cs comment_text types Hp Hc Hb Ht).
    + unfold listed_message. by rewrite (listing_3_added_1_deleted _ Ha Hch Hd Hm).
    + by rewrite (listing_3_added_1_deleted _ Ha Hch Hd Hm).
Qed.

(** ** Reconciliation *)

Section Reconciliation.
Context `{Platform}.

Lemma cm_cat_attempts_app t1 t2 :
  cm_cat_attempts (t1 ++ t2) = cm_cat_attempts t1 ++ cm_cat_attempts t2.
Proof. unfold cm_cat_attempts. by rewrite runs_app, List.filter_app. Qed.

Lemma branch_events_no_cm_cat tr :
  forallb branch_event tr = true -> cm_cat_attempts tr = [].
Proof. apply filter_runs_nil. by intros [] o. Qed.

Lemma runs_no_ran tr :
  forallb (fun e => match e with Ran _ _ => false | _ => true end) tr = true ->
  runs tr = [].
Proof. apply flat_map_nil_forallb. by intros []. Qed.

(** What one entry of [files_to_process] does: an [add_or_update] runs one
    [cm cat], and writes, if anything, the stripped decoded output of a
    [cm cat] that returned 0, encoded as UTF-8. *)
Lemma process_file_effects f w r w' tr :
  Plastic.process_file f w = (r, w', tr) ->
  map fst (cm_cat_attempts tr) = retrieval_of_file f
  /\ forall p content,
      In (p, content) (written tr) ->
      exists path cs_id stdout text,
        f = (Plastic.add_or_update, path, cs_id)
        /\ fst (shell (cmd_text (CmCat path cs_id)) w) = Exited stdout 0
        /\ text_decode stdout = Some text
        /\ Plastic.full_path_of path = Ok p
        /\ content = encode_utf8_ignore (strip text).
Proof.
  destruct f as [[[] path] cs_id]; unfold Plastic.process_file.
  - unfold bind at 1.
    destruct (plastic_run_command_capture (CmCat path cs_id) w)
      as (o & w1 & content & code & notes & Hs & -> & Hnotes & Hok).
    assert (runs notes = [] /\ written notes = []) as [Hrn Hwn]
      by (by destruct Hnotes as [->| ->]).
    destruct (code =? 0) eqn:Hc.
    + apply Z.eqb_eq in Hc. destruct (Hok Hc) as (stdout & text & -> & Hd & -> & ->).
      unfold bind, lift, os_makedirs, write_binary, raise.
      destruct (Plastic.full_path_of path) as [full|e] eqn:Hfull; simpl.
      * destruct (makedirs _ w1) as [w2|]; simpl.
        -- destruct (write_file _ _ w2) as [w3|]; simpl; intros [= <- <- <-];
             (split; [done|]); simpl; intros p c Hin; [|done].
           destruct Hin as [[= <- <-]|[]].
           exists path, cs_id, stdout, text.
           split; [done|]. split; [exact (f_equal fst Hs)|]. done.
        -- intros [= <- <- <-]. by split.
      * intros [= <- <- <-]. by split.
    + unfold print. intros [= <- <- <-].
      change (Ran (CmCat path cs_id) o :: notes ++ [Printed (PWarning path)])
        with ([Ran (CmCat path cs_id) o] ++ notes ++ [Printed (PWarning path)]).
      unfold cm_cat_attempts. rewrite !runs_app, !written_app, Hrn, Hwn.
      split; [done|]. intros p c [].
  - unfold bind, lift, os_path_exists, os_remove, ret.
    destruct (Plastic.full_path_of path) as [full|e]; simpl.
    + destruct (path_exists full w); simpl.
      * destruct (remove_file full w) as [w1|]; simpl.
        -- rewrite plastic_run_command_nocapture.
           destruct (shell _ w1) as [[]]; simpl; intros [= <- <- <-]; by split.
        -- intros [= <- <- <-]. by split.
      * intros [= <- <- <-]. by split.
    + intros [= <- <- <-]. by split.
Qed.
End Reconciliation.

Section ReconciliationLoop.
Context `{Platform}.

Lemma retrieval_of_files cs_id change :
  flat_map retrieval_of_file (Plastic.files_of_change cs_id change)
  = retrieval_of cs_id change.
Proof.
  unfold Plastic.files_of_change, retrieval_of.
  destruct (bool_decide_reflect (Plastic.type change = Some (lit "Added"))) as [Ha|Ha];
    [done|].
  destruct (bool_decide_reflect (Plastic.type change = Some (lit "Changed"))) as [Hc|Hc];
    [done|].
  destruct (bool_decide_reflect (Plastic.type change = Some (lit "Deleted"))) as [Hd|Hd].
  - rewrite bool_decide_false; [done|]. rewrite Hd. discriminate.
  - by destruct (bool_decide_reflect (Plastic.type change = Some (lit "Moved"))).
Qed.

Lemma for_each_files_effects files w r w' tr :
  for_each (fun f _ => Plastic.process_file f) files tt w = (r, w', tr) ->
  (r = Ok tt -> map fst (cm_cat_attempts tr) = flat_map retrieval_of_file files)
  /\ forall p content,
      In (p, content) (written tr) ->
      exists w0 path cs_id stdout text,
        In (Plastic.add_or_update, path, cs_id) files
        /\ fst (shell (cmd_text (CmCat path cs_id)) w0) = Exited stdout 0
        /\ text_decode stdout = Some text
        /\ Plastic.full_path_of path = Ok p
        /\ content = encode_utf8_ignore (strip text).
Proof.
  revert w r w' tr. induction files as [|f files IH]; intros w r w' tr; simpl.
  - intros [= <- <- <-]. split; [done|]. intros p c [].
  - intros [([] & w1 & t1 & t2 & Hf & Hrest & ->)|(e & Hf & ->)]%bind_inv.
    + destruct (process_file_effects _ _ _ _ _ Hf) as [Hcat Hwr].
      destruct (IH _ _ _ _ Hrest) as [Hcat' Hwr'].
      split.
      * intros Hr. rewrite cm_cat_attempts_app, map_app, Hcat, (Hcat' Hr). done.
      * intros p c. rewrite written_app, in_app_iff.
        intros [Hin|Hin].
        -- destruct (Hwr p c Hin) as (path & cs_id & stdout & text & -> & Hrest').
           exists w, path, cs_id, stdout, text. split; [by left|done].
        -- destruct (Hwr' p c Hin) as (w0 & path & cs_id & stdout & text & Hin' & Hrest').
           exists w0, path, cs_id, stdout, text. split; [by right|done].
    + split; [done|].
      destruct (process_file_effects _ _ _ _ _ Hf) as [_ Hwr].
      intros p c Hin.
      destruct (Hwr p c Hin) as (path & cs_id & stdout & text & -> & Hrest').
      exists w, path, cs_id, stdout, text. split; [by left|done].
Qed.

(** Reconciling a changeset retrieves, in the order of the change list,
    the destination of each added, changed or moved file, and writes only
    what it retrieved, stripped and encoded again. *)
Lemma apply_changeset_files_effects cs w r w' tr :
  Plastic.apply_changeset_files cs (Plastic.id cs) w = (r, w', tr) ->
  (r = Ok tt -> map fst (cm_cat_attempts tr) = retrievals cs)
  /\ forall p content,
      In (p, content) (written tr) ->
      exists w0 change stdout text,
        In change (Plastic.changes cs)
        /\ retrieval_of (Plastic.id cs) change <> []
        /\ fst (shell (cmd_text (CmCat (Plastic.dst_path change) (Plastic.id cs))) w0)
           = Exited stdout 0
        /\ text_decode stdout = Some text
        /\ Plastic.full_path_of (Plastic.dst_path change) = Ok p
        /\ content = encode_utf8_ignore (strip text).
Proof.
  unfold Plastic.apply_changeset_files. intros Hrun.
  destruct (for_each_files_effects _ _ _ _ _ Hrun) as [Hcat Hwr]. split.
  - intros Hr. rewrite (Hcat Hr). unfold retrievals.
    clear. generalize (Plastic.id cs). intros cs_id.
    induction (Plastic.changes cs) as [|ch chs IH]; [done|].
    cbn [flat_map]. by rewrite flat_map_app, retrieval_of_files, IH.
  - intros p c Hin.
    destruct (Hwr p c Hin) as (w0 & path & cs_id & stdout & text & Hf & Hs & Hd & Hp & ->).
    apply in_flat_map in Hf as (change & Hch & Hf).
    assert (path = Plastic.dst_path change /\ cs_id = Plastic.id cs
            /\ retrieval_of (Plastic.id cs) change <> []) as (-> & -> & Hne).
    { rewrite <- retrieval_of_files.
      unfold Plastic.files_of_change in *.
      destruct (_ || _).
      - destruct Hf as [[= <- <-]|[]]. done.
      - destruct (bool_decide _).
        + destruct Hf as [[=]|[]].
        + destruct (bool_decide _); [|done].
          destruct Hf as [[=]|[[= <- <-]|[]]]. done. }
    by exists w0, change, stdout, text.
Qed.
End ReconciliationLoop.

Section PlasticReconciles.
Context `{Platform}.

Lemma plastic_step_reconciles total i cs t w b r w' tr :
  Plastic.branch cs = Some b ->
  Plastic.process_changeset total (i, cs) t w = (r, w', tr) ->
  (forall t', r = Ok t' -> map fst (cm_cat_attempts tr) = retrievals cs)
  /\ (forall e, r = Raise e ->
      exists w1 w2 tr_f,
        Plastic.apply_changeset_files cs (Plastic.id cs) w1 = (Raise e, w2, tr_f))
  /\ forall p content,
      In (p, content) (written tr) ->
      exists w0 change stdout text,
        In change (Plastic.changes cs)
        /\ retrieval_of (Plastic.id cs) change <> []
        /\ fst (shell (cmd_text (CmCat (Plastic.dst_path change) (Plastic.id cs))) w0)
           = Exited stdout 0
        /\ text_decode stdout = Some text
        /\ Plastic.full_path_of (Plastic.dst_path change) = Ok p
        /\ content = encode_utf8_ignore (strip text).
Proof.
  intros Hb Hrun.
  destruct (plastic_process_changeset_run total i cs t w b Hb)
    as (w1 & tr_b & r_f & w2 & tr_f & Hbe & _ & _ & Hf & Hfe & Hshape).
  destruct (apply_changeset_files_effects _ _ _ _ _ Hf) as [Hcat Hwr].
  set (progress := Printed (PProgress (i + 1) total (Plastic.id cs) (take 40 b)))
    in Hshape.
  destruct r_f as [[]|e].
  - destruct Hshape as (w3 & tr_c & code & Hruns & Hprog & Hwc & Heq).
    rewrite Heq in Hrun. injection Hrun as <- <- Htr.
    set (final := Printed (if code =? 0 then PCommitted else PCommitFailed)) in Htr.
    assert (tr = [progress] ++ tr_b ++ tr_f ++ tr_c ++ [final]) as ->
      by (symmetry; exact Htr).
    assert (cm_cat_attempts tr_c = []) as Hcc
      by (unfold cm_cat_attempts; by rewrite Hruns).
    assert (written [final] = []) as Hwf by (unfold final; by destruct (code =? 0)).
    rewrite !cm_cat_attempts_app, !written_app, (branch_events_no_cm_cat _ Hbe),
      (branch_events_no_write _ Hbe), Hcc, Hwc, Hwf, !app_nil_r.
    split; [intros _ _; by apply Hcat|]. split; [done|]. exact Hwr.
  - rewrite Hshape in Hrun. injection Hrun as <- <- Htr.
    assert (tr = [progress] ++ tr_b ++ tr_f) as -> by (symmetry; exact Htr).
    rewrite !written_app, (branch_events_no_write _ Hbe).
    split; [done|]. split; [|exact Hwr].
    intros e' [= <-]. by exists w1, w2, tr_f.
Qed.
End PlasticReconciles.

(** ** A failed branch switch *)

(** C2, as amended: a failure reported by the branch creation or checkout
    is not examined.  No failure is recorded for it and nothing is skipped:
    the changeset's content is reconciled ([migrate_plastic_to_git.py]) and
    its commit is attempted as after a successful switch, the status
    printed depends on the commit alone, and the loop goes on to the next
    changeset.  Resolving the branch never raises; an iteration of
    [migrate_plastic_to_git.py] that raises does so while reconciling
    files.  In [migrate_simple.py] it is a failed [cm switch] that is
    reported and skips the rest of the changeset. *)
Theorem branch_failure_does_not_skip_changeset (P : Platform) :
  (forall branch_name w,
      exists w' tr,
        Plastic.get_or_create_branch branch_name w
        = (Ok (git_branch_name branch_name), w', tr))
  /\ (forall total i cs t w b r w' tr,
      Plastic.branch cs = Some b ->
      Plastic.process_changeset total (i, cs) t w = (r, w', tr) ->
      match r with
      | Ok _ =>
          map fst (cm_cat_attempts tr) = retrievals cs
          /\ exists code,
              commit_attempts tr
              = [(plastic_commit (Plastic.date_str cs)
                    (Plastic.generate_commit_message cs), code)]
              /\ last (printed tr)
                 = Some (if code =? 0 then PCommitted else PCommitFailed)
      | Raise e =>
          exists w1 w2 tr_f,
            Plastic.apply_changeset_files cs (Plastic.id cs) w1 = (Raise e, w2, tr_f)
      end)
  /\ (forall total i cs s w b r w' tr,
      Simple.branch cs = Some b ->
      Simple.process_changeset total (i, cs) s w = (r, w', tr) ->
      if returncode_of (fst (shell (cmd_text (CmSwitch (Simple.id cs))) w)) =? 0
      then exists code s',
          r = Ok s'
          /\ commit_attempts tr
             = [(simple_commit (Simple.date cs) (Simple.comment cs), code)]
          /\ last (printed tr) = Some (if code =? 0 then SCommitted else SCommitFailed)
      else r = Ok s /\ commit_attempts tr = []
           /\ last (printed tr) = Some SSwitchFailed).
Proof.
  split; [|split].
  - intros branch_name w.
    destruct (get_or_create_branch_run branch_name w) as (w' & tr & Hrun & _).
    by exists w', tr.
  - intros total i cs t w b r w' tr Hb Hrun.
    destruct (plastic_step_facts _ _ _ _ _ _ _ _ _ Hb Hrun) as (_ & _ & _ & Hr).
    destruct (plastic_step_reconciles _ _ _ _ _ _ _ _ _ Hb Hrun) as (Hcat & Hraise & _).
    destruct r as [t'|e].
    + destruct Hr as (_ & code & Hc & Hl). split; [by apply (Hcat t')|]. by exists code.
    + by apply Hraise.
  - intros total i cs s w b r w' tr Hb Hrun.
    destruct (simple_step_facts _ _ _ _ _ _ _ _ Hrun) as (_ & _ & Hsw).
    destruct (_ =? 0).
    + rewrite Hb in Hsw. destruct Hsw as (_ & _ & code & -> & Hc & Hl).
      by eexists code, _.
    + by destruct Hsw as (-> & Hc & _ & Hl).
Qed.

(** C2, as stated, fails: with every [git rev-parse] and [git checkout]
    failing, [migrate_plastic_to_git.py] still retrieves the added file of
    changeset 2 and commits both changesets, and [migrate_simple.py] commits
    both. *)
Lemma failed_checkout_still_reconciles_and_commits :
  let tr := trace_of (@Plastic.migrate_history checkout_fails history_2_1) tt in
  let tr' := trace_of (@Simple.migrate checkout_fails history_2_1) tt in
  branch_attempts tr
  = [(GitRevParse (lit "main"), 1); (GitCheckoutNew (lit "main"), 1);
     (GitRevParse (lit "main-feature-x"), 1);
     (GitCheckoutNew (lit "main-feature-x"), 1)]
  /\ cm_cat_attempts tr = [(CmCat (Some (lit "/a.txt")) 2, 0)]
  /\ map snd (commit_attempts tr) = [0; 0]
  /\ List.filter (fun o => match o with PCommitFailed => false | _ => true end)
                 (printed tr)
     = printed tr
  /\ branch_attempts tr' = branch_attempts tr
  /\ map snd (commit_attempts tr') = [0; 0].
Proof. vm_compute. repeat split; reflexivity. Qed.

(** The same run through the theorem: one changeset of each script, with
    the checkout failing. *)
Lemma branch_failure_does_not_skip_changeset_witness :
  (exists code,
      commit_attempts
        (trace_of (@Plastic.process_changeset checkout_fails 2 (1%nat, cs_added_file)
                     tracking_init) tt)
      = [(plastic_commit example_date (lit "Add 1 file(s)"), code)])
  /\ (exists code,
      commit_attempts
        (trace_of (@Simple.process_changeset checkout_fails 2 (0%nat, simple_cs_main)
                     simple_loop_init) tt)
      = [(simple_commit example_date (lit "hi"), code)]).
Proof.
  destruct (branch_failure_does_not_skip_changeset checkout_fails) as (_ & HP & HS).
  split.
  - pose proof (HP 2%nat 1%nat cs_added_file tracking_init tt (lit "/main/feature-x")
                  _ _ _ eq_refl
                  (run_eta (@Plastic.process_changeset checkout_fails 2
                              (1%nat, cs_added_file) tracking_init) tt)) as Hw.
    assert (exists t, outcome_of (@Plastic.process_changeset checkout_fails 2
                                    (1%nat, cs_added_file) tracking_init) tt = Ok t)
      as [t Ht] by (eexists; vm_compute; reflexivity).
    rewrite Ht in Hw. destruct Hw as (_ & code & Hc & _). by exists code.
  - pose proof (HS 2%nat 0%nat simple_cs_main simple_loop_init tt (lit "/main")
                  _ _ _ eq_refl
                  (run_eta (@Simple.process_changeset checkout_fails 2
                              (0%nat, simple_cs_main) simple_loop_init) tt)) as Hw.
    change (returncode_of _ =? 0) with true in Hw.
    destruct Hw as (code & s' & _ & Hc & _). by exists code.
Defined.

Lemma synthesized_message_lists_present_types_witness :
  Plastic.generate_commit_message cs_3_added_1_deleted
  = lit "Add 3 file(s), Delete 1 file(s)"
  /\ Plastic.generate_commit_message cs_3_added_1_deleted
     = listed_message (map Plastic.type (Plastic.changes cs_3_added_1_deleted))
  /\ exists cs,
      @Simple.parse_changeset all_succeed elem_3_added_1_deleted = Ok cs
      /\ Simple.comment cs = lit "Add 3 file(s), Delete 1 file(s)"
      /\ Simple.comment cs
         = listed_message [Some (lit "Added"); Some (lit "Deleted");
                           Some (lit "Added"); Some (lit "Added")].
Proof.
  destruct (synthesized_message_lists_present_types all_succeed)
    as (H1 & H2 & H3 & H4).
  split; [|split].
  - apply H3; reflexivity.
  - apply H1; [reflexivity|discriminate].
  - eexists. split; [vm_compute; reflexivity|]. split.
    + apply (H4 elem_3_added_1_deleted _ (Some (lit "  "))
                [Some (lit "Added"); Some (lit "Deleted");
                 Some (lit "Added"); Some (lit "Added")]); reflexivity.
    + apply (H2 elem_3_added_1_deleted _ (Some (lit "  "))
                [Some (lit "Added"); Some (lit "Deleted");
                 Some (lit "Added"); Some (lit "Added")]); try reflexivity.
      * discriminate.
      * repeat first [apply Forall_nil_2
                     | apply Forall_cons_2; [unfold valid_type; auto|]].
Defined.

(** ** The comment as commit message *)

Section Comments.
Context `{Platform}.

Lemma plastic_parse_changeset_comment e cs comment_text :
  Plastic.parse_changeset e = Ok cs ->
  dot_text (find (lit "Comment") e) = Ok comment_text ->
  Plastic.comment cs = or_empty comment_text.
Proof.
  unfold Plastic.parse_changeset.
  destruct (dot_text (find (lit "ChangesetId") e)) as [id_text|]; cbn [rbind]; [|done].
  destruct (int_of_text id_text) as [cs_id|]; cbn [rbind]; [|done].
  destruct (dot_text (find (lit "Branch") e)) as [branch|]; cbn [rbind]; [|done].
  destruct (dot_text (find (lit "Comment") e)) as [ct|]; cbn [rbind]; [|done].
  destruct (dot_text (find (lit "Owner") e)) as [owner|]; cbn [rbind]; [|done].
  destruct (dot_text (find (lit "Date") e)) as [date_str|]; cbn [rbind]; [|done].
  destruct (match find (lit "Changes") e with
            | Some changes_elem => _
            | None => _
            end) as [changes|]; cbn [rbind]; [|done].
  by intros [= <-] [= <-].
Qed.
End Comments.

(** C7, as amended: for a changeset whose comment is not empty after
    trimming, whatever its change list, the message of its commit is, in
    [migrate_plastic_to_git.py], the comment as recorded, leading and
    trailing whitespace included; in [migrate_simple.py] it is the comment
    with its leading and trailing whitespace trimmed. *)
Theorem commit_message_from_comment (P : Platform) :
  (forall e cs comment_text,
      Plastic.parse_changeset e = Ok cs ->
      dot_text (find (lit "Comment") e) = Ok (Some comment_text) ->
      nonempty (strip comment_text) = true ->
      Plastic.comment cs = comment_text
      /\ Plastic.generate_commit_message cs = comment_text
      /\ forall total i t w b t' w' tr,
          Plastic.branch cs = Some b ->
          Plastic.process_changeset total (i, cs) t w = (Ok t', w', tr) ->
          map fst (commit_attempts tr)
          = [plastic_commit (Plastic.date_str cs) comment_text])
  /\ (forall e cs comment_text,
      Simple.parse_changeset e = Ok cs ->
      dot_text (find (lit "Comment") e) = Ok (Some comment_text) ->
      nonempty (strip comment_text) = true ->
      Simple.comment cs = strip comment_text
      /\ forall total i s w s' w' tr,
          Simple.process_changeset total (i, cs) s w = (Ok s', w', tr) ->
          returncode_of (fst (shell (cmd_text (CmSwitch (Simple.id cs))) w)) = 0 ->
          map fst (commit_attempts tr)
          = [simple_commit (Simple.date cs) (strip comment_text)]).
Proof.
  split; intros e cs comment_text Hparse Hct Hne.
  - assert (comment_text <> []) as Hnil by (intros ->; done).
    assert (Plastic.comment cs = comment_text) as Hc.
    { rewrite (plastic_parse_changeset_comment _ _ _ Hparse Hct).
      by destruct comment_text. }
    assert (Plastic.generate_commit_message cs = comment_text) as Hm.
    { unfold Plastic.generate_commit_message. by rewrite Hc, Hne. }
    split; [done|]. split; [done|].
    intros total i t w b t' w' tr Hb Hrun.
    destruct (plastic_step_facts _ _ _ _ _ _ _ _ _ Hb Hrun)
      as (_ & _ & _ & _ & code & -> & _).
    by rewrite Hm.
  - assert (comment_text <> []) as Hnil by (intros ->; done).
    destruct (simple_parse_changeset_inv _ _ Hparse)
      as (id_text & ct & m & _ & _ & _ & Hct' & _ & _ & Hc).
    rewrite Hct in Hct'. injection Hct' as <-.
    assert (Simple.comment cs = strip comment_text) as Hc'.
    { rewrite Hc. unfold simple_comment.
      assert (or_empty (Some comment_text) = comment_text) as ->
        by by destruct comment_text.
      by rewrite Hne. }
    split; [done|].
    intros total i s w s' w' tr Hrun Hsw.
    destruct (simple_step_facts _ _ _ _ _ _ _ _ Hrun) as (_ & _ & Hfacts).
    rewrite Hsw in Hfacts. simpl in Hfacts.
    destruct (Simple.branch cs) as [b|].
    + destruct Hfacts as (_ & _ & code & _ & -> & _). by rewrite Hc'.
    + by destruct Hfacts as [[=] _].
Qed.

(** C7, as stated, fails in [migrate_simple.py]: the comment [ hi ], with a
    space on each side, is committed as [hi]. *)
Lemma simple_commit_message_is_trimmed :
  nonempty (strip (lit " hi ")) = true
  /\ map fst (commit_attempts
                (trace_of (@Simple.migrate all_succeed history_padded_comment) tt))
     = [simple_commit example_date (lit "hi")]
  /\ simple_commit example_date (lit "hi") <> simple_commit example_date (lit " hi ")
  /\ map fst (commit_attempts
                (trace_of (@Plastic.migrate_history all_succeed history_padded_comment)
                          tt))
     = [plastic_commit example_date (lit " hi ")].
Proof. vm_compute. repeat split; try reflexivity. discriminate. Qed.

Lemma commit_message_from_comment_witness :
  (exists cs,
      @Plastic.parse_changeset all_succeed
        (changeset_elem "1" "/main" (Some " hi "%string) (Some [])) = Ok cs
      /\ Plastic.generate_commit_message cs = lit " hi ")
  /\ (exists cs,
      @Simple.parse_changeset all_succeed
        (changeset_elem "1" "/main" (Some " hi "%string) (Some [])) = Ok cs
      /\ Simple.comment cs = lit "hi").
Proof.
  destruct (commit_message_from_comment all_succeed) as [HP HS].
  split; eexists; (split; [vm_compute; reflexivity|]).
  - eapply (HP (changeset_elem "1" "/main" (Some " hi "%string) (Some []))
               _ (lit " hi ")); reflexivity.
  - eapply (HS (changeset_elem "1" "/main" (Some " hi "%string) (Some []))
               _ (lit " hi ")); reflexivity.
Defined.

(** ** An empty changeset *)

Section EmptyChangeset.
Context `{Platform}.

Lemma plastic_fallback_message cs :
  Plastic.changes cs = [] -> strip (Plastic.comment cs) = [] ->
  Plastic.generate_commit_message cs = fallback_message (Plastic.id cs).
Proof.
  intros Hch Hc. unfold Plastic.generate_commit_message. by rewrite Hc, Hch.
Qed.

Lemma apply_no_changes cs w :
  Plastic.changes cs = [] ->
  Plastic.apply_changeset_files cs (Plastic.id cs) w = (Ok tt, w, []).
Proof. intros Hch. unfold Plastic.apply_changeset_files. by rewrite Hch. Qed.

Lemma simple_fallback_message e cs comment_text :
  Simple.parse_changeset e = Ok cs ->
  dot_text (find (lit "Comment") e) = Ok comment_text ->
  strip (or_empty comment_text) = [] ->
  Simple.changes_items e = [] ->
  Simple.comment cs = fallback_message (Simple.id cs).
Proof.
  intros (id_text & ct & m & _ & _ & _ & Hct & _ & Hm & ->)%simple_parse_changeset_inv
    Hct' Hblank Hitems.
  rewrite Hct in Hct'. injection Hct' as ->.
  rewrite Hitems in Hm. injection Hm as <-.
  unfold simple_comment. by rewrite Hblank.
Qed.
End EmptyChangeset.

(** The numeral of the specification, read as a decimal, is the id. *)
Lemma decimal_numeral_reads_back (z : Z) :
  option_map Z.of_int (NilZero.int_of_string (decimal_numeral z)) = Some z.
Proof.
  unfold decimal_numeral. rewrite NilZero.isi.
  - cbn [option_map]. by rewrite DecimalZ.of_to.
  - destruct z as [|p|p]; [done| |done].
    intros [= Hp]. by apply DecimalPos.Unsigned.to_uint_nonnil in Hp.
  - destruct z as [|p|p]; [done|done|].
    intros [= Hp]. by apply DecimalPos.Unsigned.to_uint_nonnil in Hp.
Qed.

(** C9, as amended: a changeset with an empty change list and a comment
    that is empty after trimming is not skipped by
    [migrate_plastic_to_git.py]: it gets exactly one commit command, run
    with [--allow-empty], whose message is [Update (changeset <id>)] with
    the decimal numeral of the changeset's id.  [migrate_simple.py] stores
    the same message for it and runs that one commit once the workspace
    switch to the changeset has succeeded; after a failed switch it runs no
    commit for the changeset, empty or not. *)
Theorem empty_changeset_gets_one_commit (P : Platform) :
  (forall total i cs t w b,
      Plastic.changes cs = [] -> strip (Plastic.comment cs) = [] ->
      Plastic.branch cs = Some b ->
      exists t' w' tr code,
        Plastic.process_changeset total (i, cs) t w = (Ok t', w', tr)
        /\ commit_attempts tr
           = [(GitCommit GIT_AUTHOR_EMAIL GIT_AUTHOR_NAME (Plastic.date_str cs)
                 (update_message_as_specified (Plastic.id cs)), code)])
  /\ (forall e cs comment_text,
      Simple.parse_changeset e = Ok cs ->
      dot_text (find (lit "Comment") e) = Ok comment_text ->
      strip (or_empty comment_text) = [] ->
      Simple.changes_items e = [] ->
      Simple.comment cs = update_message_as_specified (Simple.id cs))
  /\ (forall total i cs s w b,
      Simple.comment cs = update_message_as_specified (Simple.id cs) ->
      Simple.branch cs = Some b ->
      returncode_of (fst (shell (cmd_text (CmSwitch (Simple.id cs))) w)) = 0 ->
      exists s' w' tr code,
        Simple.process_changeset total (i, cs) s w = (Ok s', w', tr)
        /\ commit_attempts tr
           = [(GitCommit GIT_AUTHOR_EMAIL GIT_AUTHOR_NAME (Simple.date cs)
                 (update_message_as_specified (Simple.id cs)), code)])
  /\ (forall total i cs s w,
      returncode_of (fst (shell (cmd_text (CmSwitch (Simple.id cs))) w)) <> 0 ->
      exists w' tr,
        Simple.process_changeset total (i, cs) s w = (Ok s, w', tr)
        /\ commit_attempts tr = []
        /\ last (printed tr) = Some SSwitchFailed)
  /\ (forall cs_id,
      option_map Z.of_int (NilZero.int_of_string (decimal_numeral cs_id)) = Some cs_id)
  /\ update_message_as_specified 7 = lit "Update (changeset 7)"
  /\ update_message_as_specified 1234 = lit "Update (changeset 1234)"
  /\ (forall email name timestamp message,
      exists before after,
        cmd_text (GitCommit email name timestamp message)
        = before ++ lit " commit --allow-empty " ++ after).
Proof.
  split; [|split; [|split; [|split; [|split; [|split; [|split]]]]]].
  - intros total i cs t w b Hch Hc Hb.
    destruct (Plastic.process_changeset total (i, cs) t w) as [[r w'] tr] eqn:Hrun.
    destruct (plastic_step_facts _ _ _ _ _ _ _ _ _ Hb Hrun) as (_ & _ & _ & Hr).
    destruct (plastic_step_reconciles _ _ _ _ _ _ _ _ _ Hb Hrun) as (_ & Hraise & _).
    destruct r as [t'|e].
    + destruct Hr as (_ & code & Hcommit & _).
      exists t', w', tr, code. split; [done|].
      rewrite Hcommit. unfold plastic_commit.
      by rewrite plastic_fallback_message, plastic_escape_fallback.
    + destruct (Hraise e eq_refl) as (w1 & w2 & tr_f & Hf).
      by rewrite apply_no_changes in Hf.
  - intros e cs comment_text Hcs Hct Hblank Hitems.
    by rewrite (simple_fallback_message e cs comment_text).
  - intros total i cs s w b Hc Hb Hsw.
    destruct (Simple.process_changeset total (i, cs) s w) as [[r w'] tr] eqn:Hrun.
    destruct (simple_step_facts _ _ _ _ _ _ _ _ Hrun) as (_ & _ & Hfacts).
    rewrite Hsw, Hb in Hfacts. simpl in Hfacts.
    destruct Hfacts as (_ & _ & code & -> & Hcommit & _).
    eexists _, w', tr, code. split; [done|].
    rewrite Hcommit. unfold simple_commit.
    assert (Simple.comment cs = fallback_message (Simple.id cs)) as -> by exact Hc.
    by rewrite simple_escape_fallback.
  - intros total i cs s w Hsw.
    destruct (Simple.process_changeset total (i, cs) s w) as [[r w'] tr] eqn:Hrun.
    destruct (simple_step_facts _ _ _ _ _ _ _ _ Hrun) as (_ & _ & Hfacts).
    cbv zeta in Hfacts. apply Z.eqb_neq in Hsw. rewrite Hsw in Hfacts.
    destruct Hfacts as (-> & Hcommit & _ & Hlast).
    by exists w', tr.
  - apply decimal_numeral_reads_back.
  - reflexivity.
  - reflexivity.
  - intros email name timestamp message. unfold cmd_text.
    exists (lit "git -c user.email=" ++ dq ++ email ++ dq
              ++ lit " -c user.name=" ++ dq ++ name ++ dq),
      (lit "--date=" ++ dq ++ str_of_opt timestamp ++ dq
         ++ lit " -m " ++ dq ++ message ++ dq).
    rewrite <- !app_assoc. reflexivity.
Qed.

(** C9, as stated, fails in [migrate_simple.py]: the history has one
    changeset, with no changes and no comment, for which the message
    [Update (changeset 42)] is stored; the workspace switch to it fails, and
    the run ends without a commit command, reporting 0 of 1. *)
Lemma empty_changeset_skipped_after_failed_switch :
  let tr := trace_of (@Simple.migrate switch_fails history_empty_changeset) tt in
  @Simple.parse_history switch_fails history_empty_changeset = Ok [simple_cs_empty]
  /\ Simple.comment simple_cs_empty = lit "Update (changeset 42)"
  /\ runs tr = [(CmSwitch 42, 1)]
  /\ commit_attempts tr = []
  /\ last (printed tr) = Some (SSummary 0 1 []).
Proof. vm_compute. repeat split; reflexivity. Qed.

Lemma empty_changeset_gets_one_commit_witness :
  (exists code,
      commit_attempts
        (trace_of (@Plastic.process_changeset all_succeed 1 (0%nat, cs_empty)
                     tracking_init) tt)
      = [(GitCommit GIT_AUTHOR_EMAIL GIT_AUTHOR_NAME example_date
            (lit "Update (changeset 42)"), code)])
  /\ (exists cs,
      @Simple.parse_changeset all_succeed
        (changeset_elem "42" "/main" None (Some [])) = Ok cs
      /\ Simple.comment cs = lit "Update (changeset 42)")
  /\ (exists code,
      commit_attempts
        (trace_of (@Simple.process_changeset all_succeed 1 (0%nat, simple_cs_empty)
                     simple_loop_init) tt)
      = [(GitCommit GIT_AUTHOR_EMAIL GIT_AUTHOR_NAME example_date
            (lit "Update (changeset 42)"), code)])
  /\ commit_attempts
       (trace_of (@Simple.process_changeset switch_fails 1 (0%nat, simple_cs_empty)
                    simple_loop_init) tt) = [].
Proof.
  destruct (empty_changeset_gets_one_commit all_succeed) as (HP & HSp & HS & _).
  destruct (empty_changeset_gets_one_commit switch_fails) as (_ & _ & _ & HF & _).
  split; [|split; [|split]].
  - destruct (HP 1%nat 0%nat cs_empty tracking_init tt (lit "/main")
                eq_refl eq_refl eq_refl) as (t' & w' & tr & code & Hrun & Hc).
    exists code. unfold trace_of.
    replace (@Plastic.process_changeset all_succeed 1 (0%nat, cs_empty) tracking_init tt)
      with (Ok t', w', tr).
    exact Hc.
  - eexists. split; [vm_compute; reflexivity|].
    exact (HSp (changeset_elem "42" "/main" None (Some [])) _ None
               eq_refl eq_refl eq_refl eq_refl).
  - destruct (HS 1%nat 0%nat simple_cs_empty simple_loop_init tt (lit "/main")
                eq_refl eq_refl eq_refl) as (s' & w' & tr & code & Hrun & Hc).
    exists code. unfold trace_of.
    replace (@Simple.process_changeset all_succeed 1 (0%nat, simple_cs_empty)
               simple_loop_init tt)
      with (Ok s', w', tr).
    exact Hc.
  - destruct (HF 1%nat 0%nat simple_cs_empty simple_loop_init tt)
      as (w' & tr & Hrun & Hc & _); [vm_compute; discriminate|].
    unfold trace_of.
    replace (@Simple.process_changeset switch_fails 1 (0%nat, simple_cs_empty)
               simple_loop_init tt)
      with (Ok simple_loop_init, w', tr).
    exact Hc.
Defined.

(** ** Branch tracking *)

Lemma tracked_inv g t : tracking_inv t -> tracking_inv (tracked g t).
Proof.
  unfold tracked, tracking_inv. case_bool_decide; [done|].
  intros _ g' [= <-]. simpl. set_solver.
Qed.

Lemma tracked_mono g t : git_branches t ⊆ git_branches (tracked g t).
Proof. unfold tracked. case_bool_decide; simpl; set_solver. Qed.

Lemma tracked_elem g t : tracking_inv t -> g ∈ git_branches (tracked g t).
Proof.
  unfold tracked, tracking_inv. case_bool_decide as Hg; simpl; [|set_solver].
  intros Hinv. by apply Hinv.
Qed.


Lemma tracking_init_inv : tracking_inv tracking_init.
Proof. by intros g. Qed.

Lemma sorted_strs_elem (s : gset pystr) g : In g (sorted_strs s) <-> g ∈ s.
Proof.
  unfold sorted_strs. rewrite <- list_elem_of_In, merge_sort_Permutation.
  apply elem_of_elements.
Qed.

Section TrackingLoops.
Context `{Platform}.

Lemma plastic_loop_tracking total l t w t' w' tr :
  for_each (Plastic.process_changeset total) l t w = (Ok t', w', tr) ->
  tracking_inv t ->
  tracking_inv t'
  /\ git_branches t ⊆ git_branches t'
  /\ Forall (fun ics => forall b, Plastic.branch (snd ics) = Some b ->
                                  git_branch_name b ∈ git_branches t') l.
Proof.
  revert t w tr. induction l as [|[i cs] l IH]; intros t w tr; cbn [for_each].
  - intros [= <- <- <-] Hinv. by repeat split.
  - intros (t1 & w1 & tr1 & tr2 & Hstep & Hloop & ->)%bind_ok_inv Hinv.
    destruct (Plastic.branch cs) as [b|] eqn:Hb;
      [|by rewrite plastic_step_no_branch in Hstep].
    destruct (plastic_step_facts _ _ _ _ _ _ _ _ _ Hb Hstep) as (_ & _ & _ & -> & _).
    destruct (IH _ _ _ Hloop (tracked_inv _ _ Hinv)) as (Hinv' & Hsub & Hall).
    split; [done|]. split.
    + etrans; [apply tracked_mono|done].
    + constructor; [|done].
      intros b' Hb'. cbn [snd] in Hb'. rewrite Hb in Hb'. injection Hb' as <-.
      apply Hsub, tracked_elem, Hinv.
Qed.


Lemma plastic_driver_shape root css w :
  Plastic.parse_xml_history root = Ok css ->
  css <> [] ->
  exists rl wl trl first_id last_id,
    for_each (Plastic.process_changeset (length css)) (enumerate css)
             tracking_init w = (rl, wl, trl)
    /\ Plastic.migrate_history root w
       = match rl with
         | Ok t =>
             let '(o, wb) := shell (cmd_text GitBranchAll) wl in
             (Ok t, wb,
              [Printed PParsing; Printed (PFound (length css) first_id last_id);
               Printed PStarting]
                ++ trl
                ++ [Printed (PSummary (length css) (size (git_branches t)));
                    Printed PBranchesHeader; Ran GitBranchAll o]
                ++ crash_note GitBranchAll o)
         | Raise e =>
             (Raise e, wl,
              [Printed PParsing; Printed (PFound (length css) first_id last_id);
               Printed PStarting] ++ trl)
         end.
Proof.
  intros Hparse Hne. unfold Plastic.migrate_history. rewrite Hparse.
  destruct (for_each _ _ _ w) as [[rl wl] trl] eqn:Hloop.
  destruct (head css) as [cs0|] eqn:Hhead; [|by destruct css].
  destruct (last css) as [csl|] eqn:Hlast; [|by apply last_None in Hlast].
  exists rl, wl, trl, (Plastic.id cs0), (Plastic.id csl). split; [done|].
  unfold bind at 1. unfold print at 1. cbn beta iota.
  unfold bind at 1. unfold lift at 1. cbn beta iota.
  rewrite Hhead, Hlast.
  unfold bind at 1. unfold lift at 1. cbn beta iota.
  unfold bind at 1. unfold lift at 1. cbn beta iota.
  unfold bind at 1. unfold print at 1. cbn beta iota.
  unfold bind at 1. unfold print at 1. cbn beta iota.
  unfold bind at 1. rewrite Hloop.
  destruct rl as [t|e]; [|reflexivity].
  unfold bind at 1. unfold print at 1. cbn beta iota.
  unfold bind at 1. unfold print at 1. cbn beta iota.
  unfold bind. rewrite plastic_run_command_nocapture.
  destruct (shell (cmd_text GitBranchAll) wl) as [o wb]. cbn.
  by rewrite app_nil_r.
Qed.

Lemma plastic_driver_empty root w :
  Plastic.parse_xml_history root = Ok [] ->
  Plastic.migrate_history root w = (Raise IndexError, w, [Printed PParsing]).
Proof. intros Hparse. unfold Plastic.migrate_history. by rewrite Hparse. Qed.
End TrackingLoops.




(** ** A changeset without a [Changes] section *)

Lemma rmap_raise {A B} (f : A -> result B) l x :
  In x l -> (exists e, f x = Raise e) -> exists e, rmap f l = Raise e.
Proof.
  intros Hin [e He]. induction l as [|y l IH]; [done|]. simpl.
  destruct Hin as [->|Hin].
  - rewrite He. by exists e.
  - destruct (f y) as [fy|e']; simpl; [|by exists e'].
    destruct (IH Hin) as [e'' ->]. by exists e''.
Qed.

Section MissingChanges.
Context `{Platform}.

Lemma plastic_parse_changeset_needs_changes e :
  find (lit "Changes") e = None ->
  exists exc, Plastic.parse_changeset e = Raise exc.
Proof.
  intros Hch. unfold Plastic.parse_changeset. rewrite Hch.
  destruct (dot_text (find (lit "ChangesetId") e)) as [id_text|x]; cbn [rbind];
    [|by exists x].
  destruct (int_of_text id_text) as [cs_id|x]; cbn [rbind]; [|by exists x].
  destruct (dot_text (find (lit "Branch") e)) as [branch|x]; cbn [rbind];
    [|by exists x].
  destruct (dot_text (find (lit "Comment") e)) as [ct|x]; cbn [rbind];
    [|by exists x].
  destruct (dot_text (find (lit "Owner") e)) as [owner|x]; cbn [rbind];
    [|by exists x].
  destruct (dot_text (find (lit "Date") e)) as [date_str|x]; cbn [rbind];
    [|by exists x].
  by exists AttributeError.
Qed.

(** [migrate_simple.py] reads such a record: the tally is empty. *)
Lemma simple_parse_changeset_without_changes e id_text cs_id branch comment_text date :
  dot_text (find (lit "ChangesetId") e) = Ok id_text ->
  int_of_text id_text = Ok cs_id ->
  dot_text (find (lit "Branch") e) = Ok branch ->
  dot_text (find (lit "Comment") e) = Ok comment_text ->
  dot_text (find (lit "Date") e) = Ok date ->
  find (lit "Changes") e = None ->
  Simple.parse_changeset e
  = Ok {| Simple.id := cs_id; Simple.branch := branch;
          Simple.comment := simple_comment cs_id comment_text ∅;
          Simple.date := date |}.
Proof.
  intros Hid Hint Hb Hc Hd Hch. rewrite simple_parse_changeset_spec.
  rewrite Hid. cbn [rbind]. rewrite Hint. cbn [rbind]. rewrite Hb. cbn [rbind].
  rewrite Hc. cbn [rbind]. rewrite Hd. cbn [rbind].
  unfold Simple.changes_items. rewrite Hch. reflexivity.
Qed.
End MissingChanges.

(** C6 does not hold of [migrate_plastic_to_git.py]: a changeset record
    without a [Changes] section makes [parse_xml_history] raise, where the
    specification has it parsed into a changeset with no changes (as
    [migrate_simple.py] does). *)
Theorem plastic_reader_raises_without_changes_section (P : Platform) :
  forall root e,
    In e (findall (lit "Changeset") root) ->
    find (lit "Changes") e = None ->
    exists exc, Plastic.parse_xml_history root = Raise exc.
Proof.
  intros root e Hin Hch. unfold Plastic.parse_xml_history.
  destruct (rmap_raise Plastic.parse_changeset _ e Hin
              (plastic_parse_changeset_needs_changes e Hch)) as [exc ->].
  by exists exc.
Qed.

Lemma plastic_reader_raises_without_changes_section_witness :
  exists exc,
    @Plastic.parse_xml_history all_succeed history_no_changes_section = Raise exc.
Proof.
  apply (plastic_reader_raises_without_changes_section all_succeed
           history_no_changes_section
           (changeset_elem "7" "/main" (Some "first"%string) None)).
  - left. reflexivity.
  - reflexivity.
Defined.

(** The run on that history: [migrate_plastic_to_git.py] stops with an
    [AttributeError] after its first line of output, [migrate_simple.py]
    commits the changeset. *)
Lemma history_without_changes_section_runs :
  @Plastic.parse_xml_history all_succeed history_no_changes_section
  = Raise AttributeError
  /\ outcome_of (@Plastic.migrate_history all_succeed history_no_changes_section) tt
     = Raise AttributeError
  /\ trace_of (@Plastic.migrate_history all_succeed history_no_changes_section) tt
     = [Printed PParsing]
  /\ @Simple.parse_history all_succeed history_no_changes_section
     = Ok [{| Simple.id := 7; Simple.branch := Some (lit "/main");
              Simple.comment := lit "first"; Simple.date := example_date |}]
  /\ commit_attempts
       (trace_of (@Simple.migrate all_succeed history_no_changes_section) tt)
     = [(simple_commit example_date (lit "first"), 0)].
Proof. vm_compute. repeat split; reflexivity. Qed.

(** ** The summary *)

Section Summary.
Context `{Platform}.

Lemma simple_loop_counts total l s w s' w' tr :
  for_each (Simple.process_changeset total) l s w = (Ok s', w', tr) ->
  Simple.success_count s' = (Simple.success_count s + commits_succeeded tr)%nat.
Proof.
  revert s w tr. induction l as [|[i cs] l IH]; intros s w tr; cbn [for_each].
  - intros [= <- <- <-]. unfold commits_succeeded. simpl. lia.
  - intros (s1 & w1 & tr1 & tr2 & Hstep & Hloop & ->)%bind_ok_inv.
    rewrite (IH _ _ _ Hloop), commits_succeeded_app.
    destruct (simple_step_facts _ _ _ _ _ _ _ _ Hstep) as (_ & _ & Hfacts).
    cbv zeta in Hfacts.
    destruct (_ =? 0).
    + destruct (Simple.branch cs) as [b|]; [|by destruct Hfacts as [[=] _]].
      destruct Hfacts as (_ & _ & code & [= ->] & Hc & _).
      unfold commits_succeeded. rewrite Hc. cbn. destruct (code =? 0); simpl; lia.
    + destruct Hfacts as ([= ->] & Hc & _).
      unfold commits_succeeded. rewrite Hc. simpl. lia.
Qed.

(** [migrate_simple.py] reports the commits that succeeded. *)
Lemma simple_summary_counts_successes root css w s w' tr :
  Simple.parse_history root = Ok css ->
  Simple.migrate root w = (Ok s, w', tr) ->
  last (printed tr)
  = Some (SSummary (commits_succeeded tr) (length css)
            (sorted_strs (git_branches (Simple.tracking s)))).
Proof.
  intros Hparse Hrun.
  destruct (simple_driver_shape root css w Hparse) as (sf & wf & trl & Hloop & Hm).
  rewrite Hm in Hrun. clear Hm.
  destruct sf as [s0|e]; [|done]. injection Hrun as -> <- <-.
  pose proof (simple_loop_counts _ _ _ _ _ _ _ Hloop) as Hcount.
  cbn [Simple.success_count] in Hcount.
  set (x := Printed (SSummary (Simple.success_count s) (length css)
                       (sorted_strs (git_branches (Simple.tracking s))))).
  set (pre := [Printed SParsing; Printed (SFound (length css)); Printed SMigrating]).
  change (last (printed ((pre ++ trl) ++ [x]))
          = Some (SSummary (commits_succeeded (pre ++ trl ++ [x])) (length css)
                    (sorted_strs (git_branches (Simple.tracking s))))).
  assert (commits_succeeded (pre ++ trl ++ [x]) = Simple.success_count s) as ->.
  { rewrite !commits_succeeded_app, Hcount. unfold commits_succeeded at 1 3.
    simpl. lia. }
  rewrite printed_app. apply last_snoc.
Qed.
End Summary.

(** C3 does not hold of [migrate_plastic_to_git.py]: of two changesets the
    commit of the second fails, one commit succeeds, and the summary reports
    2 commits created.  [migrate_simple.py], on the same history and with
    the same failure, reports 1 of 2. *)
Theorem plastic_summary_counts_failed_commit :
  let tr := trace_of (@Plastic.migrate_history commit_two_fails history_same_branch) tt in
  let tr' := trace_of (@Simple.migrate commit_two_fails history_same_branch) tt in
  map snd (commit_attempts tr) = [0; 1]
  /\ commits_succeeded tr = 1%nat
  /\ List.filter (fun o => match o with PCommitFailed => true | _ => false end)
                 (printed tr) = [PCommitFailed]
  /\ In (PSummary 2 1) (printed tr)
  /\ (exists before after,
         output_text (PSummary 2 1) = before ++ lit "  - 2" ++ after)
  /\ map snd (commit_attempts tr') = [0; 1]
  /\ last (printed tr') = Some (SSummary 1 2 [lit "main"]).
Proof.
  vm_compute. repeat split; try reflexivity.
  - do 7 right. left. reflexivity.
  - exists (nl ++ rule70 ++ nl ++ [10003%N] ++ lit " Migration complete!" ++ nl),
      (lit " commits created" ++ nl ++ lit "  - 1 branches created" ++ nl
         ++ rule70 ++ nl ++ nl).
    vm_compute. reflexivity.
Qed.

(** ** The content written *)

(** What [migrate_plastic_to_git.py] writes is never the retrieved bytes as
    such: it is the output of [cm cat] decoded as text, stripped of leading
    and trailing whitespace, and encoded as UTF-8 with what cannot be encoded
    left out. *)
Lemma written_content_is_stripped_text (P : Platform) total i cs t w b r w' tr :
  Plastic.branch cs = Some b ->
  Plastic.process_changeset total (i, cs) t w = (r, w', tr) ->
  forall p content,
    In (p, content) (written tr) ->
    exists w0 change stdout text,
      In change (Plastic.changes cs)
      /\ retrieval_of (Plastic.id cs) change <> []
      /\ fst (shell (cmd_text (CmCat (Plastic.dst_path change) (Plastic.id cs))) w0)
         = Exited stdout 0
      /\ text_decode stdout = Some text
      /\ Plastic.full_path_of (Plastic.dst_path change) = Ok p
      /\ content = encode_utf8_ignore (strip text).
Proof.
  intros Hb Hrun. by apply (plastic_step_reconciles _ _ _ _ _ _ _ _ _ Hb Hrun).
Qed.

(** C4 does not hold of [migrate_plastic_to_git.py]: the source returns the
    three bytes [h], [i], newline for the added file of changeset 2, with
    return code 0, and the two bytes [h], [i] are written. *)
Theorem retrieved_content_loses_trailing_newline :
  let tr := trace_of (@Plastic.migrate_history all_succeed history_2_1) tt in
  sh_all_succeed (cmd_text (CmCat (Some (lit "/a.txt")) 2)) = Exited hi_newline 0
  /\ cm_cat_attempts tr = [(CmCat (Some (lit "/a.txt")) 2, 0)]
  /\ written tr = [(lit "E:\Projects\Unity\ClosureBT\a.txt", [104; 105]%N)]
  /\ [104; 105]%N <> hi_newline.
Proof. vm_compute. repeat split; try reflexivity. discriminate. Qed.

(** * Further properties of the scripts *)

(** ** What the readers accept *)

Lemma rmap_ok_iff {A B} (f : A -> result B) l :
  (exists ys, rmap f l = Ok ys) <-> Forall (fun x => exists y, f x = Ok y) l.
Proof.
  induction l as [|x l IH]; simpl.
  - split; [constructor | by exists []].
  - split.
    + intros [ys Hys]. destruct (f x) as [y|e] eqn:Hx; simpl in Hys; [|done].
      destruct (rmap f l) as [ys'|e]; simpl in Hys; [|done].
      constructor; [by exists y|]. apply IH. by exists ys'.
    + intros [[y Hy] [ys Hys]%IH]%Forall_cons. rewrite Hy, Hys. simpl. eauto.
Qed.

Lemma dot_text_ok_iff (o : option Element) :
  (exists x, dot_text o = Ok x) <-> exists c, o = Some c.
Proof.
  destruct o as [c|]; simpl; split; intros [x Hx]; try done; eauto.
Qed.

Section Accepted.
Context `{Platform}.

Lemma int_of_id_ok_iff e :
  (exists z, rbind (dot_text (find (lit "ChangesetId") e)) int_of_text = Ok z)
  <-> id_ok e.
Proof.
  unfold id_ok. destruct (find (lit "ChangesetId") e) as [c|]; cbn [dot_text rbind].
  - unfold int_of_text. destruct (text_of c) as [s|] eqn:Ht.
    + destruct (py_int s) as [z|] eqn:Hz.
      * split; [intros _; by exists c, s, z | intros _; by exists z].
      * split; [by intros [z [=]]|].
        intros (c' & s' & z & [= <-] & Hs & Hz'). congruence.
    + split; [by intros [z [=]]|].
      intros (c' & s' & z & [= <-] & Hs & _). congruence.
  - split; [by intros [z [=]]|]. by intros (c' & s' & z & [=] & _).
Qed.

Lemma plastic_parse_item_ok_iff item :
  (exists c, Plastic.parse_item item = Ok c) <-> plastic_item_ok item.
Proof.
  unfold Plastic.parse_item, plastic_item_ok, has_child.
  destruct (find (lit "Type") item) as [t|]; cbn [dot_text rbind].
  2:{ split; [by intros [c [=]] | by intros [[c [=]] _]]. }
  destruct (find (lit "SrcCmPath") item) as [sp|]; cbn [dot_text rbind].
  2:{ split; [by intros [c [=]] | by intros (_ & [c [=]] & _)]. }
  destruct (find (lit "DstCmPath") item) as [dp|]; cbn [dot_text rbind].
  2:{ split; [by intros [c [=]] | by intros (_ & _ & [c [=]])]. }
  split; [intros _; repeat split; eauto | intros _; eexists; reflexivity].
Qed.

Lemma plastic_parse_changeset_ok_iff e :
  (exists cs, Plastic.parse_changeset e = Ok cs) <-> plastic_record_ok e.
Proof.
  unfold plastic_record_ok. rewrite <- int_of_id_ok_iff.
  unfold Plastic.parse_changeset, has_child.
  destruct (dot_text (find (lit "ChangesetId") e)) as [id_text|x]; cbn [rbind].
  2:{ split; [by intros [cs [=]] | by intros [[z [=]] _]]. }
  destruct (int_of_text id_text) as [cs_id|x]; cbn [rbind].
  2:{ split; [by intros [cs [=]] | by intros [[z [=]] _]]. }
  destruct (find (lit "Branch") e) as [b|]; cbn [dot_text rbind].
  2:{ split; [by intros [cs [=]] | by intros (_ & [c [=]] & _)]. }
  destruct (find (lit "Comment") e) as [c|]; cbn [dot_text rbind].
  2:{ split; [by intros [cs [=]] | by intros (_ & _ & [? [=]] & _)]. }
  destruct (find (lit "Owner") e) as [o|]; cbn [dot_text rbind].
  2:{ split; [by intros [cs [=]] | by intros (_ & _ & _ & [? [=]] & _)]. }
  destruct (find (lit "Date") e) as [d|]; cbn [dot_text rbind].
  2:{ split; [by intros [cs [=]] | by intros (_ & _ & _ & _ & [? [=]] & _)]. }
  destruct (find (lit "Changes") e) as [ch|]; cbn [rbind].
  2:{ split; [by intros [cs [=]] | by intros (_ & _ & _ & _ & _ & ? & [=] & _)]. }
  split.
  - intros [cs Hcs].
    destruct (rmap Plastic.parse_item (findall (lit "Item") ch)) as [items|x] eqn:Hit;
      cbn [rbind] in Hcs; [|done].
    do 5 (split; [eauto|]). exists ch. split; [done|].
    assert (Forall (fun x => exists y, Plastic.parse_item x = Ok y)
              (findall (lit "Item") ch)) as Hall
      by (apply rmap_ok_iff; eauto).
    eapply Forall_impl; [exact Hall|].
    intros item. apply plastic_parse_item_ok_iff.
  - intros (_ & _ & _ & _ & _ & ch' & [= <-] & Hitems).
    assert (exists items, rmap Plastic.parse_item (findall (lit "Item") ch) = Ok items)
      as [items ->].
    { apply rmap_ok_iff. eapply Forall_impl; [exact Hitems|].
      intros item. apply plastic_parse_item_ok_iff. }
    cbn [rbind]. eauto.
Qed.


End Accepted.

(** X1: [parse_xml_history] returns a list exactly when every [Changeset]
    record of the document has a [ChangesetId] whose text [int] accepts, a
    [Branch], a [Comment], an [Owner], a [Date] and a [Changes] child, each
    [Item] of which has [Type], [SrcCmPath] and [DstCmPath]; one record that
    lacks any of these makes the whole call raise.  The list has one entry
    for each record. *)
Theorem plastic_reader_accepts_wellformed_records (P : Platform) root :
  ((exists css, Plastic.parse_xml_history root = Ok css)
   <-> Forall plastic_record_ok (findall (lit "Changeset") root))
  /\ forall css, Plastic.parse_xml_history root = Ok css ->
                 length css = length (findall (lit "Changeset") root).
Proof.
  split.
  - unfold Plastic.parse_xml_history.
    rewrite <- (Forall_iff _ _ _ plastic_parse_changeset_ok_iff), <- rmap_ok_iff.
    destruct (rmap _ _) as [read|x]; cbn [rbind]; split; eauto.
  - intros css (read & Hread & ->)%plastic_parse_inv.
    rewrite sort_by_length. by apply rmap_ok_length in Hread.
Qed.


(** X3: sorting loses nothing.  The list a reader returns is a
    rearrangement of the changesets read in document order, none dropped and
    none repeated, and the changesets that share an id are in document
    order. *)
Theorem readers_keep_every_changeset (P : Platform) root :
  (forall css,
      Plastic.parse_xml_history root = Ok css ->
      exists read,
        rmap Plastic.parse_changeset (findall (lit "Changeset") root) = Ok read
        /\ css ≡ₚ read
        /\ forall k, List.filter (fun cs => Plastic.id cs =? k) css
                     = List.filter (fun cs => Plastic.id cs =? k) read)
  /\ (forall css,
      Simple.parse_history root = Ok css ->
      exists read,
        rmap Simple.parse_changeset (findall (lit "Changeset") root) = Ok read
        /\ css ≡ₚ read
        /\ forall k, List.filter (fun cs => Simple.id cs =? k) css
                     = List.filter (fun cs => Simple.id cs =? k) read).
Proof.
  split; intros css Hparse.
  - apply plastic_parse_inv in Hparse as (read & Hread & ->).
    exists read. split; [done|]. split; [apply sort_by_perm|].
    intros k. apply sort_by_stable.
  - apply simple_parse_inv in Hparse as (read & Hread & ->).
    exists read. split; [done|]. split; [apply sort_by_perm|].
    intros k. apply sort_by_stable.
Qed.

Lemma readers_keep_every_changeset_witness :
  exists css read,
    @Plastic.parse_xml_history all_succeed history_2_1 = Ok css
    /\ rmap (@Plastic.parse_changeset all_succeed)
            (findall (lit "Changeset") history_2_1) = Ok read
    /\ css ≡ₚ read
    /\ map Plastic.id read = [2; 1] /\ map Plastic.id css = [1; 2].
Proof.
  destruct (readers_keep_every_changeset all_succeed history_2_1) as [HP _].
  assert (exists css, @Plastic.parse_xml_history all_succeed history_2_1 = Ok css
                      /\ map Plastic.id css = [1; 2]) as (css & Hp & Hids)
    by (eexists; split; vm_compute; reflexivity).
  destruct (HP css Hp) as (read & Hread & Hperm & _).
  exists css, read. split; [exact Hp|]. split; [exact Hread|]. split; [exact Hperm|].
  split; [|exact Hids].
  assert (exists read', rmap (@Plastic.parse_changeset all_succeed)
                          (findall (lit "Changeset") history_2_1) = Ok read'
                        /\ map Plastic.id read' = [2; 1]) as (read' & Hread' & Hids')
    by (eexists; split; vm_compute; reflexivity).
  rewrite Hread in Hread'. injection Hread' as <-. exact Hids'.
Defined.

(** ** Messages that are empty *)

Lemma join_nil sep parts :
  Forall (fun p => p <> []) parts -> join sep parts = [] -> parts = [].
Proof.
  destruct parts as [|p parts]; [done|].
  intros [Hp _]%Forall_cons. simpl.
  destruct parts; [done|]. by destruct p.
Qed.

Lemma listing_entry_nonempty verb n : Forall (fun p => p <> []) (listing_entry verb n).
Proof.
  destruct n; [constructor|]. constructor; [|constructor].
  unfold listing_entry. intros Heq. apply (f_equal length) in Heq.
  rewrite !length_app in Heq. cbn in Heq. lia.
Qed.

Lemma listing_entries_nonempty types : Forall (fun p => p <> []) (listing types).
Proof. unfold listing. rewrite !Forall_app. repeat split; apply listing_entry_nonempty. Qed.

Lemma fallback_message_nonempty cs_id : fallback_message cs_id <> [].
Proof. unfold fallback_message. done. Qed.

Lemma strip_nil : strip [] = [].
Proof. reflexivity. Qed.

(** X4: [generate_commit_message] returns the empty string exactly when the
    comment is empty after trimming and the change list is not empty but has
    none of the four change types; with change types the data model allows
    the message is never empty. *)
Theorem plastic_message_empty_iff (cs : Plastic.Changeset) :
  (Plastic.generate_commit_message cs = []
   <-> strip (Plastic.comment cs) = [] /\ Plastic.changes cs <> []
       /\ listing (map Plastic.type (Plastic.changes cs)) = [])
  /\ (Forall valid_type (map Plastic.type (Plastic.changes cs)) ->
      Plastic.generate_commit_message cs <> []).
Proof.
  assert (Plastic.generate_commit_message cs = []
          <-> strip (Plastic.comment cs) = [] /\ Plastic.changes cs <> []
              /\ listing (map Plastic.type (Plastic.changes cs)) = []) as Hiff.
  { destruct (strip (Plastic.comment cs)) as [|c s] eqn:Hc.
    - destruct (Plastic.changes cs) as [|ch chs] eqn:Hch.
      + rewrite (plastic_fallback_message cs Hch Hc).
        split; [by intros ?%fallback_message_nonempty | by intros (_ & ? & _)].
      + rewrite plastic_message_of_blank by (by rewrite ?Hch). rewrite Hch.
        unfold listed_message. split.
        * intros Hj. split; [done|]. split; [done|].
          by apply (join_nil (lit ", ")); [apply listing_entries_nonempty|].
        * by intros (_ & _ & ->).
    - unfold Plastic.generate_commit_message. rewrite Hc. cbn [nonempty].
      split; [|by intros [[=] _]].
      intros Hm. rewrite Hm in Hc. by rewrite strip_nil in Hc. }
  split; [exact Hiff|].
  intros Hv Hm. apply Hiff in Hm as (_ & Hne & Hl).
  by apply (listing_nonempty (map Plastic.type (Plastic.changes cs)));
    [destruct (Plastic.changes cs)| |].
Qed.

Lemma plastic_message_empty_iff_witness :
  Plastic.generate_commit_message cs_3_added_1_deleted <> [].
Proof.
  apply (plastic_message_empty_iff cs_3_added_1_deleted).
  repeat first [apply Forall_nil_2
               | apply Forall_cons_2; [unfold valid_type; cbn; auto|]].
Defined.




(** ** Escaping the message *)

Lemma guarded_lookup special prev s i c :
  guarded special prev s -> s !! i = Some c -> special c = true ->
  match i with
  | O => prev = Some 92%N
  | S j => s !! j = Some 92%N
  end.
Proof.
  revert prev i. induction s as [|x s IH]; intros prev i; [done|].
  intros [Hx Hs] Hi Hc. destruct i as [|i]; simpl in Hi.
  - injection Hi as ->. by apply Hx.
  - specialize (IH (Some x) i Hs Hi Hc). destruct i as [|j]; simpl.
    + by injection IH as ->.
    + exact IH.
Qed.

Lemma replace_quote_guarded prev s :
  guarded is_quote prev (replace_char 34 (lit "\" ++ dq) s).
Proof.
  revert prev. induction s as [|c s IH]; intros prev; [done|].
  unfold replace_char in *. cbn [flat_map].
  destruct (N.eqb_spec c 34) as [->|Hc].
  - cbn [app lit dq guarded]. split; [done|]. split; [done|]. apply IH.
  - cbn [app guarded]. split; [|apply IH].
    unfold is_quote. intros Heq%N.eqb_eq. congruence.
Qed.

Lemma replace_dollar_guarded prev prev' s :
  (prev = Some 92%N -> prev' = Some 92%N) ->
  guarded is_quote prev s ->
  guarded is_quote_or_dollar prev' (replace_char (chr "$") (lit "\$") s).
Proof.
  revert prev prev'. induction s as [|c s IH]; intros prev prev' Hprev; [done|].
  intros [Hc Hs]. unfold replace_char in *. cbn [flat_map].
  destruct (N.eqb_spec c (chr "$")) as [->|Hne].
  - change (lit "\$") with [92%N; 36%N]. cbn [app guarded].
    split; [done|]. split; [done|]. apply (IH (Some 36%N)); [done|exact Hs].
  - cbn [app guarded]. split.
    + unfold is_quote_or_dollar. intros [Hq|Hd%N.eqb_eq]%orb_prop.
      * by apply Hprev, Hc.
      * by subst c.
    + by apply (IH (Some c)).
Qed.

Lemma replace_apostrophe_guarded prev prev' s :
  (prev = Some 92%N -> prev' = Some 92%N) ->
  guarded is_quote prev s ->
  guarded is_quote prev' (replace_char (chr "'") (lit "'\''") s).
Proof.
  revert prev prev'. induction s as [|c s IH]; intros prev prev' Hprev; [done|].
  intros [Hc Hs]. unfold replace_char in *. cbn [flat_map].
  destruct (N.eqb_spec c (chr "'")) as [->|Hne].
  - change (lit "'\''") with [39%N; 92%N; 39%N; 39%N]. cbn [app guarded].
    do 4 (split; [done|]). apply (IH (Some 39%N)); [done|exact Hs].
  - cbn [app guarded]. split; [by intros Hq; apply Hprev, Hc|]. by apply (IH (Some c)).
Qed.

Lemma replace_char_length old new s :
  (1 <= length new)%nat -> (length s <= length (replace_char old new s))%nat.
Proof.
  intros Hn. unfold replace_char. induction s as [|c s IH]; simpl; [lia|].
  rewrite length_app. destruct (c =? old)%N; simpl; lia.
Qed.

Lemma replace_char_longer old new s :
  (2 <= length new)%nat -> In old s ->
  (length s < length (replace_char old new s))%nat.
Proof.
  intros Hn. unfold replace_char. induction s as [|c s IH]; simpl; [done|].
  rewrite length_app. intros [->|Hin].
  - rewrite N.eqb_refl.
    pose proof (replace_char_length old new s ltac:(lia)) as Hle.
    unfold replace_char in Hle. lia.
  - specialize (IH Hin). destruct (c =? old)%N; simpl; lia.
Qed.

Lemma replace_char_fixed_iff old new s :
  (2 <= length new)%nat ->
  replace_char old new s = s <-> Forall (fun c => c <> old) s.
Proof.
  intros Hn. split; [|apply replace_char_absent].
  intros Heq. apply Forall_forall. intros c Hin ->.
  apply list_elem_of_In in Hin.
  pose proof (replace_char_longer old new s Hn Hin) as Hlt.
  rewrite Heq in Hlt. lia.
Qed.

Lemma two_replacements_fixed_iff old1 new1 old2 new2 s :
  (2 <= length new1)%nat -> (2 <= length new2)%nat ->
  replace_char old2 new2 (replace_char old1 new1 s) = s
  <-> Forall (fun c => c <> old1 /\ c <> old2) s.
Proof.
  intros H1 H2. split.
  - intros Heq.
    assert (replace_char old1 new1 s = s) as Hs.
    { apply replace_char_fixed_iff; [done|].
      apply Forall_forall. intros c Hin ->. apply list_elem_of_In in Hin.
      pose proof (replace_char_longer old1 new1 s H1 Hin) as Hlt.
      pose proof (replace_char_length old2 new2 (replace_char old1 new1 s)
                    ltac:(lia)) as Hle.
      rewrite Heq in Hle. lia. }
    rewrite Hs in Heq.
    apply replace_char_fixed_iff in Hs; [|done].
    apply replace_char_fixed_iff in Heq; [|done].
    rewrite Forall_forall in *. intros c Hin. split; [by apply Hs | by apply Heq].
  - intros Hall.
    rewrite (replace_char_absent old1), (replace_char_absent old2); [done| |];
      eapply Forall_impl; try exact Hall; by intros c [? ?].
Qed.

(** X6: the message [create_git_commit] puts on the command line has every
    double quote and every dollar sign right after a backslash, and it is the
    message itself exactly when the message has neither. *)
Theorem plastic_escape_message_guards (message : pystr) :
  (Plastic.escape_message message = message
   <-> Forall (fun c => c <> 34%N /\ c <> 36%N) message)
  /\ forall i c,
      Plastic.escape_message message !! i = Some c ->
      c = 34%N \/ c = 36%N ->
      exists j, i = S j /\ Plastic.escape_message message !! j = Some 92%N.
Proof.
  split.
  - unfold Plastic.escape_message. by apply two_replacements_fixed_iff.
  - intros i c Hi Hc.
    pose proof (replace_dollar_guarded None None _ (fun H => H)
                  (replace_quote_guarded None message)) as Hg.
    pose proof (guarded_lookup _ _ _ i c Hg Hi) as Hl.
    destruct i as [|j].
    + assert (@None N = Some 92%N) as [=]. apply Hl. by destruct Hc as [-> | ->].
    + exists j. split; [done|]. apply Hl. by destruct Hc as [-> | ->].
Qed.

Lemma plastic_escape_message_guards_witness :
  Plastic.escape_message (lit "a$b") !! 1%nat = Some 92%N
  /\ Plastic.escape_message (lit "plain") = lit "plain".
Proof.
  split.
  - destruct (plastic_escape_message_guards (lit "a$b")) as [_ Hg].
    destruct (Hg 2%nat 36%N eq_refl (or_intror eq_refl)) as (j & Hj & Hl).
    injection Hj as <-. exact Hl.
  - apply (plastic_escape_message_guards (lit "plain")).
    repeat constructor; discriminate.
Defined.

(** X7: the message [migrate] puts on the command line has every double
    quote right after a backslash, and it is the stored comment itself
    exactly when the comment has neither a double quote nor an apostrophe;
    each apostrophe becomes the four characters that close the quotes, add an
    escaped apostrophe and open them again. *)
Theorem simple_escape_message_guards (comment : pystr) :
  (Simple.escape_message comment = comment
   <-> Forall (fun c => c <> 34%N /\ c <> 39%N) comment)
  /\ (forall i,
      Simple.escape_message comment !! i = Some 34%N ->
      exists j, i = S j /\ Simple.escape_message comment !! j = Some 92%N)
  /\ (Forall (fun c => c <> 34%N) comment ->
      Simple.escape_message comment
      = flat_map (fun c => if (c =? 39)%N then [39; 92; 39; 39]%N else [c]) comment).
Proof.
  split; [|split].
  - unfold Simple.escape_message.
    apply two_replacements_fixed_iff; vm_compute; lia.
  - intros i Hi.
    pose proof (replace_apostrophe_guarded None None _ (fun H => H)
                  (replace_quote_guarded None comment)) as Hg.
    pose proof (guarded_lookup _ _ _ i 34%N Hg Hi eq_refl) as Hl.
    destruct i as [|j]; [done|]. by exists j.
  - intros Hq. unfold Simple.escape_message.
    by rewrite (replace_char_absent 34).
Qed.

Lemma simple_escape_message_guards_witness :
  Simple.escape_message (lit "it's") = lit "it'\''s"
  /\ Simple.escape_message (lit "plain") = lit "plain".
Proof.
  destruct (simple_escape_message_guards (lit "it's")) as (_ & _ & Hf).
  split.
  - rewrite Hf; [reflexivity|]. repeat constructor; discriminate.
  - apply (simple_escape_message_guards (lit "plain")).
    repeat constructor; discriminate.
Defined.

(** ** Records read and refused *)

Lemma plastic_reader_accepts_wellformed_records_witness :
  Forall (@plastic_record_ok all_succeed) (findall (lit "Changeset") history_2_1)
  /\ (exists css, @Plastic.parse_xml_history all_succeed history_2_1 = Ok css
                  /\ length css = 2%nat)
  /\ ~ Forall (@plastic_record_ok all_succeed)
         (findall (lit "Changeset") history_no_changes_section).
Proof.
  destruct (plastic_reader_accepts_wellformed_records all_succeed history_2_1)
    as [Hiff Hlen].
  assert (exists css, @Plastic.parse_xml_history all_succeed history_2_1 = Ok css)
    as [css Hcss] by (eexists; vm_compute; reflexivity).
  split; [|split].
  - apply Hiff. by exists css.
  - exists css. split; [exact Hcss|]. rewrite (Hlen css Hcss). reflexivity.
  - intros Hall.
    apply (plastic_reader_accepts_wellformed_records all_succeed
             history_no_changes_section) in Hall as [css' Hcss'].
    vm_compute in Hcss'. discriminate.
Defined.


(** ** The branch mapping *)

Lemma lstrip_with_length p s : (length (lstrip_with p s) <= length s)%nat.
Proof.
  destruct (lstrip_with_split p s) as (pre & Hs & _).
  rewrite Hs at 2. rewrite length_app. lia.
Qed.

(** X8: a mapped branch name has no separator left and mapping it again
    changes nothing, so that [get_or_create_branch], which [migrate_history]
    calls with a name it has mapped already, resolves the very name that is
    tracked; a leading separator more or less makes no difference, and the
    name is never longer than the path. *)
Theorem branch_name_is_flat_and_stable (b : pystr) :
  Forall (fun c => c <> chr "/") (git_branch_name b)
  /\ git_branch_name (git_branch_name b) = git_branch_name b
  /\ git_branch_name (chr "/" :: b) = git_branch_name b
  /\ (length (git_branch_name b) <= length b)%nat
  /\ forall (P : Platform) w,
      exists w' tr c1 c2,
        Plastic.get_or_create_branch (git_branch_name b) w
        = (Ok (git_branch_name b), w', tr)
        /\ runs tr = [(GitRevParse (git_branch_name b), c1);
                      (checkout_after c1 (git_branch_name b), c2)].
Proof.
  split; [apply git_branch_name_no_slash|].
  split; [apply git_branch_name_idem|].
  split; [reflexivity|]. split.
  - unfold git_branch_name. change (lit "-") with [chr "-"].
    rewrite replace_char_one, length_map. apply lstrip_with_length.
  - intros P w.
    destruct (get_or_create_branch_run (git_branch_name b) w)
      as (w' & tr & Hrun & _ & c1 & c2 & Hruns).
    rewrite git_branch_name_idem in Hrun, Hruns. by exists w', tr, c1, c2.
Qed.

(** ** A history without changesets *)

Lemma sorted_strs_empty : sorted_strs ∅ = [].
Proof.
  destruct (sorted_strs ∅) as [|g l] eqn:Hs; [done|].
  assert (In g (sorted_strs ∅)) as Hin by (rewrite Hs; by left).
  apply sorted_strs_elem in Hin. set_solver.
Qed.

(** X9: on a document without [Changeset] records the two scripts part
    ways.  [migrate_history] prints its first line and raises [IndexError]
    on [changesets[0]], before any command is run; [migrate] runs no
    command either, and completes with the summary of 0 of 0 commits and no
    branches. *)
Theorem empty_history_runs (P : Platform) root w :
  findall (lit "Changeset") root = [] ->
  Plastic.migrate_history root w = (Raise IndexError, w, [Printed PParsing])
  /\ Simple.migrate root w
     = (Ok {| Simple.tracking := tracking_init; Simple.success_count := 0 |}, w,
        [Printed SParsing; Printed (SFound 0); Printed SMigrating;
         Printed (SSummary 0 0 [])]).
Proof.
  intros Hroot. split.
  - apply plastic_driver_empty. unfold Plastic.parse_xml_history. by rewrite Hroot.
  - rewrite <- sorted_strs_empty.
    unfold Simple.migrate, Simple.parse_history. rewrite Hroot. reflexivity.
Qed.

Lemma empty_history_runs_witness :
  outcome_of (@Plastic.migrate_history all_succeed (Elem (lit "History") None [])) tt
  = Raise IndexError
  /\ runs (trace_of (@Simple.migrate all_succeed (Elem (lit "History") None [])) tt) = [].
Proof.
  destruct (empty_history_runs all_succeed (Elem (lit "History") None []) tt eq_refl)
    as [Hp Hs].
  unfold outcome_of, trace_of. rewrite Hp, Hs. split; reflexivity.
Defined.

(** ** Loops, in general *)

Section Collect.
Context `{Platform}.

(** What a completed loop leaves in the trace is what its iterations
    leave, in order. *)
Lemma for_each_collect {A S B} (body : A -> S -> M S) (read : list Event -> list B)
      (key : A -> list B) l s w s' w' tr :
  (forall t1 t2, read (t1 ++ t2) = read t1 ++ read t2) ->
  (forall x s w s' w' tr, body x s w = (Ok s', w', tr) -> read tr = key x) ->
  for_each body l s w = (Ok s', w', tr) ->
  read tr = flat_map key l.
Proof.
  intros Happ Hbody. revert s w tr.
  induction l as [|x l IH]; intros s w tr; cbn [for_each flat_map].
  - intros [= <- <- <-]. specialize (Happ [] []). simpl in Happ.
    destruct (read []); [done|].
    apply (f_equal length) in Happ. rewrite length_app in Happ. simpl in Happ. lia.
  - intros (s1 & w1 & t1 & t2 & Hx & Hl & ->)%bind_ok_inv.
    by rewrite Happ, (Hbody _ _ _ _ _ _ Hx), (IH _ _ _ Hl).
Qed.
End Collect.

Lemma switch_attempts_app t1 t2 :
  switch_attempts (t1 ++ t2) = switch_attempts t1 ++ switch_attempts t2.
Proof. unfold switch_attempts. by rewrite runs_app, List.filter_app. Qed.

Lemma switches_failed_app t1 t2 :
  switches_failed (t1 ++ t2) = (switches_failed t1 + switches_failed t2)%nat.
Proof.
  unfold switches_failed. by rewrite switch_attempts_app, List.filter_app, length_app.
Qed.

(** ** The run of [migrate] *)

Lemma switched_changesets_cons cs css c sw sws :
  switched_changesets (cs :: css) ((c, sw) :: sws)
  = (if sw =? 0 then [cs] else []) ++ switched_changesets css sws.
Proof. unfold switched_changesets. simpl. by destruct (sw =? 0). Qed.

Section SimpleAccounts.
Context `{Platform}.

Lemma checkout_after_not_switch c1 g : is_switch (checkout_after c1 g) = false.
Proof. unfold checkout_after. by destruct (negb (c1 =? 0)). Qed.

Lemma simple_step_switch total i cs s w r w' tr :
  Simple.process_changeset total (i, cs) s w = (r, w', tr) ->
  switch_attempts tr
  = [(CmSwitch (Simple.id cs),
      returncode_of (fst (shell (cmd_text (CmSwitch (Simple.id cs))) w)))].
Proof.
  unfold Simple.process_changeset.
  unfold bind at 1. unfold print at 1. cbn beta iota.
  unfold bind at 1. rewrite simple_run_cmd_nocapture.
  destruct (shell (cmd_text (CmSwitch (Simple.id cs))) w) as [o_sw w1].
  cbn [fst].
  destruct (negb (returncode_of o_sw =? 0)) eqn:Hsw.
  { unfold bind, print, ret. cbn. intros [= <- <- <-]. by destruct o_sw. }
  destruct (Simple.branch cs) as [b|].
  2:{ unfold bind, lift. cbn. intros [= <- <- <-]. by destruct o_sw. }
  unfold bind at 1. unfold lift at 1. cbn beta iota.
  set (g := git_branch_name b).
  unfold bind at 1.
  case_bool_decide as Hg.
  - unfold ret at 1. cbn beta iota.
    unfold bind at 1. rewrite simple_run_cmd_nocapture.
    destruct (shell (cmd_text GitAddAll) w1) as [o_add w2].
    unfold bind at 1. rewrite simple_run_cmd_nocapture.
    destruct (shell _ w2) as [o_c w3].
    destruct (returncode_of o_c =? 0);
      unfold bind, print, ret; cbn; intros [= <- <- <-];
      by destruct o_sw, o_add, o_c.
  - unfold bind at 1. rewrite simple_run_cmd_nocapture.
    destruct (shell (cmd_text (GitRevParse g)) w1) as [o_rp w2].
    unfold bind at 1.
    assert (exists o_co w3,
      (if negb (returncode_of o_rp =? 0)
       then Simple.run_cmd (GitCheckoutNew g) false
       else Simple.run_cmd (GitCheckout g) false) w2
      = (Ok (None, returncode_of o_co), w3,
         Ran (checkout_after (returncode_of o_rp) g) o_co :: crash_note_simple o_co))
      as (o_co & w3 & ->).
    { unfold checkout_after.
      destruct (negb (returncode_of o_rp =? 0)); rewrite simple_run_cmd_nocapture;
        destruct (shell _ w2) as [o_co w3]; by exists o_co, w3. }
    unfold ret at 1. cbn beta iota.
    unfold bind at 1. rewrite simple_run_cmd_nocapture.
    destruct (shell (cmd_text GitAddAll) w3) as [o_add w4].
    unfold bind at 1. rewrite simple_run_cmd_nocapture.
    destruct (shell _ w4) as [o_c w5].
    pose proof (checkout_after_not_switch (returncode_of o_rp) g) as Hcs.
    destruct (returncode_of o_c =? 0);
      unfold bind, print, ret; cbn; intros [= <- <- <-];
      unfold switch_attempts;
      destruct o_sw, o_rp, o_co, o_add, o_c; cbn in Hcs |- *;
      rewrite Hcs; reflexivity.
Qed.

(** An iteration of [migrate] raises only on a changeset without branch
    whose workspace switch succeeded. *)
Lemma simple_step_outcome total i cs s w r w' tr :
  Simple.process_changeset total (i, cs) s w = (r, w', tr) ->
  (exists s', r = Ok s')
  \/ (r = Raise AttributeError /\ Simple.branch cs = None
      /\ returncode_of (fst (shell (cmd_text (CmSwitch (Simple.id cs))) w)) = 0).
Proof.
  intros Hrun.
  destruct (simple_step_facts _ _ _ _ _ _ _ _ Hrun) as (_ & _ & Hfacts).
  cbv zeta in Hfacts.
  destruct (Z.eqb_spec
              (returncode_of (fst (shell (cmd_text (CmSwitch (Simple.id cs))) w))) 0)
    as [Hsw|Hsw].
  - destruct (Simple.branch cs) as [b|].
    + destruct Hfacts as (_ & _ & code & -> & _). left. eauto.
    + destruct Hfacts as [-> _]. by right.
  - destruct Hfacts as (-> & _). left. eauto.
Qed.

Lemma simple_loop_outcome total l s w r w' tr :
  for_each (Simple.process_changeset total) l s w = (r, w', tr) ->
  (exists s', r = Ok s')
  \/ (r = Raise AttributeError
      /\ exists ics, In ics l /\ Simple.branch (snd ics) = None).
Proof.
  revert s w r w' tr. induction l as [|[i cs] l IH]; intros s w r w' tr;
    cbn [for_each].
  - intros [= <- <- <-]. left. eauto.
  - intros [(s1 & w1 & t1 & t2 & Hx & Hl & ->)|(e & Hx & ->)]%bind_inv.
    + destruct (IH _ _ _ _ _ Hl) as [Hok|(-> & ics & Hin & Hb)]; [by left|].
      right. split; [done|]. exists ics. split; [by right|done].
    + destruct (simple_step_outcome _ _ _ _ _ _ _ _ Hx) as [[s' [=]]|([= ->] & Hb & _)].
      right. split; [done|]. exists (i, cs). split; [by left|done].
Qed.

Lemma simple_loop_accounts total l s w s' w' tr :
  for_each (Simple.process_changeset total) l s w = (Ok s', w', tr) ->
  map fst (switch_attempts tr) = map (fun ics => CmSwitch (Simple.id (snd ics))) l
  /\ (length (commit_attempts tr) + switches_failed tr = length l)%nat
  /\ Forall (fun r => exists ics, In ics l /\ fst r = simple_commit_of (snd ics))
            (commit_attempts tr)
  /\ map fst (commit_attempts tr)
     = map simple_commit_of (switched_changesets (map snd l) (switch_attempts tr)).
Proof.
  revert s w tr. induction l as [|[i cs] l IH]; intros s w tr; cbn [for_each].
  - intros [= <- <- <-]. by repeat split.
  - intros (s1 & w1 & tr1 & tr2 & Hstep & Hloop & ->)%bind_ok_inv.
    destruct (IH _ _ _ Hloop) as (Hsw & Hlen & Hall & Hown).
    assert (map fst (commit_attempts (tr1 ++ tr2))
            = map simple_commit_of
                (switched_changesets (map snd ((i, cs) :: l))
                   (switch_attempts (tr1 ++ tr2)))) as Hown'.
    { rewrite switch_attempts_app, commit_attempts_app, map_app, Hown,
        (simple_step_switch _ _ _ _ _ _ _ _ Hstep).
      cbn [map snd app]. rewrite switched_changesets_cons, map_app. f_equal.
      destruct (simple_step_facts _ _ _ _ _ _ _ _ Hstep) as (_ & _ & Hfacts).
      cbv zeta in Hfacts.
      destruct (_ =? 0).
      - destruct (Simple.branch cs) as [b|]; [|by destruct Hfacts as [[=] _]].
        by destruct Hfacts as (_ & _ & code & _ & -> & _).
      - by destruct Hfacts as (_ & -> & _). }
    assert (map fst (switch_attempts (tr1 ++ tr2))
            = map (fun ics => CmSwitch (Simple.id (snd ics))) ((i, cs) :: l)
            /\ (length (commit_attempts (tr1 ++ tr2)) + switches_failed (tr1 ++ tr2)
                = length ((i, cs) :: l))%nat
            /\ Forall (fun r => exists ics, In ics ((i, cs) :: l)
                                            /\ fst r = simple_commit_of (snd ics))
                      (commit_attempts (tr1 ++ tr2))) as (H1 & H2 & H3);
      [|by repeat split].
    clear Hown Hown'.
    pose proof (simple_step_switch _ _ _ _ _ _ _ _ Hstep) as Hs1.
    destruct (simple_step_facts _ _ _ _ _ _ _ _ Hstep) as (_ & _ & Hfacts).
    cbv zeta in Hfacts.
    set (sw := returncode_of (shell (cmd_text (CmSwitch (Simple.id cs))) w).1) in *.
    rewrite switch_attempts_app, commit_attempts_app, switches_failed_app,
      map_app, length_app, Forall_app, Hs1, Hsw.
    assert (forall r : Cmd * Z,
               (exists ics, In ics l /\ fst r = simple_commit_of (snd ics)) ->
                      exists ics, In ics ((i, cs) :: l)
                                  /\ fst r = simple_commit_of (snd ics)) as Hweak.
    { intros r (ics & Hin & Hr). exists ics. split; [by right|done]. }
    split; [done|].
    unfold switches_failed at 1. rewrite Hs1. cbn [List.filter snd length].
    destruct (Z.eqb_spec sw 0) as [Hz|Hz]; cbn [negb length].
    + destruct (Simple.branch cs) as [b|]; [|by destruct Hfacts as [[=] _]].
      destruct Hfacts as (_ & _ & code & _ & -> & _). cbn [length].
      split; [lia|]. split.
      * constructor; [|constructor]. exists (i, cs). split; [by left|done].
      * eapply Forall_impl; [exact Hall|]. exact Hweak.
    + destruct Hfacts as (_ & -> & _). cbn [length].
      split; [lia|]. split; [constructor|].
      eapply Forall_impl; [exact Hall|]. exact Hweak.
Qed.
End SimpleAccounts.

(** X10: once the history is read, [migrate] raises only on a changeset
    whose [Branch] has no text, and then [AttributeError]; with a branch on
    every changeset it completes, whatever the commands return. *)
Theorem simple_migrate_raises_only_without_branch (P : Platform) root css w :
  Simple.parse_history root = Ok css ->
  (Forall (fun cs => Simple.branch cs <> None) css ->
   exists s w' tr, Simple.migrate root w = (Ok s, w', tr))
  /\ (forall e w' tr,
      Simple.migrate root w = (Raise e, w', tr) ->
      e = AttributeError /\ exists cs, In cs css /\ Simple.branch cs = None).
Proof.
  intros Hparse.
  destruct (simple_driver_shape root css w Hparse) as (sf & wf & trl & Hloop & Hm).
  assert (forall ics, In ics (enumerate css) -> In (snd ics) css) as Henum.
  { intros ics Hin. rewrite <- (enumerate_from_snd css 0). by apply in_map. }
  destruct (simple_loop_outcome _ _ _ _ _ _ _ Hloop) as [[s ->]|(-> & ics & Hin & Hb)].
  - split; [eauto|]. intros e w' tr. by rewrite Hm.
  - split.
    + intros Hall. rewrite Forall_forall in Hall.
      destruct (Hall (snd ics)); [|done]. by apply list_elem_of_In, Henum.
    + intros e w' tr. rewrite Hm. intros [= <- <- <-].
      split; [done|]. exists (snd ics). split; [by apply Henum|done].
Qed.

Lemma simple_migrate_raises_only_without_branch_witness :
  exists s w' tr,
    @Simple.migrate checkout_fails history_2_1 tt = (Ok s, w', tr)
    /\ Simple.success_count s = 2%nat.
Proof.
  assert (exists css, @Simple.parse_history checkout_fails history_2_1 = Ok css
                      /\ Forall (fun cs => Simple.branch cs <> None) css)
    as (css & Hparse & Hall).
  { eexists. split; [vm_compute; reflexivity|]. repeat constructor; discriminate. }
  destruct (simple_migrate_raises_only_without_branch checkout_fails history_2_1 css tt
              Hparse) as [Hok _].
  destruct (Hok Hall) as (s & w' & tr & Hrun).
  exists s, w', tr. split; [exact Hrun|].
  assert (exists s0 w0 tr0,
             @Simple.migrate checkout_fails history_2_1 tt = (Ok s0, w0, tr0)
             /\ Simple.success_count s0 = 2%nat) as (s0 & w0 & tr0 & Hrun0 & Hc).
  { eexists _, _, _. split; vm_compute; reflexivity. }
  rewrite Hrun in Hrun0. injection Hrun0 as <- _ _. exact Hc.
Defined.

Lemma switched_changesets_all css (sws : list (Cmd * Z)) :
  length sws = length css -> Forall (fun r => snd r = 0) sws ->
  switched_changesets css sws = css.
Proof.
  revert sws. induction css as [|cs css IH]; intros [|[c sw] sws] Hlen Hall;
    try done.
  apply Forall_cons in Hall as [Hsw Hall]. cbn [snd] in Hsw. subst sw.
  rewrite switched_changesets_cons. cbn [Z.eqb app]. f_equal.
  apply IH; [|done]. by injection Hlen.
Qed.

(** X11: a run of [migrate] that completes switches the workspace once for
    each changeset, in the order of the ids.  The commit commands it runs
    are, in that order, those of the changesets whose own switch returned
    0, each built from the stored comment and the date of that very
    changeset; a changeset whose switch failed gets none.  With every switch
    succeeding they are the commits of all changesets in order.  The
    successes reported are the commit commands that returned 0, so that
    successes and failed switches never add up to more than the changesets
    read. *)
Theorem simple_run_accounts_for_every_changeset (P : Platform) root css w s w' tr :
  Simple.parse_history root = Ok css ->
  Simple.migrate root w = (Ok s, w', tr) ->
  map fst (switch_attempts tr) = map (fun cs => CmSwitch (Simple.id cs)) css
  /\ map fst (commit_attempts tr)
     = map simple_commit_of (switched_changesets css (switch_attempts tr))
  /\ (Forall (fun r => snd r = 0) (switch_attempts tr) ->
      map fst (commit_attempts tr) = map simple_commit_of css)
  /\ (length (commit_attempts tr) + switches_failed tr = length css)%nat
  /\ Simple.success_count s = commits_succeeded tr
  /\ (Simple.success_count s + switches_failed tr <= length css)%nat.
Proof.
  intros Hparse Hrun.
  destruct (simple_driver_shape root css w Hparse) as (sf & wf & trl & Hloop & Hm).
  rewrite Hm in Hrun. clear Hm.
  destruct sf as [s0|e]; [|done]. injection Hrun as -> <- Htr.
  destruct (simple_loop_accounts _ _ _ _ _ _ _ Hloop) as (Hsw & Hlen & _ & Hown).
  pose proof (simple_loop_counts _ _ _ _ _ _ _ Hloop) as Hcount.
  cbn [Simple.success_count] in Hcount.
  set (x := Printed (SSummary (Simple.success_count s) (length css)
                       (sorted_strs (git_branches (Simple.tracking s))))) in Htr.
  set (pre := [Printed SParsing; Printed (SFound (length css)); Printed SMigrating])
    in Htr.
  assert (tr = pre ++ trl ++ [x]) as -> by (symmetry; exact Htr). clear Htr.
  rewrite !switch_attempts_app, !commit_attempts_app, !switches_failed_app,
    !commits_succeeded_app.
  change (switch_attempts pre) with (@nil (Cmd * Z)).
  change (switch_attempts [x]) with (@nil (Cmd * Z)).
  change (commit_attempts pre) with (@nil (Cmd * Z)).
  change (commit_attempts [x]) with (@nil (Cmd * Z)).
  change (switches_failed pre) with 0%nat.
  change (switches_failed [x]) with 0%nat.
  change (commits_succeeded pre) with 0%nat.
  change (commits_succeeded [x]) with 0%nat.
  cbn [app Nat.add]. rewrite ?app_nil_r, ?Nat.add_0_r.
  assert (length (enumerate css) = length css) as Hel.
  { rewrite <- (enumerate_from_snd css 0) at 2. by rewrite length_map. }
  rewrite Hel in Hlen.
  unfold enumerate in Hown. rewrite enumerate_from_snd in Hown.
  assert (map fst (switch_attempts trl) = map (fun cs => CmSwitch (Simple.id cs)) css)
    as Hsw'.
  { rewrite Hsw. by rewrite <- (enumerate_from_snd css 0) at 2; rewrite map_map. }
  split; [done|]. split; [done|]. split.
  { intros Hall. rewrite Hown, switched_changesets_all; [done| |done].
    by rewrite <- (length_map fst), Hsw', length_map. }
  split; [lia|]. split; [lia|].
  assert (commits_succeeded trl <= length (commit_attempts trl))%nat.
  { unfold commits_succeeded. apply filter_length_le. }
  lia.
Qed.

Lemma simple_run_accounts_for_every_changeset_witness :
  exists s w' tr,
    @Simple.migrate switch_two_fails history_2_1 tt = (Ok s, w', tr)
    /\ map fst (switch_attempts tr) = [CmSwitch 1; CmSwitch 2]
    /\ map snd (switch_attempts tr) = [0; 1]
    /\ map fst (commit_attempts tr) = [simple_commit example_date (lit "hi")]
    /\ (length (commit_attempts tr) + switches_failed tr = 2)%nat
    /\ Simple.success_count s = commits_succeeded tr.
Proof.
  assert (exists css, @Simple.parse_history switch_two_fails history_2_1 = Ok css
                      /\ map Simple.id css = [1; 2]
                      /\ map simple_commit_of
                           (switched_changesets css [(CmSwitch 1, 0); (CmSwitch 2, 1)])
                         = [simple_commit example_date (lit "hi")])
    as (css & Hparse & Hids & Hsel)
    by (eexists; split; [|split]; vm_compute; reflexivity).
  assert (exists s w' tr,
             @Simple.migrate switch_two_fails history_2_1 tt = (Ok s, w', tr)
             /\ switch_attempts tr = [(CmSwitch 1, 0); (CmSwitch 2, 1)])
    as (s & w' & tr & Hrun & Hsws)
    by (eexists _, _, _; split; vm_compute; reflexivity).
  destruct (simple_run_accounts_for_every_changeset switch_two_fails history_2_1
              css tt s w' tr Hparse Hrun) as (Hsw & Hown & _ & Hlen & Hcount & _).
  exists s, w', tr. split; [exact Hrun|].
  rewrite <- (map_map Simple.id CmSwitch), Hids in Hsw.
  rewrite <- (length_map Simple.id), Hids in Hlen.
  rewrite Hsws, Hsel in Hown.
  split; [exact Hsw|]. split; [by rewrite Hsws|].
  split; [exact Hown|]. split; [exact Hlen|exact Hcount].
Defined.

(** ** Reconciling one file *)

Ltac process_file_cases f w :=
  let path := fresh "path" in
  let cs_id := fresh "cs_id" in
  destruct f as [[[] path] cs_id]; unfold Plastic.process_file;
  [ unfold bind at 1;
    let o := fresh "o" in
    let w1 := fresh "w1" in
    let content := fresh "content" in
    let code := fresh "code" in
    let notes := fresh "notes" in
    let Hs := fresh "Hs" in
    let Hnotes := fresh "Hnotes" in
    let Hok := fresh "Hok" in
    let Hc := fresh "Hc" in
    destruct (plastic_run_command_capture (CmCat path cs_id) w)
      as (o & w1 & content & code & notes & Hs & -> & Hnotes & Hok);
    destruct (code =? 0) eqn:Hc;
    [ let stdout := fresh "stdout" in
      let text := fresh "text" in
      let Hd := fresh "Hd" in
      apply Z.eqb_eq in Hc; destruct (Hok Hc) as (stdout & text & -> & Hd & -> & ->);
      unfold bind, lift, os_makedirs, write_binary, raise;
      destruct path as [path|]; cbn [Plastic.full_path_of];
      [ let w2 := fresh "w2" in
        let Hmk := fresh "Hmk" in
        destruct (makedirs _ w1) as [w2|] eqn:Hmk; cbn beta iota;
        [ let w3 := fresh "w3" in
          let Hwr := fresh "Hwr" in
          destruct (write_file _ _ w2) as [w3|] eqn:Hwr; cbn beta iota
        | ]
      | ]
    | unfold print ]
  | unfold bind, lift, os_path_exists, os_remove, ret;
    destruct path as [path|]; cbn [Plastic.full_path_of]; cbn beta iota;
    [ let Hex := fresh "Hex" in
      destruct (path_exists _ w) eqn:Hex; cbn beta iota;
      [ let w1 := fresh "w1" in
        let Hrm := fresh "Hrm" in
        destruct (remove_file _ w) as [w1|] eqn:Hrm; cbn beta iota;
        [ rewrite plastic_run_command_nocapture;
          let o := fresh "o" in
          let w2 := fresh "w2" in
          destruct (shell _ w1) as [o w2]; cbn beta iota
        | ]
      | ]
    | ]
  ].

Section OneFile.
Context `{Platform}.

(** What makes an entry raise: a path that is missing ([AttributeError])
    or a file operation that fails ([OSError]). *)
Lemma process_file_raises f w e w' tr :
  Plastic.process_file f w = (Raise e, w', tr) ->
  (e = AttributeError /\ snd (fst f) = None)
  \/ (e = OSError /\ ~ files_never_fail).
Proof.
  process_file_cases f w; intros Hrun; try discriminate Hrun;
    try (injection Hrun as <- <- <-); try (by left).
  - right. split; [done|]. intros (_ & Hwrok & _).
    destruct (Hwrok (path_join WORK_DIR (lstrip_char (chr "/") path))
                (encode_utf8_ignore (strip text)) w2) as [? ?]. congruence.
  - right. split; [done|]. intros (Hmkok & _).
    destruct (Hmkok (path_dirname (path_join WORK_DIR (lstrip_char (chr "/") path)))
                w1) as [? ?]. congruence.
  - right. split; [done|]. intros (_ & _ & Hrmok).
    destruct (Hrmok _ _ Hex) as [? ?]. congruence.
Qed.
End OneFile.

Lemma warnings_app t1 t2 : warnings (t1 ++ t2) = warnings t1 ++ warnings t2.
Proof. apply flat_map_app. Qed.

Lemma git_rm_attempts_app t1 t2 :
  git_rm_attempts (t1 ++ t2) = git_rm_attempts t1 ++ git_rm_attempts t2.
Proof. unfold git_rm_attempts. by rewrite runs_app, List.filter_app. Qed.

Lemma branch_events_no_warning tr :
  forallb branch_event tr = true -> warnings tr = [].
Proof. apply flat_map_nil_forallb. by intros [| [] | | |]. Qed.

Lemma branch_events_no_git_rm tr :
  forallb branch_event tr = true -> git_rm_attempts tr = [].
Proof. apply filter_runs_nil. by intros [] o. Qed.

Section FilePairs.
Context `{Platform}.

Lemma in_pairs_app prev t1 t2 :
  in_pairs prev t1 -> (forall prev', in_pairs prev' t2) -> in_pairs prev (t1 ++ t2).
Proof.
  revert prev. induction t1 as [|e t1 IH]; intros prev H1 H2; [apply H2|].
  destruct H1 as [He H1]. split; [done|]. by apply IH.
Qed.

(** A trace without writes and without [git rm]. *)
Lemma in_pairs_quiet tr prev :
  written tr = [] -> git_rm_attempts tr = [] -> in_pairs prev tr.
Proof.
  revert prev. induction tr as [|e tr IH]; intros prev Hw Hr; [done|].
  change (e :: tr) with ([e] ++ tr) in Hw, Hr.
  rewrite written_app in Hw. rewrite git_rm_attempts_app in Hr.
  apply app_eq_nil in Hw as [Hw1 Hw2]. apply app_eq_nil in Hr as [Hr1 Hr2].
  split; [|by apply IH].
  destruct e as [c o| | | |]; try done. by destruct c.
Qed.

Lemma in_pairs_lookup prev tr i e :
  in_pairs prev tr -> tr !! i = Some e ->
  follows (match i with O => prev | S j => tr !! j end) e.
Proof.
  revert prev i. induction tr as [|x tr IH]; intros prev i Hp Hi; [done|].
  destruct Hp as [Hx Htr]. destruct i as [|i]; simpl in Hi.
  - by injection Hi as <-.
  - specialize (IH (Some x) i Htr Hi). by destruct i.
Qed.

Lemma process_file_in_pairs f w r w' tr :
  Plastic.process_file f w = (r, w', tr) -> forall prev, in_pairs prev tr.
Proof.
  process_file_cases f w; intros [= <- <- <-] prev;
    try (destruct Hnotes as [-> | ->]); try (destruct o);
    cbn; repeat split; done.
Qed.

(** Each retrieval of an entry that is processed to its end leaves one
    write or one warning. *)
Lemma process_file_counts f w w' tr :
  Plastic.process_file f w = (Ok tt, w', tr) ->
  (length (written tr) + length (warnings tr) = length (cm_cat_attempts tr))%nat.
Proof.
  process_file_cases f w; intros Hrun; try discriminate Hrun;
    injection Hrun as <- <-;
    try (destruct Hnotes as [-> | ->]); try (destruct o); reflexivity.
Qed.

Lemma for_each_in_pairs {A S} (body : A -> S -> M S) l s w r w' tr :
  (forall x s w r w' tr, body x s w = (r, w', tr) -> forall prev, in_pairs prev tr) ->
  for_each body l s w = (r, w', tr) -> forall prev, in_pairs prev tr.
Proof.
  intros Hbody. revert s w r w' tr.
  induction l as [|x l IH]; intros s w r w' tr; cbn [for_each].
  - by intros [= <- <- <-].
  - intros [(s1 & w1 & t1 & t2 & Hx & Hl & ->)|(e & Hx & ->)]%bind_inv prev.
    + apply in_pairs_app; [by eapply Hbody|]. by eapply IH.
    + by eapply Hbody.
Qed.

Lemma for_each_files_counts files w w' tr :
  for_each (fun f _ => Plastic.process_file f) files tt w = (Ok tt, w', tr) ->
  (length (written tr) + length (warnings tr) = length (cm_cat_attempts tr))%nat.
Proof.
  revert w tr. induction files as [|f files IH]; intros w tr; cbn [for_each].
  - by intros [= <- <-].
  - intros ([] & w1 & t1 & t2 & Hf & Hrest & ->)%bind_ok_inv.
    rewrite written_app, warnings_app, cm_cat_attempts_app, !length_app.
    apply process_file_counts in Hf. apply IH in Hrest. lia.
Qed.

(** An entry of [files_to_process] that raises. *)
Lemma for_each_files_raises files w e w' tr :
  for_each (fun f _ => Plastic.process_file f) files tt w = (Raise e, w', tr) ->
  (e = AttributeError /\ exists f, In f files /\ snd (fst f) = None)
  \/ (e = OSError /\ ~ files_never_fail).
Proof.
  revert w tr. induction files as [|f files IH]; intros w tr; cbn [for_each].
  - by intros [=].
  - intros [([] & w1 & t1 & t2 & Hf & Hrest & ->)|(e' & Hf & [= <-])]%bind_inv.
    + destruct (IH _ _ Hrest) as [(-> & f' & Hin & Hnone)|Hos]; [left|by right].
      split; [done|]. exists f'. split; [by right|done].
    + destruct (process_file_raises _ _ _ _ _ Hf) as [[-> Hnone]|Hos]; [left|by right].
      split; [done|]. exists f. split; [by left|done].
Qed.

Lemma files_of_change_path cs_id change f :
  In f (Plastic.files_of_change cs_id change) -> snd (fst f) = None ->
  ~ paths_present change.
Proof.
  unfold Plastic.files_of_change, paths_present.
  intros Hin Hnone [Hsrc Hdst].
  destruct (_ || _).
  { destruct Hin as [<-|[]]. cbn in Hnone. rewrite Hnone in Hdst. by destruct Hdst. }
  destruct (bool_decide _).
  { destruct Hin as [<-|[]]. cbn in Hnone. rewrite Hnone in Hdst. by destruct Hdst. }
  destruct (bool_decide _); [|done].
  destruct Hin as [<-|[<-|[]]]; cbn in Hnone.
  - rewrite Hnone in Hsrc. by destruct Hsrc.
  - rewrite Hnone in Hdst. by destruct Hdst.
Qed.

Lemma apply_changeset_files_raises cs cs_id w e w' tr :
  Plastic.apply_changeset_files cs cs_id w = (Raise e, w', tr) ->
  (e = AttributeError /\ ~ Forall paths_present (Plastic.changes cs))
  \/ (e = OSError /\ ~ files_never_fail).
Proof.
  unfold Plastic.apply_changeset_files.
  intros [(-> & f & Hin & Hnone)|Hos]%for_each_files_raises; [left|by right].
  split; [done|]. intros Hall.
  apply in_flat_map in Hin as (change & Hch & Hin).
  rewrite Forall_forall in Hall.
  by apply (files_of_change_path _ _ _ Hin Hnone), Hall, list_elem_of_In.
Qed.
End FilePairs.

(** ** One changeset of [migrate_history], part by part *)

Section PlasticParts.
Context `{Platform}.

Lemma create_git_commit_quiet message date_str email name w r w' tr :
  Plastic.create_git_commit message date_str email name w = (r, w', tr) ->
  warnings tr = [] /\ written tr = [] /\ git_rm_attempts tr = []
  /\ cm_cat_attempts tr = [].
Proof.
  unfold Plastic.create_git_commit.
  unfold bind. rewrite plastic_run_command_nocapture.
  destruct (shell (cmd_text GitAddAll) w) as [o1 w1]. simpl.
  rewrite plastic_run_command_nocapture.
  destruct (shell _ w1) as [o2 w2]. simpl.
  intros [= <- <- <-]. destruct o1, o2; repeat split; reflexivity.
Qed.

Lemma plastic_step_parts total i cs t w b :
  Plastic.branch cs = Some b ->
  let g := git_branch_name b in
  let progress := Printed (PProgress (i + 1) total (Plastic.id cs) (take 40 b)) in
  exists w1 tr_b r_f w2 tr_f,
    forallb branch_event tr_b = true
    /\ Plastic.apply_changeset_files cs (Plastic.id cs) w1 = (r_f, w2, tr_f)
    /\ match r_f with
       | Raise e =>
           Plastic.process_changeset total (i, cs) t w
           = (Raise e, w2, progress :: tr_b ++ tr_f)
       | Ok _ =>
           exists w3 tr_c code,
             Plastic.create_git_commit (Plastic.generate_commit_message cs)
               (Plastic.date_str cs) GIT_AUTHOR_EMAIL GIT_AUTHOR_NAME w2
             = (Ok (code =? 0), w3, tr_c)
             /\ Plastic.process_changeset total (i, cs) t w
                = (Ok (tracked g t), w3,
                   progress :: tr_b ++ tr_f ++ tr_c
                     ++ [Printed (if code =? 0 then PCommitted else PCommitFailed)])
       end.
Proof.
  intros Hb g progress.
  assert (exists w1 tr_b,
    (if bool_decide (Some g = current_branch t) then ret t
     else bind (Plastic.get_or_create_branch g) (fun _ => ret (track g t))) w
    = (Ok (tracked g t), w1, tr_b)
    /\ forallb branch_event tr_b = true)
    as (w1 & tr_b & Hstep & Hbe).
  { unfold tracked. case_bool_decide as Hg.
    - exists w, []. by repeat split.
    - destruct (get_or_create_branch_run g w) as (w1 & tr & Hrun & Hev & _).
      exists w1, tr. unfold bind. rewrite Hrun. simpl. rewrite app_nil_r.
      by split. }
  destruct (Plastic.apply_changeset_files cs (Plastic.id cs) w1)
    as [[r_f w2] tr_f] eqn:Hf.
  exists w1, tr_b, r_f, w2, tr_f.
  do 2 (split; [done|]).
  assert (
    Plastic.process_changeset total (i, cs) t w
    = let '(r, w', tr) :=
        bind (Plastic.apply_changeset_files cs (Plastic.id cs))
             (fun _ =>
                bind (Plastic.create_git_commit (Plastic.generate_commit_message cs)
                        (Plastic.date_str cs) GIT_AUTHOR_EMAIL GIT_AUTHOR_NAME)
                     (fun committed =>
                        bind (print (if committed : bool
                                     then PCommitted else PCommitFailed))
                             (fun _ => ret (tracked g t)))) w1 in
      (r, w', progress :: tr_b ++ tr)) as Hshape.
  { unfold Plastic.process_changeset. rewrite Hb.
    unfold bind at 1. unfold lift at 1. cbn beta iota.
    unfold bind at 1. unfold print at 1. cbn beta iota.
    unfold bind at 1. fold g. rewrite Hstep.
    match goal with
    | |- context [bind ?m ?f w1] => destruct (bind m f w1) as [[r w'] tr]
    end.
    reflexivity. }
  destruct r_f as [[]|e]; rewrite Hshape; unfold bind at 1; rewrite Hf;
    [|reflexivity].
  destruct (create_git_commit_run (Plastic.generate_commit_message cs)
              (Plastic.date_str cs) GIT_AUTHOR_EMAIL GIT_AUTHOR_NAME w2)
    as (w3 & tr_c & code & Hc & _).
  exists w3, tr_c, code. split; [done|].
  unfold bind at 1. rewrite Hc.
  unfold bind, print, ret. cbn.
  repeat f_equal.
Qed.

(** What the files of one changeset leave in the trace, and what makes
    the iteration raise. *)
Lemma plastic_step_files total i cs t w r w' tr :
  Plastic.process_changeset total (i, cs) t w = (r, w', tr) ->
  (forall prev, in_pairs prev tr)
  /\ (forall t', r = Ok t' ->
      (length (written tr) + length (warnings tr)
       = length (cm_cat_attempts tr))%nat)
  /\ (forall e, r = Raise e ->
      (e = TypeError /\ Plastic.branch cs = None)
      \/ (e = AttributeError /\ ~ Forall paths_present (Plastic.changes cs))
      \/ (e = OSError /\ ~ files_never_fail)).
Proof.
  destruct (Plastic.branch cs) as [b|] eqn:Hb.
  2:{ rewrite plastic_step_no_branch by done. intros [= <- <- <-].
      split; [done|]. split; [done|]. intros e [= <-]. by left. }
  destruct (plastic_step_parts total i cs t w b Hb)
    as (w1 & tr_b & r_f & w2 & tr_f & Hbe & Hf & Hshape).
  set (progress := Printed (PProgress (i + 1) total (Plastic.id cs) (take 40 b)))
    in Hshape.
  assert (forall prev, in_pairs prev tr_b) as Hpb.
  { intros prev. apply in_pairs_quiet;
      [by apply branch_events_no_write | by apply branch_events_no_git_rm]. }
  assert (forall prev, in_pairs prev tr_f) as Hpf.
  { unfold Plastic.apply_changeset_files in Hf.
    eapply for_each_in_pairs; [|exact Hf].
    intros f u w0 r0 w0' tr0. apply process_file_in_pairs. }
  destruct r_f as [[]|e].
  - destruct Hshape as (w3 & tr_c & code & Hc & Heq).
    rewrite Heq. intros [= <- <- Htr].
    set (final := Printed (if code =? 0 then PCommitted else PCommitFailed)) in Htr.
    assert (tr = [progress] ++ tr_b ++ tr_f ++ tr_c ++ [final]) as ->
      by (symmetry; exact Htr).
    destruct (create_git_commit_quiet _ _ _ _ _ _ _ _ Hc) as (Hwc & Hrc & Hgc & Hcc).
    split; [|split; [|done]].
    + intros prev. apply in_pairs_app; [done|]. intros prev1.
      apply in_pairs_app; [done|]. intros prev2.
      apply in_pairs_app; [done|]. intros prev3.
      apply in_pairs_app; [by apply in_pairs_quiet|]. intros prev4.
      unfold final. by destruct (code =? 0).
    + intros _ _.
      assert (written [final] = [] /\ warnings [final] = []
              /\ cm_cat_attempts [final] = []) as (Hw1 & Hw2 & Hw3)
        by (unfold final; by destruct (code =? 0)).
      rewrite !written_app, !warnings_app, !cm_cat_attempts_app,
        (branch_events_no_write _ Hbe), (branch_events_no_warning _ Hbe),
        (branch_events_no_cm_cat _ Hbe), Hwc, Hrc, Hcc, Hw1, Hw2, Hw3, !app_nil_r.
      cbn [app]. unfold Plastic.apply_changeset_files in Hf.
      by apply for_each_files_counts in Hf.
  - rewrite Hshape. intros [= <- <- Htr].
    assert (tr = [progress] ++ tr_b ++ tr_f) as -> by (symmetry; exact Htr).
    split; [|split; [done|]].
    + intros prev. apply in_pairs_app; [done|]. intros prev1.
      by apply in_pairs_app.
    + intros e' [= <-]. right.
      by apply (apply_changeset_files_raises _ _ _ _ _ _ Hf).
Qed.

Lemma plastic_step_ok_branch total ics t w t' w' tr :
  Plastic.process_changeset total ics t w = (Ok t', w', tr) ->
  exists b, Plastic.branch (snd ics) = Some b.
Proof.
  destruct ics as [i cs]. destruct (Plastic.branch cs) as [b|] eqn:Hb; [eauto|].
  by rewrite plastic_step_no_branch.
Qed.

Lemma plastic_step_commit total ics t w t' w' tr :
  Plastic.process_changeset total ics t w = (Ok t', w', tr) ->
  map fst (commit_attempts tr) = [plastic_commit_of (snd ics)]
  /\ map fst (cm_cat_attempts tr) = retrievals (snd ics).
Proof.
  intros Hrun. destruct (plastic_step_ok_branch _ _ _ _ _ _ _ Hrun) as [b Hb].
  destruct ics as [i cs]. cbn [snd] in *.
  destruct (plastic_step_facts _ _ _ _ _ _ _ _ _ Hb Hrun)
    as (_ & _ & _ & _ & code & -> & _).
  destruct (plastic_step_reconciles _ _ _ _ _ _ _ _ _ Hb Hrun) as (Hcat & _).
  split; [done|]. by apply (Hcat t').
Qed.

Lemma plastic_loop_counts total l t w t' w' tr :
  for_each (Plastic.process_changeset total) l t w = (Ok t', w', tr) ->
  (length (written tr) + length (warnings tr) = length (cm_cat_attempts tr))%nat.
Proof.
  revert t w tr. induction l as [|[i cs] l IH]; intros t w tr; cbn [for_each].
  - by intros [= <- <- <-].
  - intros (t1 & w1 & tr1 & tr2 & Hstep & Hloop & ->)%bind_ok_inv.
    rewrite written_app, warnings_app, cm_cat_attempts_app, !length_app.
    destruct (plastic_step_files _ _ _ _ _ _ _ _ Hstep) as (_ & Hc & _).
    specialize (Hc t1 eq_refl). apply IH in Hloop. lia.
Qed.

Lemma plastic_loop_raises total l t w e w' tr :
  for_each (Plastic.process_changeset total) l t w = (Raise e, w', tr) ->
  (e = TypeError /\ exists ics, In ics l /\ Plastic.branch (snd ics) = None)
  \/ (e = AttributeError
      /\ exists ics, In ics l /\ ~ Forall paths_present (Plastic.changes (snd ics)))
  \/ (e = OSError /\ ~ files_never_fail).
Proof.
  revert t w tr. induction l as [|[i cs] l IH]; intros t w tr; cbn [for_each].
  - by intros [=].
  - intros [(t1 & w1 & tr1 & tr2 & Hstep & Hloop & ->)|(e' & Hstep & [= <-])]%bind_inv.
    + destruct (IH _ _ _ Hloop) as [(-> & ics & Hin & Hb)|[(-> & ics & Hin & Hb)|Hos]].
      * left. split; [done|]. exists ics. split; [by right|done].
      * right. left. split; [done|]. exists ics. split; [by right|done].
      * by do 2 right.
    + destruct (plastic_step_files _ _ _ _ _ _ _ _ Hstep) as (_ & _ & Hr).
      destruct (Hr e eq_refl) as [(-> & Hb)|[(-> & Hb)|Hos]].
      * left. split; [done|]. exists (i, cs). split; [by left|done].
      * right. left. split; [done|]. exists (i, cs). split; [by left|done].
      * by do 2 right.
Qed.
End PlasticParts.

(** ** The run of [migrate_history] *)

Lemma flat_map_singleton {A B} (f : A -> B) l : flat_map (fun x => [f x]) l = map f l.
Proof. induction l as [|x l IH]; simpl; [done|]. by rewrite IH. Qed.

Lemma flat_map_enumerate {A B} (key : A -> list B) (l : list A) :
  flat_map (fun ix => key (snd ix)) (enumerate l) = flat_map key l.
Proof.
  unfold enumerate. generalize 0%nat.
  induction l as [|x l IH]; intros i; simpl; [done|]. by rewrite IH.
Qed.

Lemma enumerate_In {A} (l : list A) ics : In ics (enumerate l) -> In (snd ics) l.
Proof.
  intros Hin. rewrite <- (enumerate_from_snd l 0). by apply in_map.
Qed.

Lemma size_list_to_set_le (l : list pystr) :
  (size (list_to_set l : gset pystr) <= length l)%nat.
Proof.
  induction l as [|x l IH].
  - by rewrite list_to_set_nil, size_empty.
  - rewrite list_to_set_cons, size_union_alt, size_singleton. cbn [length].
    assert (size (list_to_set l ∖ {[x]} : gset pystr)
            <= size (list_to_set l : gset pystr))%nat
      by (by apply subseteq_size, subseteq_difference_l).
    lia.
Qed.

Lemma length_omap_le {A B} (f : A -> option B) l : (length (omap f l) <= length l)%nat.
Proof.
  induction l as [|x l IH]; [done|].
  change (omap f (x :: l))
    with (match f x with Some y => y :: omap f l | None => omap f l end).
  destruct (f x); cbn [length]; lia.
Qed.

Lemma tracked_branches g t :
  tracking_inv t -> git_branches (tracked g t) = {[g]} ∪ git_branches t.
Proof.
  unfold tracked, tracking_inv. case_bool_decide as Hg; [|done].
  intros Hinv. specialize (Hinv g (eq_sym Hg)).
  apply set_eq. intros x. rewrite elem_of_union, elem_of_singleton.
  split; [by right|]. by intros [->|].
Qed.

Lemma plastic_branch_names_cons cs css b :
  Plastic.branch cs = Some b ->
  plastic_branch_names (cs :: css) = git_branch_name b :: plastic_branch_names css.
Proof. intros Hb. unfold plastic_branch_names. simpl. by rewrite Hb. Qed.

Section PlasticRun.
Context `{Platform}.

Lemma plastic_driver_unparsed root e w :
  Plastic.parse_xml_history root = Raise e ->
  Plastic.migrate_history root w = (Raise e, w, [Printed PParsing]).
Proof. intros Hparse. unfold Plastic.migrate_history. by rewrite Hparse. Qed.

(** The trace of a run that completes: three lines, the loop, the
    summary and the listing of the branches. *)
Lemma plastic_run_ok_shape root css w t w' tr :
  Plastic.parse_xml_history root = Ok css ->
  Plastic.migrate_history root w = (Ok t, w', tr) ->
  css <> []
  /\ exists wl trl first_id last_id o,
      for_each (Plastic.process_changeset (length css)) (enumerate css)
               tracking_init w = (Ok t, wl, trl)
      /\ tr = [Printed PParsing; Printed (PFound (length css) first_id last_id);
               Printed PStarting]
                ++ trl
                ++ [Printed (PSummary (length css) (size (git_branches t)));
                    Printed PBranchesHeader; Ran GitBranchAll o]
                ++ crash_note GitBranchAll o.
Proof.
  intros Hparse Hrun.
  assert (css <> []) as Hne.
  { intros ->. by rewrite plastic_driver_empty in Hrun. }
  split; [done|].
  destruct (plastic_driver_shape root css w Hparse Hne)
    as (rl & wl & trl & fid & lid & Hloop & Hm).
  rewrite Hm in Hrun. clear Hm.
  destruct rl as [t0|e]; [|done].
  destruct (shell (cmd_text GitBranchAll) wl) as [o wb].
  injection Hrun as -> <- Htr.
  exists wl, trl, fid, lid, o. split; [done|]. symmetry. exact Htr.
Qed.

Lemma plastic_loop_branches total l t w t' w' tr :
  for_each (Plastic.process_changeset total) l t w = (Ok t', w', tr) ->
  tracking_inv t ->
  git_branches t' = list_to_set (plastic_branch_names (map snd l)) ∪ git_branches t.
Proof.
  revert t w tr. induction l as [|[i cs] l IH]; intros t w tr; cbn [for_each].
  - intros [= <- <- <-] _.
    change (plastic_branch_names (map snd [])) with (@nil pystr).
    rewrite list_to_set_nil. apply set_eq. intros x.
    rewrite elem_of_union, elem_of_empty. tauto.
  - intros (t1 & w1 & tr1 & tr2 & Hstep & Hloop & ->)%bind_ok_inv Hinv.
    destruct (plastic_step_ok_branch _ _ _ _ _ _ _ Hstep) as [b Hb]. cbn [snd] in Hb.
    destruct (plastic_step_facts _ _ _ _ _ _ _ _ _ Hb Hstep) as (_ & _ & _ & -> & _).
    rewrite (IH _ _ _ Hloop (tracked_inv _ _ Hinv)), tracked_branches by done.
    cbn [map snd]. rewrite (plastic_branch_names_cons _ _ _ Hb), list_to_set_cons.
    apply set_eq. intros x. rewrite !elem_of_union. tauto.
Qed.

Lemma plastic_run_in_pairs root w :
  in_pairs None (trace_of (Plastic.migrate_history root) w).
Proof.
  unfold trace_of.
  destruct (Plastic.parse_xml_history root) as [css|e] eqn:Hparse.
  2:{ by rewrite (plastic_driver_unparsed _ _ _ Hparse). }
  destruct (decide (css = [])) as [->|Hne].
  { by rewrite (plastic_driver_empty _ _ Hparse). }
  destruct (plastic_driver_shape root css w Hparse Hne)
    as (rl & wl & trl & fid & lid & Hloop & Hm).
  rewrite Hm. clear Hm.
  assert (forall prev, in_pairs prev trl) as Hl.
  { eapply for_each_in_pairs; [|exact Hloop].
    intros [i cs] t0 w0 r0 w0' tr0 Hstep.
    by apply (plastic_step_files _ _ _ _ _ _ _ _ Hstep). }
  destruct rl as [t|e].
  - destruct (shell (cmd_text GitBranchAll) wl) as [o wb]. cbn [snd].
    apply in_pairs_app; [done|]. intros prev1.
    apply in_pairs_app; [done|]. intros prev2.
    by destruct o.
  - cbn [snd]. by apply in_pairs_app.
Qed.
End PlasticRun.

(** What a run of [migrate_history] that completes has run and written. *)
Lemma plastic_run_ok_reads (P : Platform) root css w t w' tr :
  Plastic.parse_xml_history root = Ok css ->
  Plastic.migrate_history root w = (Ok t, w', tr) ->
  map fst (commit_attempts tr) = map plastic_commit_of css
  /\ map fst (cm_cat_attempts tr) = flat_map retrievals css
  /\ (length (written tr) + length (warnings tr) = length (cm_cat_attempts tr))%nat.
Proof.
  intros Hparse Hrun.
  destruct (plastic_run_ok_shape _ _ _ _ _ _ Hparse Hrun)
    as (_ & wl & trl & fid & lid & o & Hloop & ->).
  assert (map fst (commit_attempts trl) = map plastic_commit_of css) as Hc.
  { rewrite (for_each_collect _ (fun tr => map fst (commit_attempts tr))
               (fun ics => [plastic_commit_of (snd ics)]) _ _ _ _ _ _
               (fun t1 t2 => eq_trans (f_equal (map fst) (commit_attempts_app t1 t2))
                                      (map_app fst _ _))
               (fun x s w s' w' tr Hs => proj1 (plastic_step_commit _ _ _ _ _ _ _ Hs))
               Hloop).
    by rewrite (flat_map_enumerate (fun cs => [plastic_commit_of cs])),
      flat_map_singleton. }
  assert (map fst (cm_cat_attempts trl) = flat_map retrievals css) as Hr.
  { rewrite (for_each_collect _ (fun tr => map fst (cm_cat_attempts tr))
               (fun ics => retrievals (snd ics)) _ _ _ _ _ _
               (fun t1 t2 => eq_trans (f_equal (map fst) (cm_cat_attempts_app t1 t2))
                                      (map_app fst _ _))
               (fun x s w s' w' tr Hs => proj2 (plastic_step_commit _ _ _ _ _ _ _ Hs))
               Hloop).
    apply (flat_map_enumerate retrievals). }
  pose proof (plastic_loop_counts _ _ _ _ _ _ _ Hloop) as Hn.
  rewrite !commit_attempts_app, !cm_cat_attempts_app, !written_app, !warnings_app.
  destruct o; cbn; rewrite !app_nil_r; done.
Qed.

(** X12: a run of [migrate_history] that completes attempts one commit for
    each changeset, in the order of the ids, with the message
    [generate_commit_message] gives and the date of the changeset, always in
    the name of the configured author; the owner recorded in the history is
    not used.  The contents retrieved are those of the added, changed and
    moved files of the changesets, in the same order. *)
Theorem plastic_run_commits_every_changeset (P : Platform) root css w t w' tr :
  Plastic.parse_xml_history root = Ok css ->
  Plastic.migrate_history root w = (Ok t, w', tr) ->
  map fst (commit_attempts tr) = map plastic_commit_of css
  /\ map fst (cm_cat_attempts tr) = flat_map retrievals css
  /\ Forall (fun r => exists date_str message_safe,
                 fst r = GitCommit GIT_AUTHOR_EMAIL GIT_AUTHOR_NAME date_str message_safe)
            (commit_attempts tr).
Proof.
  intros Hparse Hrun.
  destruct (plastic_run_ok_reads _ _ _ _ _ _ _ Hparse Hrun) as (Hc & Hr & _).
  split; [done|]. split; [done|].
  apply Forall_forall. intros r Hin.
  assert (fst r ∈ map plastic_commit_of css) as Hin'.
  { rewrite <- Hc. apply list_elem_of_fmap. by exists r. }
  apply list_elem_of_fmap in Hin' as (cs & -> & _).
  by eexists _, _.
Qed.

Lemma plastic_run_commits_every_changeset_witness :
  exists t w' tr,
    @Plastic.migrate_history all_succeed history_2_1 tt = (Ok t, w', tr)
    /\ map fst (commit_attempts tr)
       = [plastic_commit_of cs_padded_comment; plastic_commit_of cs_added_file]
    /\ map fst (cm_cat_attempts tr) = [CmCat (Some (lit "/a.txt")) 2].
Proof.
  assert (@Plastic.parse_xml_history all_succeed history_2_1
          = Ok [cs_padded_comment; cs_added_file]) as Hparse
    by (vm_compute; reflexivity).
  assert (exists t w' tr,
             @Plastic.migrate_history all_succeed history_2_1 tt = (Ok t, w', tr))
    as (t & w' & tr & Hrun) by (eexists _, _, _; vm_compute; reflexivity).
  destruct (plastic_run_commits_every_changeset all_succeed history_2_1 _ tt t w' tr
              Hparse Hrun) as (Hc & Hr & _).
  exists t, w', tr. split; [exact Hrun|]. split; [exact Hc|exact Hr].
Defined.

(** X13: the branches a run records are the mapped names of its
    changesets and no other.  When [migrate_history] completes the set is
    exactly that of the names of all changesets, so the number of branches
    it reports is the number of distinct names, at most the number of
    changesets. *)
Theorem recorded_branches_are_the_mapped_names (P : Platform) root css w t w' tr :
  Plastic.parse_xml_history root = Ok css ->
  Plastic.migrate_history root w = (Ok t, w', tr) ->
  git_branches t = list_to_set (plastic_branch_names css)
  /\ (1 <= size (git_branches t) <= length css)%nat
  /\ In (PSummary (length css) (size (list_to_set (plastic_branch_names css) : gset pystr)))
        (printed tr).
Proof.
  intros Hparse Hrun.
  destruct (plastic_run_ok_shape _ _ _ _ _ _ Hparse Hrun)
    as (Hne & wl & trl & fid & lid & o & Hloop & ->).
  pose proof (plastic_loop_branches _ _ _ _ _ _ _ Hloop tracking_init_inv) as Hb.
  unfold enumerate in Hb.
  rewrite enumerate_from_snd in Hb. cbn [git_branches tracking_init] in Hb.
  assert (git_branches t = list_to_set (plastic_branch_names css)) as Ht.
  { rewrite Hb. apply set_eq. intros x. rewrite elem_of_union, elem_of_empty. tauto. }
  split; [done|]. split; [split|].
  - destruct css as [|cs0 css']; [done|].
    destruct (plastic_loop_tracking _ _ _ _ _ _ _ Hloop tracking_init_inv)
      as (_ & _ & Hall).
    apply Forall_cons in Hall as [Hcs0 _]. cbn [snd] in Hcs0.
    cbn [enumerate enumerate_from for_each] in Hloop.
    apply bind_ok_inv in Hloop as (t1 & w1 & tr1 & tr2 & Hstep & _).
    destruct (plastic_step_ok_branch _ _ _ _ _ _ _ Hstep) as [b Hb0].
    specialize (Hcs0 b Hb0).
    destruct (decide (size (git_branches t) = 0%nat)) as [Hz|Hz]; [|lia].
    apply size_empty_inv in Hz. apply Hz in Hcs0. by apply elem_of_empty in Hcs0.
  - rewrite Ht. etrans; [apply size_list_to_set_le|]. apply length_omap_le.
  - rewrite <- Ht. apply printed_In. rewrite !in_app_iff. right. right. left. by left.
Qed.

Lemma recorded_branches_are_the_mapped_names_witness :
  exists t w' tr,
    @Plastic.migrate_history checkout_fails history_same_branch tt = (Ok t, w', tr)
    /\ size (git_branches t) = 1%nat.
Proof.
  assert (exists css,
             @Plastic.parse_xml_history checkout_fails history_same_branch = Ok css
             /\ plastic_branch_names css = [lit "main"; lit "main"])
    as (css & Hparse & Hnames) by (eexists; split; vm_compute; reflexivity).
  assert (exists t w' tr,
             @Plastic.migrate_history checkout_fails history_same_branch tt
             = (Ok t, w', tr))
    as (t & w' & tr & Hrun) by (eexists _, _, _; vm_compute; reflexivity).
  destruct (recorded_branches_are_the_mapped_names checkout_fails history_same_branch
              css tt t w' tr Hparse Hrun) as (Ht & _ & _).
  exists t, w', tr. split; [exact Hrun|].
  rewrite Ht, Hnames. cbn [list_to_set].
  assert ({[lit "main"]} ∪ ({[lit "main"]} ∪ ∅) = ({[lit "main"]} : gset pystr)) as ->.
  { apply set_eq. intros x. rewrite !elem_of_union, elem_of_empty. tauto. }
  apply size_singleton.
Defined.

(** ** What stops a run *)

Lemma plastic_run_raises (P : Platform) root css w e w' tr :
  Plastic.parse_xml_history root = Ok css ->
  Plastic.migrate_history root w = (Raise e, w', tr) ->
  (e = IndexError /\ css = [])
  \/ (e = TypeError /\ exists cs, In cs css /\ Plastic.branch cs = None)
  \/ (e = AttributeError
      /\ exists cs, In cs css /\ ~ Forall paths_present (Plastic.changes cs))
  \/ (e = OSError /\ ~ files_never_fail).
Proof.
  intros Hparse Hrun.
  destruct (decide (css = [])) as [->|Hne].
  { rewrite (plastic_driver_empty _ _ Hparse) in Hrun. injection Hrun as <- _ _.
    by left. }
  right.
  destruct (plastic_driver_shape root css w Hparse Hne)
    as (rl & wl & trl & fid & lid & Hloop & Hm).
  rewrite Hm in Hrun. clear Hm.
  destruct rl as [t|e0].
  { by destruct (shell (cmd_text GitBranchAll) wl). }
  injection Hrun as -> _ _.
  destruct (plastic_loop_raises _ _ _ _ _ _ _ Hloop)
    as [(-> & ics & Hin & Hb)|[(-> & ics & Hin & Hb)|Hos]].
  - left. split; [done|]. exists (snd ics). split; [by apply enumerate_In|done].
  - right. left. split; [done|]. exists (snd ics).
    split; [by apply enumerate_In|done].
  - by do 2 right.
Qed.

(** X14: once the history is read, a run of [migrate_history] stops for
    one of four reasons only: there is no changeset ([IndexError]), a
    changeset has a [Branch] without text ([TypeError]), a change has a
    path without text ([AttributeError]), or a file operation fails
    ([OSError]).  No result of [git] or [cm] stops it: when the file
    operations do not fail, the history is not empty and every changeset has
    its branch and its paths, the run completes. *)
Theorem plastic_migrate_stops_only_for (P : Platform) root css w :
  Plastic.parse_xml_history root = Ok css ->
  (forall e w' tr,
      Plastic.migrate_history root w = (Raise e, w', tr) ->
      (e = IndexError /\ css = [])
      \/ (e = TypeError /\ exists cs, In cs css /\ Plastic.branch cs = None)
      \/ (e = AttributeError
          /\ exists cs, In cs css /\ ~ Forall paths_present (Plastic.changes cs))
      \/ (e = OSError /\ ~ files_never_fail))
  /\ (files_never_fail -> css <> [] ->
      Forall (fun cs => is_Some (Plastic.branch cs)
                        /\ Forall paths_present (Plastic.changes cs)) css ->
      exists t w' tr, Plastic.migrate_history root w = (Ok t, w', tr)).
Proof.
  intros Hparse. split; [intros e w' tr; by apply plastic_run_raises|].
  intros Hfiles Hne Hall.
  destruct (Plastic.migrate_history root w) as [[[t|e] w'] tr] eqn:Hrun; [eauto|].
  rewrite Forall_forall in Hall.
  destruct (plastic_run_raises _ _ _ _ _ _ _ Hparse Hrun)
    as [[_ ->]|[(_ & cs & Hin & Hb)|[(_ & cs & Hin & Hp)|[_ Hos]]]]; try done.
  - apply list_elem_of_In, Hall in Hin as [[b Hb'] _]. congruence.
  - by apply list_elem_of_In, Hall in Hin as [_ Hp'].
Qed.

Lemma all_succeed_files_never_fail : @files_never_fail all_succeed.
Proof. repeat split; intros; by eexists. Qed.

Lemma plastic_migrate_stops_only_for_witness :
  exists t w' tr, @Plastic.migrate_history all_succeed history_2_1 tt = (Ok t, w', tr).
Proof.
  assert (@Plastic.parse_xml_history all_succeed history_2_1
          = Ok [cs_padded_comment; cs_added_file]) as Hparse
    by (vm_compute; reflexivity).
  apply (plastic_migrate_stops_only_for all_succeed history_2_1 _ tt Hparse).
  - exact all_succeed_files_never_fail.
  - discriminate.
  - repeat first [apply Forall_nil_2
                 | apply Forall_cons_2
                 | split
                 | by eexists ].
Defined.

(** ** Files written and removed *)

(** X15: in every run of [migrate_history], however it ends, a file is
    written right after [os.makedirs] was called on its directory, and
    [git rm] is run on a path right after the file at that path was removed
    from the working directory; nothing is written or unstaged otherwise. *)
Theorem writes_and_removals_are_prepared (P : Platform) root w i e :
  trace_of (Plastic.migrate_history root) w !! i = Some e ->
  match e with
  | Wrote p _ =>
      exists j, i = S j
                /\ trace_of (Plastic.migrate_history root) w !! j
                   = Some (MadeDirs (path_dirname p))
  | Ran (GitRm p) _ =>
      exists j, i = S j
                /\ trace_of (Plastic.migrate_history root) w !! j
                   = Some (Removed (path_join WORK_DIR (lstrip_char (chr "/") p)))
  | _ => True
  end.
Proof.
  intros Hi.
  pose proof (in_pairs_lookup None _ i e (plastic_run_in_pairs root w) Hi) as Hf.
  destruct e as [c o| | | p c |]; try done.
  - destruct c; try done. destruct i as [|j]; [done|]. by exists j.
  - destruct i as [|j]; [done|]. by exists j.
Qed.

Lemma writes_and_removals_are_prepared_witness :
  exists p content,
    trace_of (@Plastic.migrate_history all_succeed history_2_1) tt !! 14%nat
    = Some (Wrote p content)
    /\ trace_of (@Plastic.migrate_history all_succeed history_2_1) tt !! 13%nat
       = Some (MadeDirs (@path_dirname all_succeed p)).
Proof.
  assert (exists p content,
             trace_of (@Plastic.migrate_history all_succeed history_2_1) tt !! 14%nat
             = Some (Wrote p content)) as (p & content & Hw)
    by (eexists _, _; vm_compute; reflexivity).
  destruct (writes_and_removals_are_prepared all_succeed history_2_1 tt 14%nat
              (Wrote p content) Hw) as (j & Hj & Hm).
  injection Hj as <-. by exists p, content.
Defined.

(** X16: in a run of [migrate_history] that completes, every retrieval
    ends in one write or in one warning: the files written and the warnings
    printed are together as many as the added, changed and moved files of
    all changesets. *)
Theorem every_retrieval_is_written_or_warned (P : Platform) root css w t w' tr :
  Plastic.parse_xml_history root = Ok css ->
  Plastic.migrate_history root w = (Ok t, w', tr) ->
  (length (written tr) + length (warnings tr)
   = length (flat_map retrievals css))%nat.
Proof.
  intros Hparse Hrun.
  destruct (plastic_run_ok_reads _ _ _ _ _ _ _ Hparse Hrun) as (_ & Hr & Hn).
  by rewrite Hn, <- Hr, length_map.
Qed.

Lemma every_retrieval_is_written_or_warned_witness :
  exists t w' tr,
    @Plastic.migrate_history all_succeed history_2_1 tt = (Ok t, w', tr)
    /\ (length (written tr) + length (warnings tr) = 1)%nat.
Proof.
  assert (@Plastic.parse_xml_history all_succeed history_2_1
          = Ok [cs_padded_comment; cs_added_file]) as Hparse
    by (vm_compute; reflexivity).
  assert (exists t w' tr,
             @Plastic.migrate_history all_succeed history_2_1 tt = (Ok t, w', tr))
    as (t & w' & tr & Hrun) by (eexists _, _, _; vm_compute; reflexivity).
  exists t, w', tr. split; [exact Hrun|].
  exact (every_retrieval_is_written_or_warned all_succeed history_2_1 _ tt t w' tr
           Hparse Hrun).
Defined.

(** ** The command helpers *)

(** X17: the command helpers.  Called without [check], as every call of
    the script is, [run_command] never raises: it runs the one command it is
    given and nothing else, hands back no content without capture, and
    reports a call that raised inside with return code 1, so that a return
    code 0 always stands for a process that exited with 0 (and, with
    capture, whose output could be decoded).  Called with [check] it prints
    nothing and returns only for a process that exited with 0: any other
    return code raises [RuntimeError], and what [subprocess.run] raised is
    raised again.  [run_cmd], which has no [check], behaves as [run_command]
    without it. *)
Theorem command_helpers_raise_only_when_checked (P : Platform) c capture w :
  (exists o w' content code notes,
      shell (cmd_text c) w = (o, w')
      /\ Plastic.run_command c capture false w
         = (Ok (content, code), w', Ran c o :: notes)
      /\ runs notes = []
      /\ (capture = false -> content = None)
      /\ (o = Crashed -> code = 1)
      /\ (code = 0 ->
          exists stdout, o = Exited stdout 0
                         /\ (capture = true ->
                             exists text, text_decode stdout = Some text
                                          /\ content = Some (strip text))))
  /\ (exists o w' r,
      shell (cmd_text c) w = (o, w')
      /\ Plastic.run_command c capture true w = (r, w', [Ran c o])
      /\ match r with
         | Ok (content, code) =>
             code = 0
             /\ exists stdout,
                 o = Exited stdout 0
                 /\ (capture = false -> content = None)
                 /\ (capture = true ->
                     exists text, text_decode stdout = Some text
                                  /\ content = Some (strip text))
         | Raise e =>
             (e = RuntimeError
              /\ exists stdout rc, o = Exited stdout rc /\ rc <> 0)
             \/ (e = SubprocessRunError
                 /\ (o = Crashed
                     \/ exists stdout rc,
                         o = Exited stdout rc /\ capture = true
                         /\ text_decode stdout = None))
         end)
  /\ (exists o w' content code notes,
      shell (cmd_text c) w = (o, w')
      /\ Simple.run_cmd c capture w = (Ok (content, code), w', Ran c o :: notes)
      /\ runs notes = []
      /\ (capture = false -> content = None)
      /\ (o = Crashed -> code = 1)
      /\ (code = 0 ->
          exists stdout, o = Exited stdout 0
                         /\ (capture = true ->
                             exists text, text_decode stdout = Some text
                                          /\ content = Some (strip text)))).
Proof.
  split; [|split].
  - unfold Plastic.run_command, bind, subprocess_run.
    destruct (shell (cmd_text c) w) as [[stdout rc|] w'] eqn:Hs; cbn beta iota.
    + destruct capture; cbn beta iota.
      * destruct (text_decode stdout) as [text|] eqn:Hd; cbn.
        -- eexists _, _, _, _, _. split; [done|]. split; [done|].
           repeat split; try done. intros ->. exists stdout. split; [done|].
           intros _. by exists text.
        -- eexists _, _, _, _, _. split; [done|]. split; [done|].
           by repeat split.
      * cbn. eexists _, _, _, _, _. split; [done|]. split; [done|].
        repeat split; try done. intros ->. by exists stdout.
    + cbn. eexists _, _, _, _, _. split; [done|]. split; [done|]. by repeat split.
  - unfold Plastic.run_command, bind, subprocess_run.
    destruct (shell (cmd_text c) w) as [[stdout rc|] w'] eqn:Hs; cbn beta iota.
    + destruct capture; cbn beta iota.
      * destruct (text_decode stdout) as [text|] eqn:Hd.
        -- destruct (Z.eqb_spec rc 0) as [->|Hrc]; cbn.
           ++ eexists _, _, _. split; [done|]. split; [done|]. cbn.
              split; [done|]. exists stdout. split; [done|]. split; [done|].
              intros _. by exists text.
           ++ eexists _, _, _. split; [done|]. split; [done|]. cbn.
              left. split; [done|]. by exists stdout, rc.
        -- cbn. eexists _, _, _. split; [done|]. split; [done|]. cbn.
           right. split; [done|]. right. by exists stdout, rc.
      * destruct (Z.eqb_spec rc 0) as [->|Hrc]; cbn.
        -- eexists _, _, _. split; [done|]. split; [done|]. cbn.
           split; [done|]. exists stdout. by repeat split.
        -- eexists _, _, _. split; [done|]. split; [done|]. cbn.
           left. split; [done|]. by exists stdout, rc.
    + cbn. eexists _, _, _. split; [done|]. split; [done|]. cbn.
      right. split; [done|]. by left.
  - unfold Simple.run_cmd, bind, subprocess_run.
    destruct (shell (cmd_text c) w) as [[stdout rc|] w'] eqn:Hs; cbn beta iota.
    + destruct capture; cbn beta iota.
      * destruct (text_decode stdout) as [text|] eqn:Hd; cbn.
        -- eexists _, _, _, _, _. split; [done|]. split; [done|].
           repeat split; try done. intros ->. exists stdout. split; [done|].
           intros _. by exists text.
        -- eexists _, _, _, _, _. split; [done|]. split; [done|].
           by repeat split.
      * cbn. eexists _, _, _, _, _. split; [done|]. split; [done|].
        repeat split; try done. intros ->. by exists stdout.
    + cbn. eexists _, _, _, _, _. split; [done|]. split; [done|]. by repeat split.
Qed.

Lemma command_helpers_raise_only_when_checked_witness :
  (exists w' tr,
      @Plastic.run_command all_succeed (CmCat (Some (lit "/a.txt")) 2) true false tt
      = (Ok (Some (lit "hi"), 0), w', tr))
  /\ outcome_of (@Plastic.run_command checkout_fails (GitCheckout (lit "main"))
                   false true) tt
     = Raise RuntimeError.
Proof.
  split.
  - destruct (command_helpers_raise_only_when_checked all_succeed
                (CmCat (Some (lit "/a.txt")) 2) true tt)
      as [(o & w' & content & code & notes & Hs & Hrun & _ & _ & _ & Hz) _].
    assert (code = 0) as ->.
    { vm_compute in Hrun. by injection Hrun as _ <- _ _. }
    destruct (Hz eq_refl) as (stdout & -> & Hcap).
    destruct (Hcap eq_refl) as (text & Hd & ->).
    vm_compute in Hs. injection Hs as <- _.
    vm_compute in Hd. injection Hd as <-.
    exists w', (Ran (CmCat (Some (lit "/a.txt")) 2) (Exited hi_newline 0) :: notes).
    exact Hrun.
  - destruct (command_helpers_raise_only_when_checked checkout_fails
                (GitCheckout (lit "main")) false tt)
      as (_ & (o & w' & r & Hs & Hrun & Hr) & _).
    unfold outcome_of. rewrite Hrun. cbn [fst].
    vm_compute in Hs. injection Hs as <- _.
    destruct r as [[content code]|e].
    + destruct Hr as (_ & stdout & [=] & _).
    + destruct Hr as [[-> _]|(_ & [[=]|(stdout & rc & _ & [=] & _)])]. reflexivity.
Defined.

(** ** Comments without whitespace at the ends *)

Lemma rev_reverse {A} (l : list A) : rev l = reverse l.
Proof. by rewrite rev_alt. Qed.

Lemma lstrip_with_fixed p s :
  (forall c, head s = Some c -> p c = false) -> lstrip_with p s = s.
Proof. destruct s as [|c s]; [done|]. intros Hc. simpl. by rewrite (Hc c). Qed.

Lemma rstrip_with_fixed p s :
  (forall c, last s = Some c -> p c = false) -> rstrip_with p s = s.
Proof.
  intros Hc. unfold rstrip_with. rewrite lstrip_with_fixed; [apply rev_involutive|].
  intros c. rewrite rev_reverse, head_reverse. apply Hc.
Qed.

Lemma strip_fixed s : trimmed s -> strip s = s.
Proof.
  intros [Hh Hl]. unfold strip. rewrite (lstrip_with_fixed _ s Hh).
  by apply rstrip_with_fixed.
Qed.

Lemma rstrip_with_prefix p s : exists suf, s = rstrip_with p s ++ suf.
Proof.
  unfold rstrip_with.
  destruct (lstrip_with_split p (rev s)) as (pre & Hs & _).
  exists (rev pre). rewrite <- rev_app_distr, <- Hs. symmetry. apply rev_involutive.
Qed.

Lemma strip_trimmed s : trimmed (strip s).
Proof.
  unfold strip. set (t := lstrip_with isspace s). split.
  - intros c Hc. destruct (rstrip_with_prefix isspace t) as [suf Ht].
    destruct (rstrip_with isspace t) as [|c' r]; [done|]. injection Hc as ->.
    apply (lstrip_with_head isspace s). fold t. by rewrite Ht.
  - intros c. unfold rstrip_with. rewrite rev_reverse, last_reverse.
    apply lstrip_with_head.
Qed.

Lemma trimmed_ends (a b : N) (s : pystr) :
  isspace a = false -> isspace b = false -> trimmed (a :: s ++ [b]).
Proof.
  intros Ha Hb. split.
  - by intros c [= <-].
  - intros c. change (a :: s ++ [b]) with ((a :: s) ++ [b]). rewrite last_snoc.
    by intros [= <-].
Qed.

Lemma join_trimmed sep parts :
  parts <> [] -> Forall (fun p => p <> [] /\ trimmed p) parts ->
  trimmed (join sep parts).
Proof.
  intros Hne Hall. split.
  - destruct parts as [|p ps]; [done|].
    apply Forall_cons in Hall as [[Hp [Hh _]] _].
    intros c Hc. apply Hh. destruct p as [|x p]; [done|].
    cbn in Hc. by destruct ps.
  - induction parts as [|p ps IH]; [done|].
    apply Forall_cons in Hall as [[Hp [_ Hl]] Hps].
    destruct ps as [|q ps]; [exact Hl|].
    intros c. change (join sep (p :: q :: ps)) with (p ++ sep ++ join sep (q :: ps)).
    rewrite !last_app.
    assert (join sep (q :: ps) <> []) as Hj.
    { apply Forall_cons in Hps as [[Hq _] _]. destruct q; [done|]. by destruct ps. }
    apply last_is_Some in Hj as [y Hy]. rewrite Hy. intros [= <-].
    by apply (IH ltac:(done) Hps).
Qed.

Lemma message_parts_trimmed m : Forall (fun p => p <> [] /\ trimmed p) (message_parts m).
Proof.
  assert (forall (verb : pystr) a v n,
             verb = a :: v -> isspace a = false ->
             (verb ++ str_of_nat n ++ lit " file(s)") <> []
             /\ trimmed (verb ++ str_of_nat n ++ lit " file(s)")) as Hpart.
  { intros verb a v n -> Ha. split; [done|].
    change (lit " file(s)") with (lit " file(s" ++ [41%N]).
    rewrite !app_assoc. rewrite <- !app_assoc. cbn [app].
    rewrite !app_assoc. by apply trimmed_ends. }
  unfold message_parts.
  repeat match goal with
         | |- context [negb ?b] => destruct (negb b)
         end;
    rewrite ?Forall_app; repeat split; try apply Forall_nil_2;
    try (apply Forall_singleton; eapply Hpart; [reflexivity|reflexivity]).
Qed.

Lemma fallback_message_trimmed cs_id : trimmed (fallback_message cs_id).
Proof.
  unfold fallback_message.
  change (lit ")") with [41%N].
  change (lit "Update (changeset ") with (85%N :: lit "pdate (changeset ").
  rewrite app_assoc. by apply trimmed_ends.
Qed.

(** X18: the comment [parse_history] stores has no whitespace at either
    end: it is the trimmed comment of the record, or a message put together
    by the script, and trimming it again changes nothing. *)
Theorem simple_comment_is_trimmed (P : Platform) e cs :
  Simple.parse_changeset e = Ok cs ->
  trimmed (Simple.comment cs) /\ strip (Simple.comment cs) = Simple.comment cs.
Proof.
  intros (id_text & ct & m & _ & _ & _ & _ & _ & _ & ->)%simple_parse_changeset_inv.
  assert (trimmed (simple_comment (Simple.id cs) ct m)) as Ht.
  { unfold simple_comment.
    destruct (strip (or_empty ct)) as [|c s] eqn:Hs; cbn [nonempty negb].
    - destruct (message_parts m) as [|p ps] eqn:Hparts;
        [apply fallback_message_trimmed|].
      rewrite <- Hparts. apply join_trimmed; [by rewrite Hparts|].
      apply message_parts_trimmed.
    - rewrite <- Hs. apply strip_trimmed. }
  split; [done|]. by apply strip_fixed.
Qed.

Lemma simple_comment_is_trimmed_witness :
  exists cs,
    @Simple.parse_changeset all_succeed
      (changeset_elem "1" "/main" (Some " hi "%string) (Some [])) = Ok cs
    /\ strip (Simple.comment cs) = Simple.comment cs.
Proof.
  eexists. split; [vm_compute; reflexivity|].
  apply (simple_comment_is_trimmed all_succeed
           (changeset_elem "1" "/main" (Some " hi "%string) (Some []))).
  vm_compute. reflexivity.
Defined.

(** ** The progress lines *)

Lemma progress_lines_app t1 t2 :
  progress_lines (t1 ++ t2) = progress_lines t1 ++ progress_lines t2.
Proof. unfold progress_lines. by rewrite printed_app, List.filter_app. Qed.

Lemma no_progress_lines tr : progress_ids tr = [] -> progress_lines tr = [].
Proof.
  unfold progress_ids, progress_lines.
  induction (printed tr) as [|o l IH]; [done|].
  cbn [flat_map List.filter]. intros [Ho Hl]%app_eq_nil.
  rewrite (IH Hl). by destruct o.
Qed.

Section ProgressLines.
Context `{Platform}.

Lemma plastic_step_progress_line total ics t w t' w' tr :
  Plastic.process_changeset total ics t w = (Ok t', w', tr) ->
  progress_lines tr = [plastic_progress_line total ics].
Proof.
  intros Hrun. destruct (plastic_step_ok_branch _ _ _ _ _ _ _ Hrun) as [b Hb].
  destruct ics as [i cs]. cbn [snd] in Hb.
  destruct (plastic_step_facts _ _ _ _ _ _ _ _ _ Hb Hrun) as (Hids & _).
  destruct (plastic_step_parts total i cs t w b Hb)
    as (w1 & tr_b & r_f & w2 & tr_f & _ & _ & Hshape).
  assert (exists rest,
             tr = [Printed (PProgress (i + 1) total (Plastic.id cs) (take 40 b))]
                    ++ rest) as [rest ->].
  { destruct r_f as [[]|e].
    - destruct Hshape as (w3 & tr_c & code & _ & Heq).
      rewrite Heq in Hrun. injection Hrun as _ _ <-. by eexists.
    - rewrite Hshape in Hrun. discriminate Hrun. }
  rewrite progress_ids_app in Hids. rewrite progress_lines_app.
  injection Hids as Hrest. rewrite (no_progress_lines _ Hrest).
  unfold plastic_progress_line. cbn [fst snd]. by rewrite Hb.
Qed.

Lemma simple_step_progress_line total ics s w r w' tr :
  Simple.process_changeset total ics s w = (r, w', tr) ->
  progress_lines tr = [simple_progress_line total ics].
Proof.
  intros Hrun. destruct ics as [i cs].
  destruct (simple_step_facts _ _ _ _ _ _ _ _ Hrun) as (Hids & _).
  unfold Simple.process_changeset in Hrun.
  apply bind_inv in Hrun as [(u & w1 & t1 & t2 & Hp & _ & ->)|(e & Hp & _)];
    [|discriminate Hp].
  injection Hp as _ _ <-.
  rewrite progress_ids_app in Hids. rewrite progress_lines_app.
  injection Hids as Hrest. by rewrite (no_progress_lines _ Hrest).
Qed.
End ProgressLines.

(** X19: in a run that completes, the progress lines are those of the
    changesets in the order of the ids, numbered from 1, each with the
    number of changesets read as the total; [migrate_history] shows the
    first 40 characters of the branch path with each. *)
Theorem progress_lines_are_numbered (P : Platform) root w :
  (forall css t w' tr,
      Plastic.parse_xml_history root = Ok css ->
      Plastic.migrate_history root w = (Ok t, w', tr) ->
      progress_lines tr = map (plastic_progress_line (length css)) (enumerate css))
  /\ (forall css s w' tr,
      Simple.parse_history root = Ok css ->
      Simple.migrate root w = (Ok s, w', tr) ->
      progress_lines tr = map (simple_progress_line (length css)) (enumerate css)).
Proof.
  split.
  - intros css t w' tr Hparse Hrun.
    destruct (plastic_run_ok_shape _ _ _ _ _ _ Hparse Hrun)
      as (_ & wl & trl & fid & lid & o & Hloop & ->).
    rewrite !progress_lines_app.
    rewrite (for_each_collect _ progress_lines
               (fun ics => [plastic_progress_line (length css) ics]) _ _ _ _ _ _
               progress_lines_app
               (fun x s w s' w' tr Hs => plastic_step_progress_line _ _ _ _ _ _ _ Hs)
               Hloop).
    rewrite flat_map_singleton. destruct o; cbn; by rewrite app_nil_r.
  - intros css s w' tr Hparse Hrun.
    destruct (simple_driver_shape root css w Hparse) as (sf & wf & trl & Hloop & Hm).
    rewrite Hm in Hrun. clear Hm.
    destruct sf as [s0|e]; [|done]. injection Hrun as -> <- Htr.
    set (x := Printed (SSummary (Simple.success_count s) (length css)
                         (sorted_strs (git_branches (Simple.tracking s))))) in Htr.
    set (pre := [Printed SParsing; Printed (SFound (length css)); Printed SMigrating])
      in Htr.
    assert (tr = pre ++ trl ++ [x]) as -> by (symmetry; exact Htr). clear Htr.
    rewrite !progress_lines_app.
    rewrite (for_each_collect _ progress_lines
               (fun ics => [simple_progress_line (length css) ics]) _ _ _ _ _ _
               progress_lines_app
               (fun x s w s' w' tr Hs => simple_step_progress_line _ _ _ _ _ _ _ Hs)
               Hloop).
    rewrite flat_map_singleton. cbn. by rewrite app_nil_r.
Qed.

Lemma progress_lines_are_numbered_witness :
  exists s w' tr,
    @Simple.migrate switch_two_fails history_2_1 tt = (Ok s, w', tr)
    /\ progress_lines tr = [SProgress 1 2 1; SProgress 2 2 2].
Proof.
  assert (exists css, @Simple.parse_history switch_two_fails history_2_1 = Ok css
                      /\ map (simple_progress_line (length css)) (enumerate css)
                         = [SProgress 1 2 1; SProgress 2 2 2])
    as (css & Hparse & Hlines) by (eexists; split; vm_compute; reflexivity).
  assert (exists s w' tr,
             @Simple.migrate switch_two_fails history_2_1 tt = (Ok s, w', tr))
    as (s & w' & tr & Hrun) by (eexists _, _, _; vm_compute; reflexivity).
  destruct (progress_lines_are_numbered switch_two_fails history_2_1 tt) as [_ HS].
  exists s, w', tr. split; [exact Hrun|].
  rewrite <- Hlines. exact (HS css s w' tr Hparse Hrun).
Defined.

(** ** Creating a branch and committing *)

(** X20: [get_or_create_branch] announces a created branch whenever
    [git rev-parse] did not return 0, before and whatever the
    [git checkout -b] that follows returns; when [rev-parse] returned 0 it
    checks the branch out and announces nothing. *)
Theorem created_branch_is_announced_unchecked (P : Platform) branch_name w :
  exists w' tr c1 c2,
    Plastic.get_or_create_branch branch_name w
    = (Ok (git_branch_name branch_name), w', tr)
    /\ runs tr = [(GitRevParse (git_branch_name branch_name), c1);
                  ((if c1 =? 0 then GitCheckout (git_branch_name branch_name)
                    else GitCheckoutNew (git_branch_name branch_name)), c2)]
    /\ announced tr
       = if c1 =? 0 then [] else [PCreatedBranch (git_branch_name branch_name)].
Proof.
  unfold Plastic.get_or_create_branch.
  set (g := git_branch_name branch_name).
  unfold bind at 1. rewrite plastic_run_command_nocapture.
  destruct (shell (cmd_text (GitRevParse g)) w) as [o1 w1].
  destruct (returncode_of o1 =? 0) eqn:Hc.
  - unfold bind. cbn [negb].
    rewrite plastic_run_command_nocapture.
    destruct (shell (cmd_text (GitCheckout g)) w1) as [o2 w2]. simpl.
    eexists _, _, (returncode_of o1), (returncode_of o2).
    split; [reflexivity|]. rewrite Hc. destruct o1, o2; split; reflexivity.
  - unfold bind. cbn [negb].
    rewrite plastic_run_command_nocapture.
    destruct (shell (cmd_text (GitCheckoutNew g)) w1) as [o2 w2]. simpl.
    eexists _, _, (returncode_of o1), (returncode_of o2).
    split; [reflexivity|]. rewrite Hc. destruct o1, o2; split; reflexivity.
Qed.

(** X21: [create_git_commit] never raises.  It stages everything and then
    runs one commit command for the configured message, escaped, with the
    date and the author it is given; its result is whether that command
    returned 0, whatever [git add -A] returned; it writes nothing. *)
Theorem commit_result_ignores_staging (P : Platform) message date_str email name w :
  exists w' tr c_add code,
    Plastic.create_git_commit message date_str email name w
    = (Ok (code =? 0), w', tr)
    /\ runs tr = [(GitAddAll, c_add);
                  (GitCommit email name date_str (Plastic.escape_message message), code)]
    /\ written tr = [] /\ warnings tr = [].
Proof.
  destruct (create_git_commit_run message date_str email name w)
    as (w' & tr & code & Hc & Hruns & _ & Hw).
  destruct (create_git_commit_quiet _ _ _ _ _ _ _ _ Hc) as (Hwarn & _).
  by eexists w', tr, _, code.
Qed.
